(** * The SFTP backend of restic (src/restic/backend/sftp/sftp.go)

    A shallow embedding of the backend and of the collaborators it calls:
    Go's [path] package, the error values of [os], [restic/errors] and
    [github.com/pkg/sftp], the handle type of package [restic], and the sftp
    client.  The backend's methods are written once, over an arbitrary
    implementation of the client ([SftpClient]), and are run on an in-memory
    remote file system ([MemFS]) that records every request it serves. *)

From Stdlib Require Import ZArith Ascii String List Lia Bool.
From stdpp Require Import base option list strings gmap.

Local Open Scope string_scope.
Local Open Scope Z_scope.

(** ** Go's [path] package: slash-separated paths *)

Module GoPath.

Definition slash : ascii := "/"%char.

(** [strings.Split(s, sep)] for a one-byte separator *)
Fixpoint split_on (sep : ascii) (s : string) : list string :=
  match s with
  | EmptyString => [EmptyString]
  | String c s' =>
      if Ascii.eqb c sep then EmptyString :: split_on sep s'
      else match split_on sep s' with
           | x :: xs => String c x :: xs
           | [] => [String c EmptyString]
           end
  end.

Definition split_slash : string -> list string := split_on slash.

(** [strings.Join(l, "/")] *)
Fixpoint join_slash (l : list string) : string :=
  match l with
  | [] => EmptyString
  | [x] => x
  | x :: xs => x +:+ String slash (join_slash xs)
  end.

(** The three kinds of path element [path.Clean] tells apart. *)
Definition is_skip (c : string) : bool := String.eqb c "" || String.eqb c ".".
Definition is_dotdot (c : string) : bool := String.eqb c "..".

(** One iteration of the loop of [path.Clean], on whole path elements.  The
    output buffer is the stack [st] of the elements written so far, the last
    one first; the leading slash of a rooted path is kept apart in [rooted].
    A [..] element removes the last real element when there is one
    ([out.w > dotdot]); otherwise it is appended on a path that is not rooted
    and dropped on a rooted one. *)
Definition clean_step (rooted : bool) (st : list string) (c : string) : list string :=
  if is_skip c then st
  else if is_dotdot c then
    match st with
    | top :: rest => if is_dotdot top then (if rooted then st else c :: st) else rest
    | [] => if rooted then [] else [c]
    end
  else c :: st.

Definition clean_elems (rooted : bool) (l : list string) : list string :=
  fold_left (clean_step rooted) l [].

Definition is_rooted (s : string) : bool :=
  match s with
  | String c _ => Ascii.eqb c slash
  | EmptyString => false
  end.

(** What [out.string()] holds at the end of [path.Clean]. *)
Definition render (rooted : bool) (st : list string) : string :=
  if rooted then String slash (join_slash (rev st))
  else match st with
       | [] => "."
       | _ => join_slash (rev st)
       end.

(** [path.Clean] *)
Definition Clean (s : string) : string :=
  match s with
  | EmptyString => "."
  | _ => render (is_rooted s) (clean_elems (is_rooted s) (split_slash s))
  end.

(** [path.Join]: the elements from the first non-empty one on are joined
    with slashes and cleaned; the empty string when every element is empty. *)
Fixpoint Join (elem : list string) : string :=
  match elem with
  | [] => EmptyString
  | e :: rest =>
      if String.eqb e "" then Join rest else Clean (join_slash elem)
  end.

Fixpoint has_slash (s : string) : bool :=
  match s with
  | EmptyString => false
  | String c s' => Ascii.eqb c slash || has_slash s'
  end.

(** The first result of [path.Split]: [p[:strings.LastIndex(p, "/")+1]]. *)
Fixpoint split_dir (p : string) : string :=
  match p with
  | EmptyString => EmptyString
  | String c p' => if has_slash p then String c (split_dir p') else EmptyString
  end.

(** [path.Dir] *)
Definition Dir (p : string) : string := Clean (split_dir p).

(** [path.Base]: the last element, trailing slashes dropped; [.] for the
    empty path and [/] for a path of slashes only. *)
Definition Base (p : string) : string :=
  match rev (filter (fun c => negb (String.eqb c "") = true) (split_slash p)) with
  | c :: _ => c
  | [] => if String.eqb p "" then "." else "/"
  end.

(** The properties of path elements the cleaning depends on. *)
Definition slash_free (x : string) : Prop := has_slash x = false.

(** A real path element: not empty, not [.], not [..]. *)
Definition real_elem (c : string) : Prop := is_skip c = false /\ is_dotdot c = false.

Definition no_skip (c : string) : Prop := is_skip c = false.

End GoPath.

(** [Join] of sftp.go: [path.Clean(path.Join(parts...))]. *)
Definition Join (parts : list string) : string :=
  GoPath.Clean (GoPath.Join parts).


(** ** Error values *)

(** The error values the backend creates, receives and inspects.  A Go
    [error] that may be nil is an [option error]. *)
#[warnings="-register-all"]
Inductive error : Type :=
| ErrNew (msg : string)                      (* errors.New, errors.Errorf *)
| ErrWrap (cause : error) (msg : string)     (* errors.Wrap of a non-nil error *)
| ErrNotExist                                (* os.ErrNotExist *)
| ErrEOF                                     (* io.EOF *)
| Errno (n : Z)                              (* syscall.Errno *)
| PathError (op path : string) (err : error) (* *os.PathError *)
| StatusError (code : Z) (msg : string)      (* *sftp.StatusError *)
| ErrUnable (dir : string) (errMkdirAll errMkdir : option error).
                                             (* mkdirAll's Errorf over two errors *)

Abbreviation goerr := (option error).
Abbreviation result A := (error + A)%type.

(** [errors.Wrap]: nil stays nil. *)
Definition Wrap (err : goerr) (msg : string) : goerr :=
  match err with
  | None => None
  | Some e => Some (ErrWrap e msg)
  end.

Fixpoint cause_of (e : error) : error :=
  match e with
  | ErrWrap c _ => cause_of c
  | _ => e
  end.

(** [errors.Cause] *)
Definition Cause (err : goerr) : goerr := cause_of <$> err.

Definition ENOENT : Z := 2.

(** [os.IsNotExist]: the error below a [*PathError] is compared with
    [syscall.ENOENT] and [os.ErrNotExist]. *)
Definition os_IsNotExist (err : goerr) : bool :=
  match err with
  | None => false
  | Some e =>
      match (match e with PathError _ _ u => u | _ => e end) with
      | ErrNotExist => true
      | Errno n => Z.eqb n ENOENT
      | _ => false
      end
  end.

Definition SSH_FX_NO_SUCH_FILE : Z := 2.
Definition SSH_FX_PERMISSION_DENIED : Z := 3.
Definition SSH_FX_FAILURE : Z := 4.

(** The name [fx(code)] prints, for the status codes of the protocol. *)
Definition fx_name (code : Z) : string :=
  match code with
  | 0 => "SSH_FX_OK"
  | 1 => "SSH_FX_EOF"
  | 2 => "SSH_FX_NO_SUCH_FILE"
  | 3 => "SSH_FX_PERMISSION_DENIED"
  | 4 => "SSH_FX_FAILURE"
  | 5 => "SSH_FX_BAD_MESSAGE"
  | 6 => "SSH_FX_NO_CONNECTION"
  | 7 => "SSH_FX_CONNECTION_LOST"
  | 8 => "SSH_FX_OP_UNSUPPORTED"
  | _ => "unknown"
  end.

Definition dquote : string := String (ascii_of_nat 34) EmptyString.

(** The method [Error] of [sftp.StatusError], that is
    [fmt.Sprintf("sftp: %q (%v)", msg, fx(code))], for a message that [%q]
    prints without escapes. *)
Definition StatusError_Error (code : Z) (msg : string) : string :=
  "sftp: " +:+ dquote +:+ msg +:+ dquote +:+ " (" +:+ fx_name code +:+ ")".

Definition no_such_file_text : string :=
  "sftp: " +:+ dquote +:+ "No such file" +:+ dquote +:+ " (SSH_FX_NO_SUCH_FILE)".

(** [SFTP.IsNotExist] *)
Definition IsNotExist (err : goerr) : bool :=
  match err with
  | Some (StatusError code msg) => String.eqb (StatusError_Error code msg) no_such_file_text
  | _ => false
  end.

(** ** Handles, file information, configuration *)

(** [restic.FileType] is a string type; [OtherFile] stands for every value
    that is not one of the six constants. *)
Inductive FileType : Type :=
| DataFile | KeyFile | LockFile | SnapshotFile | IndexFile | ConfigFile
| OtherFile (tag : string).

Record Handle := { Type_ : FileType; Name : string }.

(** Modelled from the spec: [restic.Handle.Valid], of package [restic], which
    is not among the sources.  The type is one of the six, and the name is
    not empty except for Config. *)
Definition Valid (h : Handle) : goerr :=
  match Type_ h with
  | OtherFile _ => Some (ErrNew "invalid Type")
  | ConfigFile => None
  | _ => if String.eqb (Name h) "" then Some (ErrNew "invalid Name") else None
  end.

(** Modelled from the spec: the names of [backend.Paths], of package
    [restic/backend], which is not among the sources. *)
Module Paths.
Definition Data : string := "data".
Definition Snapshots : string := "snapshots".
Definition Index : string := "index".
Definition Locks : string := "locks".
Definition Keys : string := "keys".
Definition Temp : string := "temp".
Definition Config : string := "config".
End Paths.

(** [os.FileMode] is a [uint32]. *)
Abbreviation FileMode := Z (only parsing).

Definition ModeDir : FileMode := Z.shiftl 1 31.
Definition ModePerm : FileMode := 511.          (* 0777 *)

(** [os.FileMode(^uint32(0222))] *)
Definition not_writable_mask : FileMode := Z.lxor (Z.ones 32) 146.

(** [os.FileInfo] *)
Record FileInfo := { fi_Name : string; fi_Size : Z; fi_Mode : FileMode }.

Definition IsDir (fi : FileInfo) : bool := negb (Z.eqb (Z.land (fi_Mode fi) ModeDir) 0).

(** [*sftp.File]: the remote path and the offset the client keeps. *)
Record File := { f_path : string; f_offset : Z }.

(** The [io.Reader] handed to [Save]: the bytes it yields and the error, if
    any, it ends with instead of [io.EOF]. *)
Record Reader := { rd_data : list Byte.byte; rd_err : goerr }.

Definition O_RDONLY : Z := 0.
Definition O_WRONLY : Z := 1.
Definition O_CREATE : Z := 64.
Definition O_EXCL : Z := 128.

Record Config := {
  Host : string; User : string; Path : string; LayoutName : string; Command : string
}.

Definition zeroConfig : Config :=
  {| Host := ""; User := ""; Path := ""; LayoutName := ""; Command := "" |}.

(** [backend.Layout], as far as the backend calls it. *)
Record Layout := { Filename : Handle -> string }.

(** [SFTP]: the root path, the layout and the configuration.  The client,
    the subprocess and the channel [result] are part of the world the
    methods run in. *)
Record SFTP := { p : string; layout : Layout; config : Config }.

(** ** The collaborators: sftp client and subprocess *)

(** The methods of [*sftp.Client] and [*sftp.File] the backend calls, as
    transitions of a world [W]. *)
Class SftpClient (W : Type) := {
  c_Lstat : string -> W -> W * result FileInfo;
  c_Mkdir : string -> W -> W * goerr;
  c_Chmod : string -> FileMode -> W -> W * goerr;
  c_OpenFile : string -> Z -> W -> W * result File;
  c_Open : string -> W -> W * result File;
  c_Remove : string -> W -> W * goerr;
  c_Rename : string -> string -> W -> W * goerr;
  c_ReadDir : string -> W -> W * result (list FileInfo);
  c_Close : W -> W * goerr;
  f_Write : File -> list Byte.byte -> W -> W * (File * (Z * goerr));
  f_Read : File -> Z -> W -> W * (File * (list Byte.byte * goerr));
  f_Seek : File -> Z -> Z -> W -> W * (File * (Z * goerr));
  f_Close : File -> W -> W * goerr
}.

(** The subprocess behind the session: its start, the channel [result] that
    the waiting goroutine fills once, and the kill. *)
Class Subprocess (W : Type) := {
  (* exec.Command, the pipes, cmd.Start and sftp.NewClientPipe *)
  proc_start : string -> list string -> W -> W * goerr;
  (* select { case err := <-r.result: ...; default: } *)
  result_poll : W -> W * option goerr;
  (* select { case err := <-r.result: ...; case <-time.After(d): } *)
  result_wait : Z -> W -> W * option goerr;
  (* <-r.result *)
  result_recv : W -> W * goerr;
  (* r.cmd.Process.Kill() *)
  proc_Kill : W -> W * goerr
}.

(** ** State passing *)

(** A method that always returns: a transition of the world with a value. *)
Definition St (W A : Type) : Type := W -> W * A.

(** A method that may recurse without bound: [None] when the fuel runs out. *)
Definition Fu (W A : Type) : Type := W -> option (W * A).

Definition ret {W A} (a : A) : St W A := fun w => (w, a).
Definition bind {W A B} (m : St W A) (k : A -> St W B) : St W B :=
  fun w => let (w', a) := m w in k a w'.

Definition retF {W A} (a : A) : Fu W A := fun w => Some (w, a).
Definition bindF {W A B} (m : Fu W A) (k : A -> Fu W B) : Fu W B :=
  fun w => match m w with
           | Some (w', a) => k a w'
           | None => None
           end.
Definition lift {W A} (m : St W A) : Fu W A := fun w => Some (m w).

Notation "'let*' x ':=' m 'in' k" := (bind m (fun x => k))
  (at level 10, x pattern, m at level 100, k at level 200, only parsing).
Notation "'let+' x ':=' m 'in' k" := (bindF m (fun x => k))
  (at level 10, x pattern, m at level 100, k at level 200, only parsing).

(** [backend.LimitReadCloser(f, n)] and the plain file, as Load returns
    them.  Modelled from the spec: [LimitReadCloser], of package
    [restic/backend], is not among the sources; the bounded reader yields at
    most [n] bytes and then signals the end of the stream. *)
Record ReadCloser := { rc_file : File; rc_limit : option Z }.

Definition LimitReadCloser (f : File) (n : Z) : ReadCloser :=
  {| rc_file := f; rc_limit := Some n |}.

Definition zlen {A} (l : list A) : Z := Z.of_nat (length l).

(** ** The backend *)

Section Backend.
Context {W : Type} {client : SftpClient W} {proc : Subprocess W}.

(** [backend.Modes.Dir], [SplitShellArgs] and [backend.ParseLayout] are
    declared outside the sources: they are parameters. *)
Variable Modes_Dir : FileMode.
Variable SplitShellArgs : string -> string * list string * goerr.
Variable ParseLayout : string -> string -> string -> St W (result Layout).

Definition tempfileRandomSuffixLength : Z := 10.
Definition defaultLayout : string := "default".
Definition closeTimeout : Z := 2.

Definition startClient (program : string) (args : list string) : St W goerr :=
  proc_start program args.

Definition paths (dir : string) : list string :=
  [ dir;
    Join [dir; Paths.Data];
    Join [dir; Paths.Snapshots];
    Join [dir; Paths.Index];
    Join [dir; Paths.Locks];
    Join [dir; Paths.Keys];
    Join [dir; Paths.Temp] ].

Definition clientError (r : SFTP) : St W goerr :=
  let* o := result_poll in
  match o with
  | Some err => ret err
  | None => ret None
  end.

Definition buildSSHCommand (cfg : Config) : string * list string * goerr :=
  if negb (String.eqb (Command cfg) "") then SplitShellArgs (Command cfg)
  else
    let hostport := GoPath.split_on ":"%char (Host cfg) in
    let args := [hd "" hostport] in
    let args := match hostport with
                | _ :: port :: _ => (args ++ ["-p"; port])%list
                | _ => args
                end in
    let args := if negb (String.eqb (User cfg) "") then ((args ++ ["-l"]) ++ [User cfg])%list else args in
    let args := ((args ++ ["-s"]) ++ ["sftp"])%list in
    ("ssh", args, None).

(** The loop of Open over [paths]: the first path whose Lstat fails ends
    it. *)
Fixpoint check_paths (ds : list string) : St W goerr :=
  match ds with
  | [] => ret None
  | d :: rest =>
      let* fi := c_Lstat d in
      match fi with
      | inl _ => ret (Some (ErrNew (d +:+ " does not exist")))
      | inr _ => check_paths rest
      end
  end.

Definition Open (cfg : Config) : St W (result SFTP) :=
  match buildSSHCommand cfg with
  | (_, _, Some err) => ret (inl err)
  | (cmd, args, None) =>
      let* err := startClient cmd args in
      match err with
      | Some e => ret (inl e)
      | None =>
          let* l := ParseLayout (LayoutName cfg) defaultLayout (Path cfg) in
          match l with
          | inl e => ret (inl e)
          | inr lay =>
              let* err := check_paths (paths (Path cfg)) in
              match err with
              | Some e => ret (inl e)
              | None => ret (inr {| p := Path cfg; layout := lay; config := cfg |})
              end
          end
      end
  end.

Definition mkdirAll_notdir (dir : string) : error :=
  ErrNew ("mkdirAll(" +:+ dir +:+ "): entry exists but is not a directory").

Fixpoint mkdirAll (fuel : nat) (dir : string) (mode : FileMode) : Fu W goerr :=
  match fuel with
  | O => fun _ => None
  | S fuel' =>
      (* check if directory already exists *)
      let+ st := lift (c_Lstat dir) in
      match st with
      | inr fi =>
          if IsDir fi then retF None
          else retF (Some (mkdirAll_notdir dir))
      | inl _ =>
          (* create parent directories *)
          let+ errMkdirAll := mkdirAll fuel' (GoPath.Dir dir) Modes_Dir in
          (* create directory *)
          let+ errMkdir := lift (c_Mkdir dir) in
          (* test if directory was created successfully *)
          let+ st' := lift (c_Lstat dir) in
          match st' with
          | inl _ =>
              (* return previous errors *)
              retF (Some (ErrUnable dir errMkdirAll errMkdir))
          | inr fi =>
              if negb (IsDir fi) then retF (Some (mkdirAll_notdir dir))
              else lift (c_Chmod dir mode)
          end
      end
  end.

Definition dirname (r : SFTP) (h : Handle) : string :=
  let n :=
    match Type_ h with
    | DataFile =>
        if Nat.ltb 2 (String.length (Name h))
        then Join [Paths.Data; String.substring 0 2 (Name h)]
        else Paths.Data
    | SnapshotFile => Paths.Snapshots
    | IndexFile => Paths.Index
    | LockFile => Paths.Locks
    | KeyFile => Paths.Keys
    | _ => ""
    end in
  Join [p r; n].

Definition filename (r : SFTP) (h : Handle) : string :=
  match Type_ h with
  | ConfigFile => Join [p r; "config"]
  | _ => Join [dirname r h; Name h]
  end.

Definition is_DataFile (t : FileType) : bool :=
  match t with DataFile => true | _ => false end.

(** [io.Copy(f, rd)]: the bytes of the reader go to the file, the chunks of
    the copy loop taken as one write; an empty reader writes nothing. *)
Definition io_Copy (f : File) (rd : Reader) : St W (File * (Z * goerr)) :=
  match rd_data rd with
  | [] => ret (f, (0, rd_err rd))
  | data =>
      let* (f', (n, werr)) := f_Write f data in
      match werr with
      | Some e => ret (f', (n, Some e))
      | None =>
          if Z.eqb n (zlen data) then ret (f', (n, rd_err rd))
          else ret (f', (n, Some (ErrNew "short write")))
      end
  end.

Definition Save (fuel : nat) (r : SFTP) (h : Handle) (rd : Reader) : Fu W goerr :=
  let+ err := lift (clientError r) in
  match err with
  | Some e => retF (Some e)
  | None =>
  match Valid h with
  | Some e => retF (Some e)
  | None =>
  let filename := Filename (layout r) h in
  (* create directories if necessary *)
  let+ err := (if is_DataFile (Type_ h)
               then mkdirAll fuel (GoPath.Dir filename) Modes_Dir
               else retF None) in
  match err with
  | Some e => retF (Some e)
  | None =>
  (* create new file *)
  let+ o := lift (c_OpenFile filename (Z.lor (Z.lor O_CREATE O_EXCL) O_WRONLY)) in
  match o with
  | inl e => retF (Wrap (Some e) "OpenFile")
  | inr f =>
  (* save data *)
  let+ (f, (_, err)) := lift (io_Copy f rd) in
  match err with
  | Some e => let+ _ := lift (f_Close f) in retF (Wrap (Some e) "Write")
  | None =>
  let+ err := lift (f_Close f) in
  match err with
  | Some e => retF (Wrap (Some e) "Close")
  | None =>
  (* set mode to read-only *)
  let+ st := lift (c_Lstat filename) in
  match st with
  | inl e => retF (Wrap (Some e) "Lstat")
  | inr fi =>
  let+ err := lift (c_Chmod filename (Z.land (fi_Mode fi) not_writable_mask)) in
  retF (Wrap err "Chmod")
  end end end end end end end.

Definition renameFile (fuel : nat) (r : SFTP) (oldname : string) (h : Handle) : Fu W goerr :=
  let filename := filename r h in
  (* create directories if necessary *)
  let+ err := (if is_DataFile (Type_ h)
               then mkdirAll fuel (GoPath.Dir filename) Modes_Dir
               else retF None) in
  match err with
  | Some e => retF (Some e)
  | None =>
  (* test if new file exists *)
  let+ st := lift (c_Lstat filename) in
  match st with
  | inr _ => retF (Some (ErrNew ("Close(): file " +:+ filename +:+ " already exists")))
  | inl _ =>
  let+ err := lift (c_Rename oldname filename) in
  match err with
  | Some e => retF (Wrap (Some e) "Rename")
  | None =>
  (* set mode to read-only *)
  let+ st := lift (c_Lstat filename) in
  match st with
  | inl e => retF (Wrap (Some e) "Lstat")
  | inr fi =>
  let+ err := lift (c_Chmod filename (Z.land (fi_Mode fi) not_writable_mask)) in
  retF (Wrap err "Chmod")
  end end end end.

Definition Load (r : SFTP) (h : Handle) (length : Z) (offset : Z) : St W (result ReadCloser) :=
  match Valid h with
  | Some e => ret (inl e)
  | None =>
  if offset <? 0 then ret (inl (ErrNew "offset is negative"))
  else
  let* o := c_Open (filename r h) in
  match o with
  | inl e => ret (inl e)
  | inr f =>
  let* sk := (if 0 <? offset then f_Seek f offset 0 else ret (f, (0, None))) in
  match sk with
  | (f, (_, Some e)) => let* _ := f_Close f in ret (inl e)
  | (f, (_, None)) =>
  if 0 <? length then ret (inr (LimitReadCloser f length))
  else ret (inr {| rc_file := f; rc_limit := None |})
  end end end.

(** Reading from what Load returned: [Read] with a buffer of [n] bytes. *)
Definition rc_Read (rc : ReadCloser) (n : Z) : St W (ReadCloser * (list Byte.byte * goerr)) :=
  match rc_limit rc with
  | None =>
      let* (f, out) := f_Read (rc_file rc) n in
      ret ({| rc_file := f; rc_limit := None |}, out)
  | Some remain =>
      if remain <=? 0 then ret (rc, ([], Some ErrEOF))
      else
        let* (f, (data, err)) := f_Read (rc_file rc) (Z.min n remain) in
        ret ({| rc_file := f; rc_limit := Some (remain - zlen data) |}, (data, err))
  end.

(** [ioutil.ReadAll] over what Load returned, reading [chunk] bytes at a
    time: the bytes of the stream, and nil when it ended with [io.EOF]. *)
Fixpoint ReadAll (fuel : nat) (chunk : Z) (rc : ReadCloser) : Fu W (list Byte.byte * goerr) :=
  match fuel with
  | O => fun _ => None
  | S fuel' =>
      let+ (rc', (data, err)) := lift (rc_Read rc chunk) in
      match err with
      | Some ErrEOF => retF (data, None)
      | Some e => retF (data, Some e)
      | None =>
          let+ (rest, err') := ReadAll fuel' chunk rc' in
          retF ((data ++ rest)%list, err')
      end
  end.

(** Stat returns [restic.FileInfo{Size: fi.Size()}]. *)
Definition Stat (r : SFTP) (h : Handle) : St W (result Z) :=
  let* err := clientError r in
  match err with
  | Some e => ret (inl e)
  | None =>
  match Valid h with
  | Some e => ret (inl e)
  | None =>
  let* st := c_Lstat (filename r h) in
  match st with
  | inl e => ret (inl (ErrWrap e "Lstat"))
  | inr fi => ret (inr (fi_Size fi))
  end end end.

Definition err_of {A} (x : result A) : goerr :=
  match x with inl e => Some e | inr _ => None end.

Definition Test (r : SFTP) (h : Handle) : St W (bool * goerr) :=
  let* err := clientError r in
  match err with
  | Some e => ret (false, Some e)
  | None =>
  let* st := c_Lstat (filename r h) in
  let err := err_of st in
  if os_IsNotExist (Cause err) then ret (false, None)
  else
  match err with
  | Some e => ret (false, Wrap (Some e) "Lstat")
  | None => ret (true, None)
  end end.

Definition Remove (r : SFTP) (h : Handle) : St W goerr :=
  let* err := clientError r in
  match err with
  | Some e => ret (Some e)
  | None => c_Remove (filename r h)
  end.

(** The hand-over loop of List, [select { case ch <- file: case <-done: return }]
    for every item.  [budget] is the number of items the consumer takes
    before it closes [done], [None] when it never does.  The result is the
    items handed over, whether the goroutine has returned, and the budget
    that is left. *)
Definition emit (items : list string) (budget : option nat)
  : list string * bool * option nat :=
  match budget with
  | None => (items, false, None)
  | Some n =>
      if Nat.leb (length items) n then (items, false, Some (n - length items)%nat)
      else (take n items, true, Some O)
  end.

(** The loop of List over the shard directories of [data]. *)
Fixpoint list_shards (basedir : string) (dirs : list string) (budget : option nat)
  : St W (list string) :=
  match dirs with
  | [] => ret []
  | dir :: rest =>
      let* entries := c_ReadDir (Join [basedir; dir]) in
      match entries with
      | inl _ => list_shards basedir rest budget
      | inr es =>
          let '(sent, cancelled, budget') := emit (map fi_Name es) budget in
          if cancelled : bool then ret sent
          else
            let* more := list_shards basedir rest budget' in
            ret (sent ++ more)%list
      end
  end.

(** List, named [List_] beside the library's module [List]: the names sent
    on the channel until it is closed. *)
Definition List_ (r : SFTP) (t : FileType) (budget : option nat) : St W (list string) :=
  if is_DataFile t then
    (* read first level *)
    let basedir := dirname r {| Type_ := t; Name := "" |} in
    let* list1 := c_ReadDir basedir in
    match list1 with
    | inl _ => ret []
    | inr l1 =>
        let dirs := map fi_Name l1 in
        (* read files *)
        list_shards basedir dirs budget
    end
  else
    let* entries := c_ReadDir (dirname r {| Type_ := t; Name := "" |}) in
    match entries with
    | inl _ => ret []
    | inr es => ret (emit (map fi_Name es) budget).1.1
    end.

(** Close, on a receiver that may be nil. *)
Definition Close (r : option SFTP) : St W goerr :=
  match r with
  | None => ret None
  | Some _ =>
      let* err := c_Close in
      (* wait for closeTimeout before killing the process *)
      let* o := result_wait closeTimeout in
      match o with
      | Some err => ret err
      | None =>
          let* err := proc_Kill in
          match err with
          | Some e => ret (Some e)
          | None =>
              (* get the error, but ignore it *)
              let* _ := result_recv in
              ret None
          end
      end
  end.

(** The loop of Create over [paths]. *)
Fixpoint create_paths (fuel : nat) (ds : list string) : Fu W goerr :=
  match ds with
  | [] => retF None
  | d :: rest =>
      let+ err := mkdirAll fuel d Modes_Dir in
      match err with
      | Some e => retF (Some e)
      | None => create_paths fuel rest
      end
  end.

Definition Create (fuel : nat) (cfg : Config) : Fu W (result SFTP) :=
  match buildSSHCommand cfg with
  | (_, _, Some err) => retF (inl err)
  | (cmd, args, None) =>
      let+ err := lift (startClient cmd args) in
      match err with
      | Some e => retF (inl e)
      | None =>
          let+ l := lift (ParseLayout (LayoutName cfg) defaultLayout (Path cfg)) in
          match l with
          | inl e => retF (inl e)
          | inr lay =>
              (* test if config file already exists *)
              let+ st := lift (c_Lstat (Join [Path cfg; Paths.Config])) in
              match st with
              | inr _ => retF (inl (ErrNew "config file already exists"))
              | inl _ =>
                  (* create paths for data, refs and temp blobs *)
                  let+ err := create_paths fuel (paths (Path cfg)) in
                  match err with
                  | Some e => retF (inl e)
                  | None =>
                      let+ err := lift (Close (Some {| p := ""; layout := lay; config := zeroConfig |})) in
                      match err with
                      | Some e => retF (inl (ErrWrap e "Close"))
                      | None => lift (Open cfg)
                      end
                  end
              end
          end
      end
  end.

End Backend.

(** ** The default layout *)

(** The directory of a collection type in the skeleton of the spec. *)
Definition typeDir (t : FileType) : string :=
  match t with
  | DataFile => "data"
  | SnapshotFile => "snapshots"
  | IndexFile => "index"
  | LockFile => "locks"
  | KeyFile => "keys"
  | _ => ""
  end.

Definition known_type (t : FileType) : bool :=
  match t with OtherFile _ => false | _ => true end.

(** The path of a handle in the words of the spec: [root/config] for Config,
    [root/data/<first two characters>/<name>] for a Data name longer than
    two characters, [root/<typeDir>/<name>] otherwise, each a single
    join-and-clean. *)
Definition path_spec (root : string) (h : Handle) : string :=
  match Type_ h with
  | ConfigFile => Join [root; "config"]
  | DataFile =>
      if Nat.ltb 2 (String.length (Name h))
      then Join [root; "data"; String.substring 0 2 (Name h); Name h]
      else Join [root; "data"; Name h]
  | t => Join [root; typeDir t; Name h]
  end.

(** Modelled from the spec: the default naming scheme behind
    [backend.Layout], whose implementations are not among the sources. *)
Definition DefaultLayout (root : string) : Layout :=
  {| Filename := path_spec root |}.

(** ** An in-memory remote side *)

Module MemFS.

(** A remote entry: its mode, with [ModeDir] set on a directory, and the
    bytes of a file. *)
Record Node := { n_mode : FileMode; n_data : list Byte.byte }.

(** The requests the remote side serves. *)
Inductive Call : Type :=
| CLstat (path : string)
| CMkdir (path : string)
| CChmod (path : string) (mode : FileMode)
| COpenFile (path : string) (flags : Z)
| CRemove (path : string)
| CRename (oldname newname : string)
| CReadDir (path : string)
| CWrite (path : string) (offset : Z) (data : list Byte.byte)
| CRead (path : string) (offset : Z) (len : Z)
| CCloseFile (path : string)
| CCloseSession.

Record World := {
  fs : gmap string Node;      (* the remote entries, by cleaned path *)
  log : list Call;            (* the requests served, the latest first *)
  result_chan : option goerr; (* the channel r.result, of capacity one *)
  running : bool;             (* the subprocess has not exited *)
  stalls : bool               (* the subprocess ignores the end of its input *)
}.

Definition with_fs (w : World) (m : gmap string Node) : World :=
  {| fs := m; log := log w; result_chan := result_chan w; running := running w; stalls := stalls w |}.
Definition logged (c : Call) (w : World) : World :=
  {| fs := fs w; log := c :: log w; result_chan := result_chan w; running := running w; stalls := stalls w |}.
Definition with_proc (w : World) (res : option goerr) (run : bool) : World :=
  {| fs := fs w; log := log w; result_chan := res; running := run; stalls := stalls w |}.

Definition node_IsDir (n : Node) : bool := negb (Z.eqb (Z.land (n_mode n) ModeDir) 0).
Definition dir_node : Node := {| n_mode := Z.lor ModeDir 493; n_data := [] |}.   (* drwxr-xr-x *)
Definition file_node : Node := {| n_mode := 420; n_data := [] |}.                (* -rw-r--r-- *)

Definition info (path : string) (n : Node) : FileInfo :=
  {| fi_Name := GoPath.Base path; fi_Size := zlen (n_data n); fi_Mode := n_mode n |}.

Definition failure : error := StatusError SSH_FX_FAILURE "Failure".
Definition denied : error := StatusError SSH_FX_PERMISSION_DENIED "Permission denied".

Definition is_dir_at (m : gmap string Node) (path : string) : bool :=
  match m !! path with
  | Some n => node_IsDir n
  | None => false
  end.

(** The entries directly below [dir]. *)
Definition children (m : gmap string Node) (dir : string) : list (string * Node) :=
  filter (fun kn => negb (String.eqb kn.1 dir) && String.eqb (GoPath.Dir kn.1) dir = true)
         (map_to_list m).

(** A missing entry is reported as [os.ErrNotExist], the form in which the
    client hands on the status "no such file". *)
Definition Lstat (path : string) : St World (result FileInfo) := fun w =>
  let w := logged (CLstat path) w in
  match fs w !! path with
  | Some n => (w, inr (info path n))
  | None => (w, inl ErrNotExist)
  end.

Definition Mkdir (path : string) : St World goerr := fun w =>
  let w := logged (CMkdir path) w in
  match fs w !! path with
  | Some _ => (w, Some failure)
  | None =>
      if is_dir_at (fs w) (GoPath.Dir path)
      then (with_fs w (<[path := dir_node]> (fs w)), None)
      else (w, Some ErrNotExist)
  end.

(** The permission bits change, the kind of the entry stays. *)
Definition Chmod (path : string) (mode : FileMode) : St World goerr := fun w =>
  let w := logged (CChmod path mode) w in
  match fs w !! path with
  | Some n =>
      let n' := {| n_mode := Z.lor (Z.land (n_mode n) ModeDir) (Z.land mode ModePerm);
                   n_data := n_data n |} in
      (with_fs w (<[path := n']> (fs w)), None)
  | None => (w, Some ErrNotExist)
  end.

Definition OpenFile (path : string) (flags : Z) : St World (result File) := fun w =>
  let w := logged (COpenFile path flags) w in
  let f := {| f_path := path; f_offset := 0 |} in
  let writes := negb (Z.eqb (Z.land flags 3) 0) in
  match fs w !! path with
  | Some n =>
      if Z.testbit flags 6 && Z.testbit flags 7 then (w, inl failure)
      else if node_IsDir n && writes then (w, inl failure)
      else if writes && negb (Z.testbit (n_mode n) 7) then (w, inl denied)
      else (w, inr f)
  | None =>
      if Z.testbit flags 6 then
        if is_dir_at (fs w) (GoPath.Dir path)
        then (with_fs w (<[path := file_node]> (fs w)), inr f)
        else (w, inl ErrNotExist)
      else (w, inl ErrNotExist)
  end.

Definition Remove (path : string) : St World goerr := fun w =>
  let w := logged (CRemove path) w in
  match fs w !! path with
  | Some n =>
      if node_IsDir n && negb (Nat.eqb (length (children (fs w) path)) 0)
      then (w, Some failure)
      else (with_fs w (delete path (fs w)), None)
  | None => (w, Some ErrNotExist)
  end.

Definition Rename (oldname newname : string) : St World goerr := fun w =>
  let w := logged (CRename oldname newname) w in
  match fs w !! oldname, fs w !! newname with
  | Some n, None => (with_fs w (<[newname := n]> (delete oldname (fs w))), None)
  | Some _, Some _ => (w, Some failure)
  | None, _ => (w, Some ErrNotExist)
  end.

Definition ReadDir (path : string) : St World (result (list FileInfo)) := fun w =>
  let w := logged (CReadDir path) w in
  match fs w !! path with
  | Some n =>
      if node_IsDir n
      then (w, inr (map (fun kn => info kn.1 kn.2) (children (fs w) path)))
      else (w, inl failure)
  | None => (w, inl ErrNotExist)
  end.

(** The bytes of a file after [data] is written at [offset]. *)
Definition write_at (old : list Byte.byte) (offset : Z) (data : list Byte.byte) : list Byte.byte :=
  let o := Z.to_nat offset in
  (take o old ++ replicate (o - length old) Byte.x00 ++ data ++ drop (o + length data) old)%list.

Definition Write (f : File) (data : list Byte.byte) : St World (File * (Z * goerr)) := fun w =>
  let w := logged (CWrite (f_path f) (f_offset f) data) w in
  match fs w !! f_path f with
  | Some n =>
      let n' := {| n_mode := n_mode n; n_data := write_at (n_data n) (f_offset f) data |} in
      (with_fs w (<[f_path f := n']> (fs w)),
       ({| f_path := f_path f; f_offset := f_offset f + zlen data |}, (zlen data, None)))
  | None => (w, (f, (0, Some ErrNotExist)))
  end.

Definition Read (f : File) (n : Z) : St World (File * (list Byte.byte * goerr)) := fun w =>
  let w := logged (CRead (f_path f) (f_offset f) n) w in
  match fs w !! f_path f with
  | Some nd =>
      match drop (Z.to_nat (f_offset f)) (n_data nd) with
      | [] => (w, (f, ([], Some ErrEOF)))
      | avail =>
          let got := take (Z.to_nat n) avail in
          (w, ({| f_path := f_path f; f_offset := f_offset f + zlen got |}, (got, None)))
      end
  | None => (w, (f, ([], Some ErrNotExist)))
  end.

(** Seek moves the offset the client keeps; only [whence = 2] asks the
    remote side, for the size. *)
Definition Seek (f : File) (offset whence : Z) : St World (File * (Z * goerr)) := fun w =>
  match whence with
  | 0 => (w, ({| f_path := f_path f; f_offset := offset |}, (offset, None)))
  | 1 => (w, ({| f_path := f_path f; f_offset := f_offset f + offset |}, (f_offset f + offset, None)))
  | 2 =>
      let w := logged (CLstat (f_path f)) w in
      match fs w !! f_path f with
      | Some nd =>
          let o := zlen (n_data nd) + offset in
          (w, ({| f_path := f_path f; f_offset := o |}, (o, None)))
      | None => (w, (f, (f_offset f, Some ErrNotExist)))
      end
  | _ => (w, (f, (f_offset f, Some (ErrNew "unimplemented seek whence"))))
  end.

Definition CloseFile (f : File) : St World goerr := fun w =>
  (logged (CCloseFile (f_path f)) w, None).

(** The session ends; a subprocess that does not stall exits cleanly, and
    the waiting goroutine sends [errors.Wrap(nil, "cmd.Wait")], which is
    nil. *)
Definition CloseSession : St World goerr := fun w =>
  let w := logged CCloseSession w in
  if running w && negb (stalls w) then (with_proc w (Some None) false, None)
  else (w, None).

Definition start (program : string) (args : list string) : St World goerr := fun w =>
  (with_proc w None true, None).

Definition poll : St World (option goerr) := fun w =>
  match result_chan w with
  | Some err => (with_proc w None (running w), Some err)
  | None => (w, None)
  end.

Definition Kill : St World goerr := fun w =>
  if running w
  then (with_proc w (Some (Some (ErrWrap (ErrNew "signal: killed") "cmd.Wait"))) false, None)
  else (w, Some (ErrNew "os: process already finished")).

Definition recv : St World goerr := fun w =>
  match result_chan w with
  | Some err => (with_proc w None (running w), err)
  | None => (w, None)
  end.

#[global] Instance client : SftpClient World := {|
  c_Lstat := Lstat; c_Mkdir := Mkdir; c_Chmod := Chmod; c_OpenFile := OpenFile;
  c_Open := fun path => OpenFile path O_RDONLY;
  c_Remove := Remove; c_Rename := Rename; c_ReadDir := ReadDir;
  c_Close := CloseSession;
  f_Write := Write; f_Read := Read; f_Seek := Seek; f_Close := CloseFile
|}.

#[global] Instance proc : Subprocess World := {|
  proc_start := start; result_poll := poll; result_wait := fun _ => poll;
  result_recv := recv; proc_Kill := Kill
|}.

(** The first of the paths with no entry on the remote side. *)
Definition first_missing (m : gmap string Node) (ds : list string) : option string :=
  List.find (fun d => match m !! d with None => true | Some _ => false end) ds.

Definition does_not_exist (d : string) : error := ErrNew (d +:+ " does not exist").

(** What a request leaves alone. *)
Definition same_proc (w w' : World) : Prop :=
  result_chan w' = result_chan w /\ running w' = running w /\ stalls w' = stalls w.

(** The entry a completed Save leaves at its path. *)
Definition saved (path : string) (data : list Byte.byte) (w : World) : Prop :=
  exists n, fs w !! path = Some n /\ n_data n = data /\ node_IsDir n = false.

(** The world after a Save that meets an entry at its path. *)
Definition collided (h : Handle) (path : string) (w : World) : World :=
  logged (COpenFile path (Z.lor (Z.lor O_CREATE O_EXCL) O_WRONLY))
         (if is_DataFile (Type_ h) then logged (CLstat (GoPath.Dir path)) w else w).

(** What a reader bounded by [lim] yields of the bytes [l] before it. *)
Definition bounded (lim : option Z) (l : list Byte.byte) : list Byte.byte :=
  match lim with
  | None => l
  | Some k => take (Z.to_nat k) l
  end.

(** The root and the home directory are there. *)
Definition anchored (w : World) : Prop :=
  is_dir_at (fs w) "/" = true /\ is_dir_at (fs w) "." = true.

(** The fuel that is enough for a path: its number of elements and two. *)
Definition depth (dir : string) : nat :=
  let d := GoPath.split_dir dir in
  S (S (length (GoPath.clean_elems (GoPath.is_rooted d) (GoPath.split_slash d)))).

(** A remote side with a root and a home directory and nothing else. *)
Definition empty : World :=
  {| fs := {[ "/" := dir_node; "." := dir_node ]}; log := []; result_chan := None;
     running := true; stalls := false |}.

End MemFS.

(** ** A scripted remote side *)

(** A client that answers each request with the next reply of a script,
    whatever the request: every sequence of outcomes the backend can meet,
    failures and the effects of other callers included, is one script. *)
Module Mock.

Inductive Reply : Type :=
| RStat (r : result FileInfo)
| RErr (e : goerr)
| RFile (r : result File)
| RDir (r : result (list FileInfo))
| RCount (n : Z) (e : goerr)
| RData (data : list Byte.byte) (e : goerr)
| RExit (o : option goerr).

Record World := { script : list Reply; calls : list MemFS.Call }.

Definition unexpected : error := ErrNew "unexpected request".

(** The next reply, the request logged. *)
Definition next (c : list MemFS.Call) (w : World) : World * option Reply :=
  match script w with
  | [] => ({| script := []; calls := (c ++ calls w)%list |}, None)
  | r :: rest => ({| script := rest; calls := (c ++ calls w)%list |}, Some r)
  end.

Definition stat_reply (o : option Reply) : result FileInfo :=
  match o with Some (RStat r) => r | _ => inl unexpected end.
Definition err_reply (o : option Reply) : goerr :=
  match o with Some (RErr e) => e | _ => Some unexpected end.
Definition file_reply (o : option Reply) : result File :=
  match o with Some (RFile r) => r | _ => inl unexpected end.
Definition dir_reply (o : option Reply) : result (list FileInfo) :=
  match o with Some (RDir r) => r | _ => inl unexpected end.
Definition count_reply (o : option Reply) : Z * goerr :=
  match o with Some (RCount n e) => (n, e) | _ => (0, Some unexpected) end.
Definition data_reply (o : option Reply) : list Byte.byte * goerr :=
  match o with Some (RData d e) => (d, e) | _ => ([], Some unexpected) end.
Definition exit_reply (o : option Reply) : option goerr :=
  match o with Some (RExit e) => e | _ => None end.

Definition serve {A} (c : list MemFS.Call) (decode : option Reply -> A) : St World A :=
  fun w => let (w', o) := next c w in (w', decode o).

#[global] Instance client : SftpClient World := {|
  c_Lstat := fun path => serve [MemFS.CLstat path] stat_reply;
  c_Mkdir := fun path => serve [MemFS.CMkdir path] err_reply;
  c_Chmod := fun path mode => serve [MemFS.CChmod path mode] err_reply;
  c_OpenFile := fun path flags => serve [MemFS.COpenFile path flags] file_reply;
  c_Open := fun path => serve [MemFS.COpenFile path O_RDONLY] file_reply;
  c_Remove := fun path => serve [MemFS.CRemove path] err_reply;
  c_Rename := fun a b => serve [MemFS.CRename a b] err_reply;
  c_ReadDir := fun path => serve [MemFS.CReadDir path] dir_reply;
  c_Close := serve [MemFS.CCloseSession] err_reply;
  f_Write := fun f data => serve [MemFS.CWrite (f_path f) (f_offset f) data] (fun o => (f, count_reply o));
  f_Read := fun f n => serve [MemFS.CRead (f_path f) (f_offset f) n] (fun o => (f, data_reply o));
  f_Seek := fun f offset whence => serve [] (fun o => (f, count_reply o));
  f_Close := fun f => serve [MemFS.CCloseFile (f_path f)] err_reply
|}.

#[global] Instance proc : Subprocess World := {|
  proc_start := fun _ _ => serve [] err_reply;
  result_poll := serve [] exit_reply;
  result_wait := fun _ => serve [] exit_reply;
  result_recv := serve [] err_reply;
  proc_Kill := serve [] err_reply
|}.

Definition run (replies : list Reply) : World := {| script := replies; calls := [] |}.

End Mock.

(** ** A repository to run the backend on *)

Module Fixture.

Definition bytes_of (s : string) : list Byte.byte :=
  map byte_of_ascii (list_ascii_of_string s).

Definition cfg : Config :=
  {| Host := "backup.example"; User := ""; Path := "/srv/repo"; LayoutName := "";
     Command := "" |}.

Definition repo : SFTP :=
  {| p := "/srv/repo"; layout := DefaultLayout "/srv/repo"; config := cfg |}.

(** Stand-ins for the two functions the backend takes from elsewhere. *)
Definition split_args (s : string) : string * list string * goerr := (s, [], None).
Definition parse_layout {W} (name deflt path : string) : St W (result Layout) :=
  ret (inr (DefaultLayout path)).

Definition dir_mode : FileMode := 448.      (* 0700 *)

(** The remote side once Create has run on an empty one. *)
Definition created : MemFS.World :=
  match Create dir_mode split_args parse_layout 8 cfg MemFS.empty with
  | Some (w, _) => w
  | None => MemFS.empty
  end.

Definition blob : Handle := {| Type_ := DataFile; Name := "abcdef0123" |}.
Definition ten : Reader := {| rd_data := bytes_of "0123456789"; rd_err := None |}.
Definition other : Reader := {| rd_data := bytes_of "overwrite"; rd_err := None |}.

(** ... and once [ten] has been saved at [blob]. *)
Definition stored : MemFS.World :=
  match Save dir_mode 4 repo blob ten created with
  | Some (w, _) => w
  | None => created
  end.

Definition dir_info (name : string) : FileInfo :=
  {| fi_Name := name; fi_Size := 0; fi_Mode := Z.lor ModeDir 448 |}.

(** An invalid handle, and a handle nothing was saved at. *)
Definition nameless : Handle := {| Type_ := DataFile; Name := "" |}.
Definition missing : Handle := {| Type_ := SnapshotFile; Name := "0a1b2c" |}.

(** Another caller creates the directory between the first stat and the
    Mkdir: the Mkdir fails, the second stat reports the directory. *)
Definition raced (chmod : goerr) : Mock.World :=
  Mock.run [ Mock.RStat (inl ErrNotExist);
             Mock.RStat (inr (dir_info "data"));
             Mock.RErr (Some MemFS.failure);
             Mock.RStat (inr (dir_info "ab"));
             Mock.RErr chmod ].

End Fixture.

(** ** Further definitions *)

(** [Location] of sftp.go. *)
Definition Location (r : SFTP) : string := p r.

(** The error the exit signal carries after a kill: what [cmd.Wait] reports,
    wrapped as [startClient] wraps it. *)
Definition killed : error := ErrWrap (ErrNew "signal: killed") "cmd.Wait".

(** The error of [Process.Kill] on a subprocess that has exited. *)
Definition already_finished : error := ErrNew "os: process already finished".

(** Whether the byte [c] occurs in [s]. *)
Fixpoint has_char (c : ascii) (s : string) : bool :=
  match s with
  | EmptyString => false
  | String a s' => Ascii.eqb a c || has_char c s'
  end.

(** A plain name: one path element, not empty, not [.] and not [..]. *)
Definition plain (name : string) : Prop :=
  GoPath.slash_free name /\ GoPath.real_elem name.

(** The first two characters of a name: the directory of a Data file below
    [data]. *)
Definition shard (name : string) : string := String.substring 0 2 name.

(** The path elements [dirname] puts below the repository location. *)
Definition dir_elems (h : Handle) : list string :=
  match Type_ h with
  | DataFile =>
      if Nat.ltb 2 (String.length (Name h))
      then [Paths.Data; String.substring 0 2 (Name h)]
      else [Paths.Data]
  | SnapshotFile => [Paths.Snapshots]
  | IndexFile => [Paths.Index]
  | LockFile => [Paths.Locks]
  | KeyFile => [Paths.Keys]
  | _ => []
  end.

(** The path elements [filename] puts below the repository location. *)
Definition path_elems (h : Handle) : list string :=
  match Type_ h with
  | ConfigFile => [Paths.Config]
  | _ => (dir_elems h ++ [Name h])%list
  end.

Module MemFSDefs.
Import MemFS.

(** The entry Save leaves at its path: the bytes of the reader, read-only
    when the copy went through, as created when the reader failed. *)
Definition stored_node (rd : Reader) : Node :=
  {| n_mode := match rd_err rd with None => 292 | Some _ => 420 end;
     n_data := rd_data rd |}.

(** What Save does to the remote entries once its directory is there, and
    what it returns. *)
Definition Save_outcome (path : string) (rd : Reader) (m : gmap string Node)
  : gmap string Node * goerr :=
  match m !! path with
  | Some _ => (m, Some (ErrWrap failure "OpenFile"))
  | None =>
      if is_dir_at m (GoPath.Dir path)
      then (<[path := stored_node rd]> m,
            match rd_err rd with
            | Some e => Some (ErrWrap e "Write")
            | None => None
            end)
      else (m, Some (ErrWrap ErrNotExist "OpenFile"))
  end.

(** The directory step of Save and of renameFile. *)
Definition dir_step (Modes_Dir : FileMode) (fuel : nat) (h : Handle) (path : string)
  : Fu World goerr :=
  if is_DataFile (Type_ h) then mkdirAll Modes_Dir fuel (GoPath.Dir path) Modes_Dir
  else retF None.

(** The names [ReadDir] reports for a path; none when it fails. *)
Definition names_at (m : gmap string Node) (path : string) : list string :=
  match m !! path with
  | Some n =>
      if node_IsDir n then map (fun kn => GoPath.Base kn.1) (children m path) else []
  | None => []
  end.
End MemFSDefs.

(** More sample data. *)
Module Scenario.
(** A reader that fails after three bytes, and a handle nothing is saved at. *)
Definition broken : Reader :=
  {| rd_data := Fixture.bytes_of "par"; rd_err := Some (ErrNew "unexpected EOF") |}.
Definition fresh : Handle := {| Type_ := DataFile; Name := "abffff0000" |}.
Definition key : Handle := {| Type_ := KeyFile; Name := "k1" |}.

(** The remote side with a temporary file of nine bytes staged under
    [temp]. *)
Definition temp_name : string := "/srv/repo/temp/upload-1".
Definition staged : MemFS.World :=
  let w := (MemFS.OpenFile temp_name 193 Fixture.stored).1 in
  (MemFS.Write {| f_path := temp_name; f_offset := 0 |} (Fixture.bytes_of "overwrite") w).1.

(** The repository of [Fixture.created] with a config file in it. *)
Definition configured : MemFS.World :=
  MemFS.with_fs Fixture.created
    (<["/srv/repo/config" := MemFS.file_node]> (MemFS.fs Fixture.created)).

(** A host with a port and a stray third field, and a configuration that
    gives its own command. *)
Definition with_port : Config :=
  {| Host := "backup.example:2222:x"; User := "restic"; Path := "/srv/repo";
     LayoutName := ""; Command := "" |}.
Definition overridden : Config :=
  {| Host := "ignored"; User := "ignored"; Path := "/srv/repo";
     LayoutName := ""; Command := "sftp-server -e" |}.

(** A Data handle with a name of two characters. *)
Definition short : Handle := {| Type_ := DataFile; Name := "ab" |}.
(** The subprocess was killed and nobody has read its exit yet. *)
Definition exited : MemFS.World := MemFS.with_proc Fixture.created (Some (Some killed)) false.
End Scenario.

(** * Properties *)

(** ** Go's [path] package on the tables of its tests *)

Example Clean_table :
  map GoPath.Clean
    [""; "abc"; "abc/def"; "."; ".."; "../.."; "../../abc"; "/abc"; "/";
     "abc/"; "./"; "../"; "../../"; "/abc/"; "abc//def//ghi"; "//abc";
     "///abc"; "//abc//"; "abc//"; "abc/./def"; "/./abc/def"; "abc/.";
     "abc/def/ghi/../jkl"; "abc/def/../ghi/../jkl"; "abc/def/..";
     "abc/def/../.."; "/abc/def/../.."; "abc/def/../../..";
     "/abc/def/../../.."; "abc/def/../../../ghi/jkl/../../../mno";
     "abc/./../def"; "abc//./../def"; "abc/../../././../def"; "/../abc"]
  = ["."; "abc"; "abc/def"; "."; ".."; "../.."; "../../abc"; "/abc"; "/";
     "abc"; "."; ".."; "../.."; "/abc"; "abc/def/ghi"; "/abc";
     "/abc"; "/abc"; "abc"; "abc/def"; "/abc/def"; "abc";
     "abc/def/jkl"; "abc/jkl"; "abc";
     "."; "/"; "..";
     "/"; "../../mno";
     "def"; "def"; "../../def"; "/abc"].
Proof. reflexivity. Qed.

Example Join_table :
  map GoPath.Join
    [[]; [""]; ["a"]; ["a"; "b"]; ["a"; ""]; [""; "b"]; ["/"; "a"]; ["/"; ""];
     ["a/"; "b"]; ["a/"; ""]; [""; ""]; ["/srv"; "data"; "ab"; "abcdef"]]
  = [""; ""; "a"; "a/b"; "a"; "b"; "/a"; "/"; "a/b"; "a"; ""; "/srv/data/ab/abcdef"].
Proof. reflexivity. Qed.

Example Base_table :
  map GoPath.Base [""; "."; "/."; "/"; "////"; "x/"; "abc"; "abc/def"; "a/b/.x"; "a/b/c."; "a/b/c.x"]
  = ["."; "."; "."; "/"; "/"; "x"; "abc"; "def"; ".x"; "c."; "c.x"].
Proof. reflexivity. Qed.

Example Dir_table :
  map GoPath.Dir [""; "."; "/."; "/"; "////"; "/foo"; "x/"; "abc"; "abc/def"; "a/b/.x"; "a/b/c."; "a/b/c.x"]
  = ["."; "."; "/"; "/"; "/"; "/"; "x"; "."; "abc"; "a/b"; "a/b"; "a/b"].
Proof. reflexivity. Qed.

(** ** The backend on the in-memory remote side *)

Example buildSSHCommand_default :
  buildSSHCommand Fixture.split_args
    {| Host := "backup.example:2222"; User := "restic"; Path := "/srv/repo";
       LayoutName := ""; Command := "" |}
  = ("ssh", ["backup.example"; "-p"; "2222"; "-l"; "restic"; "-s"; "sftp"], None).
Proof. reflexivity. Qed.

Example IsNotExist_of_status :
  IsNotExist (Some (StatusError SSH_FX_NO_SUCH_FILE "No such file")) = true
  /\ IsNotExist (Some (StatusError SSH_FX_FAILURE "Failure")) = false
  /\ os_IsNotExist (Some (PathError "lstat" "/srv" (Errno ENOENT))) = true.
Proof. repeat split. Qed.

Example Create_leaves_skeleton :
  map fst (map_to_list (MemFS.fs Fixture.created))
  = ["/srv/repo/keys"; "/srv/repo/snapshots"; "/srv/repo/index"; "/srv/repo/locks";
     "/srv/repo/temp"; "/srv/repo/data"; "/srv/repo"; "/srv"; "/"; "."].
Proof. vm_compute. reflexivity. Qed.

Example Stat_Test_List_after_Save :
  (Stat Fixture.repo Fixture.blob Fixture.stored).2 = inr 10
  /\ (Test Fixture.repo Fixture.blob Fixture.stored).2 = (true, None)
  /\ (List_ Fixture.repo DataFile None Fixture.stored).2 = ["abcdef0123"]
  /\ (List_ Fixture.repo SnapshotFile None Fixture.stored).2 = [].
Proof. vm_compute. repeat split. Qed.

Example emit_cancelled :
  emit ["a"; "b"; "c"] (Some 2%nat) = (["a"; "b"], true, Some 0%nat)
  /\ emit ["a"; "b"; "c"] None = (["a"; "b"; "c"], false, None).
Proof. split; reflexivity. Qed.

(** ** Cleaning paths element by element *)

Module GoPathFacts.
Import GoPath.

Lemma append_cons c (a b : string) : String c a +:+ b = String c (a +:+ b).
Proof. reflexivity. Qed.

Lemma append_assoc (a b c : string) : (a +:+ b) +:+ c = a +:+ (b +:+ c).
Proof.
  induction a as [|x a IH]; [reflexivity|].
  rewrite !append_cons. f_equal. exact IH.
Qed.

Lemma split_on_nonempty sep s : split_on sep s <> [].
Proof.
  destruct s as [|c s]; simpl; [discriminate|].
  destruct (Ascii.eqb c sep); [discriminate|].
  destruct (split_on sep s); discriminate.
Qed.

Lemma split_on_app sep a b :
  split_on sep (a +:+ String sep b) = (split_on sep a ++ split_on sep b)%list.
Proof.
  induction a as [|c a IH]; [change ("" +:+ String sep b) with (String sep b); simpl; now rewrite Ascii.eqb_refl|].
  rewrite append_cons. simpl.
  - destruct (Ascii.eqb c sep); [now rewrite IH|].
    rewrite IH. pose proof (split_on_nonempty sep a) as Hne.
    destruct (split_on sep a); [contradiction | reflexivity].
Qed.

Lemma split_slash_free x : slash_free x -> split_slash x = [x].
Proof.
  unfold slash_free, split_slash. induction x as [|c x IH]; simpl; [reflexivity|].
  intros H. apply orb_false_iff in H as [Hc Hx]. unfold slash in *.
  rewrite Hc, (IH Hx). reflexivity.
Qed.

Lemma split_slash_elems s : Forall slash_free (split_slash s).
Proof.
  unfold split_slash. induction s as [|c s IH]; simpl.
  - repeat constructor.
  - destruct (Ascii.eqb c slash) eqn:Hc.
    + constructor; [reflexivity | exact IH].
    + destruct (split_on slash s) as [|x xs]; [repeat constructor; unfold slash_free; simpl; now rewrite Hc|].
      inversion IH; subst. constructor; [|assumption].
      unfold slash_free in *. simpl. now rewrite Hc.
Qed.

Lemma split_join l :
  l <> [] -> Forall slash_free l -> split_slash (join_slash l) = l.
Proof.
  induction l as [|x l IH]; [congruence|]. intros _ Hall.
  inversion Hall as [|? ? Hx Hl]; subst.
  destruct l as [|y l]; [now apply split_slash_free|].
  change (join_slash (x :: y :: l)) with (x +:+ String slash (join_slash (y :: l))).
  unfold split_slash in *. rewrite split_on_app.
  fold split_slash. rewrite (split_slash_free x Hx).
  unfold split_slash. rewrite IH; [reflexivity | discriminate | assumption].
Qed.

Lemma step_skip r st c : is_skip c = true -> clean_step r st c = st.
Proof. intros H. unfold clean_step. now rewrite H. Qed.

Lemma step_real r st c : real_elem c -> clean_step r st c = c :: st.
Proof. intros [H1 H2]. unfold clean_step. now rewrite H1, H2. Qed.

Lemma step_pop r top st c :
  is_skip c = false -> is_dotdot c = true -> is_dotdot top = false ->
  clean_step r (top :: st) c = st.
Proof. intros H1 H2 H3. unfold clean_step. now rewrite H1, H2, H3. Qed.

Lemma step_dotdot_nil c :
  is_skip c = false -> is_dotdot c = true -> clean_step false [] c = [c].
Proof. intros H1 H2. unfold clean_step. now rewrite H1, H2. Qed.

Lemma step_dotdot_dotdot top st c :
  is_skip c = false -> is_dotdot c = true -> is_dotdot top = true ->
  clean_step false (top :: st) c = c :: top :: st.
Proof. intros H1 H2 H3. unfold clean_step. now rewrite H1, H2, H3. Qed.

Lemma step_no_skip r st c : Forall no_skip st -> Forall no_skip (clean_step r st c).
Proof.
  intros H. unfold clean_step. destruct (is_skip c) eqn:Hs; [assumption|].
  destruct (is_dotdot c) eqn:Hd; [|now constructor].
  destruct st as [|top rest]; [destruct r; repeat constructor; assumption|].
  destruct (is_dotdot top); [destruct r; [assumption | now constructor]|].
  now inversion H.
Qed.

Lemma fold_no_skip r l st :
  Forall no_skip st -> Forall no_skip (fold_left (clean_step r) l st).
Proof. revert st. induction l; simpl; intros; [assumption | auto using step_no_skip]. Qed.

Lemma step_slash_free r st c :
  slash_free c -> Forall slash_free st -> Forall slash_free (clean_step r st c).
Proof.
  intros Hc H. unfold clean_step. destruct (is_skip c); [assumption|].
  destruct (is_dotdot c); [|now constructor].
  destruct st as [|top rest]; [destruct r; repeat constructor; assumption|].
  destruct (is_dotdot top); [destruct r; [assumption | now constructor]|].
  now inversion H.
Qed.

Lemma fold_slash_free r l st :
  Forall slash_free l -> Forall slash_free st ->
  Forall slash_free (fold_left (clean_step r) l st).
Proof.
  revert st. induction l; simpl; intros st Hl Hst; [assumption|].
  inversion Hl; subst. auto using step_slash_free.
Qed.

Lemma step_rooted_real st c :
  Forall real_elem st -> Forall real_elem (clean_step true st c).
Proof.
  intros H. unfold clean_step. destruct (is_skip c) eqn:Hs; [assumption|].
  destruct (is_dotdot c) eqn:Hd; [|constructor; [split|]; assumption].
  destruct st as [|top rest]; [constructor|].
  destruct (is_dotdot top); [assumption | now inversion H].
Qed.

Lemma fold_rooted_real l st :
  Forall real_elem st -> Forall real_elem (fold_left (clean_step true) l st).
Proof. revert st. induction l; simpl; intros; [assumption | auto using step_rooted_real]. Qed.

Lemma fold_real r l st :
  Forall real_elem l -> fold_left (clean_step r) l st = (rev l ++ st)%list.
Proof.
  revert st. induction l as [|c l IH]; simpl; intros st H; [reflexivity|].
  inversion H; subst. rewrite step_real by assumption.
  rewrite IH by assumption. now rewrite <- app_assoc.
Qed.

(** Cleaning the cleaned form of a relative path, from any state, is
    cleaning the path itself. *)
Lemma clean_elems_subst r l st :
  fold_left (clean_step r) (rev (clean_elems false l)) st
  = fold_left (clean_step r) l st.
Proof.
  unfold clean_elems. induction l as [|c l IH] using rev_ind; [reflexivity|].
  rewrite !fold_left_app. simpl. rewrite <- IH.
  pose proof (fold_no_skip false l [] (List.Forall_nil _)) as Hns.
  set (N := fold_left (clean_step false) l []) in *.
  destruct (is_skip c) eqn:Hs; [now rewrite !step_skip|].
  destruct (is_dotdot c) eqn:Hd.
  - destruct N as [|top rest].
    + now rewrite step_dotdot_nil.
    + destruct (is_dotdot top) eqn:Ht.
      * rewrite step_dotdot_dotdot by assumption.
        simpl rev. now rewrite !fold_left_app.
      * rewrite (step_pop false) by assumption.
        simpl rev. rewrite fold_left_app. simpl.
        inversion Hns; subst.
        rewrite (step_real r _ top) by (split; assumption).
        now rewrite step_pop.
  - rewrite (step_real false) by (split; assumption).
    simpl rev. now rewrite fold_left_app.
Qed.

Lemma Clean_unfold s :
  Clean s = render (is_rooted s) (clean_elems (is_rooted s) (split_slash s)).
Proof. destruct s; reflexivity. Qed.

Lemma join_head x xs :
  no_skip x -> slash_free x ->
  exists c rest, join_slash (x :: xs) = String c rest /\ Ascii.eqb c slash = false.
Proof.
  intros Hx Hs. destruct x as [|c x]; [discriminate|].
  unfold slash_free in Hs. simpl in Hs. apply orb_false_iff in Hs as [Hc _].
  destruct xs; simpl; [|rewrite append_cons]; eauto.
Qed.

Lemma rev_head {A} (l : list A) : l <> [] -> exists x xs, rev l = x :: xs.
Proof.
  intros H. destruct (rev l) eqn:E; [|eauto].
  apply (f_equal (@rev A)) in E. rewrite rev_involutive in E. contradiction.
Qed.

Lemma clean_elems_inv r l :
  Forall slash_free l ->
  Forall slash_free (clean_elems r l) /\ Forall no_skip (clean_elems r l).
Proof.
  intros H. split; [apply fold_slash_free; [assumption | constructor]|].
  apply fold_no_skip. constructor.
Qed.

(** The cleaned form of a relative path, split again, cleans as the path
    does, from any state. *)
Lemma fold_render_rel r l st :
  Forall slash_free l ->
  fold_left (clean_step r) (split_slash (render false (clean_elems false l))) st
  = fold_left (clean_step r) l st.
Proof.
  intros Hl. rewrite <- (clean_elems_subst r l st).
  destruct (clean_elems_inv false l Hl) as [Hsf Hns].
  destruct (clean_elems false l) as [|top rest] eqn:E; [reflexivity|].
  unfold render. rewrite split_join; [reflexivity | |].
  - intros H. apply (f_equal (@length _)) in H. rewrite length_rev in H. discriminate.
  - now apply Forall_rev.
Qed.

Lemma split_slash_cons x :
  split_slash (String slash x) = "" :: split_slash x.
Proof. reflexivity. Qed.

Lemma clean_elems_render r l :
  Forall slash_free l ->
  clean_elems r (split_slash (render r (clean_elems r l))) = clean_elems r l.
Proof.
  intros Hl. destruct r; [|apply (fold_render_rel false l [] Hl)].
  destruct (clean_elems_inv true l Hl) as [Hsf _].
  pose proof (fold_rooted_real l [] (List.Forall_nil _)) as Hreal.
  fold (clean_elems true l) in Hreal.
  destruct (clean_elems true l) as [|top rest] eqn:E; [reflexivity|].
  unfold render. rewrite split_slash_cons, split_join.
  - unfold clean_elems. cbn [fold_left]. rewrite step_skip by reflexivity.
    rewrite fold_real by now apply Forall_rev.
    now rewrite rev_involutive, app_nil_r.
  - intros H. apply (f_equal (@length _)) in H. rewrite length_rev in H. discriminate.
  - now apply Forall_rev.
Qed.

Lemma is_rooted_render r l :
  Forall slash_free l -> is_rooted (render r (clean_elems r l)) = r.
Proof.
  intros Hl. destruct r; [reflexivity|].
  destruct (clean_elems_inv false l Hl) as [Hsf Hns].
  destruct (clean_elems false l) as [|top rest] eqn:E; [reflexivity|].
  unfold render.
  destruct (rev_head (top :: rest)) as (x & xs & Hrev); [discriminate|].
  rewrite Hrev.
  assert (Hx : no_skip x /\ slash_free x).
  { apply Forall_rev in Hsf, Hns. rewrite Hrev in Hsf, Hns.
    inversion Hsf; inversion Hns; subst; auto. }
  destruct (join_head x xs) as (c & tl & -> & Hc); [tauto | tauto | exact Hc].
Qed.

Lemma Clean_nonempty s : Clean s <> "".
Proof.
  rewrite Clean_unfold.
  pose proof (is_rooted_render (is_rooted s) (split_slash s) (split_slash_elems s)) as H.
  destruct (is_rooted s); [discriminate|].
  destruct (clean_elems_inv false (split_slash s) (split_slash_elems s)) as [Hsf Hns].
  destruct (clean_elems false (split_slash s)) as [|top rest] eqn:E; [discriminate|].
  unfold render in *.
  destruct (rev_head (top :: rest)) as (x & xs & Hrev); [discriminate|].
  rewrite Hrev.
  assert (Hx : no_skip x /\ slash_free x).
  { apply Forall_rev in Hsf, Hns. rewrite Hrev in Hsf, Hns.
    inversion Hsf; inversion Hns; subst; auto. }
  destruct (join_head x xs) as (c & tl & -> & Hc); [tauto | tauto | discriminate].
Qed.

Lemma is_rooted_Clean s : is_rooted (Clean s) = is_rooted s.
Proof. rewrite Clean_unfold. apply is_rooted_render, split_slash_elems. Qed.

Lemma Clean_Clean s : Clean (Clean s) = Clean s.
Proof.
  rewrite (Clean_unfold (Clean s)), is_rooted_Clean.
  rewrite (Clean_unfold s) at 1.
  rewrite clean_elems_render by apply split_slash_elems.
  symmetry. apply Clean_unfold.
Qed.

Lemma is_rooted_app s t : s <> "" -> is_rooted (s +:+ t) = is_rooted s.
Proof. destruct s; [congruence | reflexivity]. Qed.

Lemma Clean_app_l s t :
  s <> "" -> Clean (Clean s +:+ String slash t) = Clean (s +:+ String slash t).
Proof.
  intros Hs. rewrite !Clean_unfold with (s := _ +:+ _).
  rewrite !is_rooted_app by (assumption || apply Clean_nonempty).
  rewrite is_rooted_Clean. unfold split_slash. rewrite !split_on_app.
  fold split_slash. unfold clean_elems. rewrite !fold_left_app.
  f_equal. f_equal. fold (clean_elems (is_rooted s) (split_slash (Clean s))).
  rewrite (Clean_unfold s). apply clean_elems_render, split_slash_elems.
Qed.

Lemma Clean_app_r s t :
  s <> "" -> is_rooted t = false ->
  Clean (s +:+ String slash (Clean t)) = Clean (s +:+ String slash t).
Proof.
  intros Hs Ht. rewrite !Clean_unfold with (s := _ +:+ _).
  rewrite !is_rooted_app by assumption.
  unfold split_slash. rewrite !split_on_app.
  fold split_slash. unfold clean_elems. rewrite !fold_left_app.
  f_equal. rewrite (Clean_unfold t), Ht.
  apply fold_render_rel, split_slash_elems.
Qed.
End GoPathFacts.

(** ** The path of a handle *)

Section PathLayout.
Import GoPathFacts.

Notation "a // b" := (a +:+ String GoPath.slash b) (at level 60, right associativity).

Lemma eqb_empty_false a : a <> "" -> String.eqb a "" = false.
Proof. intros H. now apply String.eqb_neq. Qed.

Lemma Join_cons_nonempty a l : a <> "" -> Join (a :: l) = GoPath.Clean (GoPath.join_slash (a :: l)).
Proof.
  intros H. unfold Join. cbn [GoPath.Join]. rewrite eqb_empty_false by assumption.
  apply Clean_Clean.
Qed.

Lemma Join_cons_empty l : Join ("" :: l) = Join l.
Proof. reflexivity. Qed.

(** Joining a name to a cleaned directory. *)
Lemma Join_Clean_name x name : x <> "" -> Join [GoPath.Clean x; name] = GoPath.Clean (x // name).
Proof.
  intros H. rewrite Join_cons_nonempty by apply Clean_nonempty.
  cbn [GoPath.join_slash]. now apply Clean_app_l.
Qed.

Lemma slash_assoc a b c : (a // b) // c = a // b // c.
Proof. now rewrite append_assoc, append_cons. Qed.

Lemma slash_nonempty a b : a // b <> "".
Proof. destruct a; discriminate. Qed.

Lemma Join_nested root d name :
  d <> "" -> Join [Join [root; d]; name] = Join [root; d; name].
Proof.
  intros Hd. destruct (String.eqb_spec root "") as [->|Hr].
  - rewrite !Join_cons_empty.
    rewrite (Join_cons_nonempty d []), (Join_cons_nonempty d [name]) by assumption.
    cbn [GoPath.join_slash]. now apply Join_Clean_name.
  - rewrite (Join_cons_nonempty root [d]), (Join_cons_nonempty root [d; name]) by assumption.
    cbn [GoPath.join_slash]. rewrite Join_Clean_name by apply slash_nonempty.
    now rewrite slash_assoc.
Qed.

Lemma Join_nested_shard root d sh name :
  d <> "" -> GoPath.is_rooted d = false ->
  Join [Join [root; Join [d; sh]]; name] = Join [root; d; sh; name].
Proof.
  intros Hd Hrel.
  rewrite (Join_cons_nonempty d [sh]) by assumption. cbn [GoPath.join_slash].
  assert (Ht : GoPath.is_rooted (d // sh) = false) by now rewrite is_rooted_app.
  destruct (String.eqb_spec root "") as [->|Hr].
  - rewrite !Join_cons_empty.
    rewrite (Join_cons_nonempty (GoPath.Clean _) []) by apply Clean_nonempty.
    cbn [GoPath.join_slash]. rewrite Clean_Clean.
    rewrite Join_Clean_name by apply slash_nonempty.
    rewrite Join_cons_nonempty by assumption. cbn [GoPath.join_slash].
    now rewrite slash_assoc.
  - rewrite (Join_cons_nonempty root [GoPath.Clean _]) by assumption. cbn [GoPath.join_slash].
    rewrite Clean_app_r by assumption.
    rewrite Join_Clean_name by apply slash_nonempty.
    rewrite Join_cons_nonempty by assumption. cbn [GoPath.join_slash].
    now rewrite !slash_assoc.
Qed.

(** The path the backend computes is the path of the spec. *)
Lemma filename_path_spec (r : SFTP) (h : Handle) :
  known_type (Type_ h) = true -> filename r h = path_spec (p r) h.
Proof.
  destruct h as [t name]. unfold filename, dirname, path_spec. cbn [Type_ Name].
  destruct t; try discriminate; intros _; try reflexivity;
    try (apply Join_nested; discriminate).
  destruct (Nat.ltb 2 (String.length name)).
  - apply Join_nested_shard; [discriminate | reflexivity].
  - apply Join_nested; discriminate.
Qed.
End PathLayout.

(** ** The parents of a path *)

Module DirFacts.
Import GoPath GoPathFacts.

Lemma fold_length r l st :
  (length (fold_left (clean_step r) l st) <= length l + length st)%nat.
Proof.
  revert st. induction l as [|c l IH]; intros st; [cbn; lia|].
  cbn [fold_left]. specialize (IH (clean_step r st c)).
  assert (length (clean_step r st c) <= S (length st))%nat.
  { unfold clean_step. destruct (is_skip c); [lia|].
    destruct (is_dotdot c); [|cbn; lia].
    destruct st as [|top rest]; [destruct r; cbn; lia|].
    destruct (is_dotdot top); [destruct r; cbn; lia | cbn; lia]. }
  cbn [length]. lia.
Qed.

(** The elements below the last one of a cleaned path are a cleaned path. *)
Lemma clean_elems_tail r l top rest :
  Forall slash_free l ->
  clean_elems r l = top :: rest ->
  clean_elems r (rev rest) = rest.
Proof.
  intros Hl E. destruct r.
  - pose proof (fold_rooted_real l [] (List.Forall_nil _)) as Hreal.
    fold (clean_elems true l) in Hreal. rewrite E in Hreal. inversion Hreal; subst.
    unfold clean_elems. rewrite fold_real by now apply Forall_rev.
    now rewrite rev_involutive, app_nil_r.
  - pose proof (clean_elems_subst false l []) as Hs. fold (clean_elems false l) in Hs.
    rewrite E in Hs. cbn [rev] in Hs. rewrite fold_left_app in Hs. cbn [fold_left] in Hs.
    fold (clean_elems false (rev rest)) in Hs.
    pose proof (fold_length false (rev rest) []) as Hlen.
    fold (clean_elems false (rev rest)) in Hlen. rewrite length_rev in Hlen. cbn in Hlen.
    destruct (clean_elems_inv false l Hl) as [_ Hns]. rewrite E in Hns.
    inversion Hns as [|? ? Htop _]; subst.
    set (M := clean_elems false (rev rest)) in *.
    unfold clean_step in Hs. rewrite Htop in Hs.
    destruct (is_dotdot top) eqn:Hd; [|now inversion Hs].
    destruct M as [|t M'].
    + now inversion Hs.
    + destruct (is_dotdot t); [now inversion Hs|].
      subst M'. cbn in Hlen. lia.
Qed.

Lemma has_slash_app x y : has_slash (x +:+ y) = has_slash x || has_slash y.
Proof.
  induction x as [|c x IH]; [reflexivity|].
  rewrite append_cons. cbn [has_slash]. rewrite IH. now rewrite orb_assoc.
Qed.

Lemma split_dir_slash_free x : slash_free x -> split_dir x = "".
Proof. intros H. destruct x; [reflexivity|]. cbn [split_dir]. now rewrite H. Qed.

Lemma split_dir_app x top :
  slash_free top -> split_dir (x +:+ String slash top) = x +:+ String slash "".
Proof.
  intros Htop. induction x as [|c x IH].
  - change ("" +:+ String slash top) with (String slash top).
    cbn [split_dir has_slash]. rewrite Ascii.eqb_refl. cbn [orb].
    now rewrite split_dir_slash_free.
  - rewrite !append_cons. cbn [split_dir].
    assert (has_slash (String c (x +:+ String slash top)) = true) as ->.
    { cbn [has_slash]. rewrite has_slash_app. cbn [has_slash].
      rewrite Ascii.eqb_refl. cbn. now rewrite !orb_true_r. }
    now rewrite IH.
Qed.

Lemma join_slash_snoc l top :
  l <> [] -> join_slash (l ++ [top]) = join_slash l +:+ String slash top.
Proof.
  induction l as [|x l IH]; [congruence|]. intros _.
  destruct l as [|y l]; [reflexivity|].
  change (join_slash ((x :: y :: l) ++ [top]))
    with (x +:+ String slash (join_slash ((y :: l) ++ [top]))).
  rewrite IH by discriminate.
  change (join_slash (x :: y :: l)) with (x +:+ String slash (join_slash (y :: l))).
  now rewrite append_assoc, append_cons.
Qed.

Lemma render_nonempty r l :
  Forall slash_free l -> render r (clean_elems r l) <> "".
Proof.
  intros Hl. destruct r; [discriminate|].
  destruct (clean_elems_inv false l Hl) as [Hsf Hns].
  destruct (clean_elems false l) as [|top rest] eqn:E; [discriminate|].
  unfold render.
  destruct (rev_head (top :: rest)) as (x & xs & Hrev); [discriminate|].
  rewrite Hrev.
  assert (Hx : no_skip x /\ slash_free x).
  { apply Forall_rev in Hsf, Hns. rewrite Hrev in Hsf, Hns.
    inversion Hsf; inversion Hns; subst; auto. }
  destruct (join_head x xs) as (c & tl & -> & Hc); [tauto | tauto | discriminate].
Qed.

(** Cleaning a cleaned path with a slash after it gives the path back. *)
Lemma Clean_render_slash r st :
  Forall slash_free st -> clean_elems r (rev st) = st ->
  Clean (render r st +:+ String slash "") = render r st.
Proof.
  intros Hsf Hst.
  assert (Hes : render r st = render r (clean_elems r (rev st))) by now rewrite Hst.
  assert (Hrev : Forall slash_free (rev st)) by now apply Forall_rev.
  rewrite Clean_unfold.
  assert (Hne : render r st <> "").
  { rewrite Hes. now apply render_nonempty. }
  assert (Hroot : is_rooted (render r st) = r).
  { rewrite Hes. now apply is_rooted_render. }
  rewrite is_rooted_app by exact Hne. rewrite Hroot.
  unfold split_slash. rewrite split_on_app. fold split_slash.
  unfold clean_elems at 1. rewrite fold_left_app.
  change (split_slash "") with [""]. cbn [fold_left].
  rewrite step_skip by reflexivity.
  fold (clean_elems r (split_slash (render r st))).
  rewrite Hes. rewrite clean_elems_render by exact Hrev. now rewrite Hst.
Qed.

(** [path.Dir] of a cleaned path drops its last element; the root and the
    current directory are their own parents. *)
Lemma Dir_render r l top rest :
  Forall slash_free l -> clean_elems r l = top :: rest ->
  Dir (render r (top :: rest)) = render r rest.
Proof.
  intros Hl E.
  pose proof (clean_elems_tail r l top rest Hl E) as Htail.
  destruct (clean_elems_inv r l Hl) as [Hsf _]. rewrite E in Hsf.
  inversion Hsf as [|? ? Htop Hrest]; subst.
  unfold Dir.
  destruct rest as [|t rest'].
  - destruct r; unfold render; cbn [rev app join_slash].
    + change (String slash top) with ("" +:+ String slash top).
      now rewrite split_dir_app.
    + now rewrite split_dir_slash_free.
  - assert (Hsplit : split_dir (render r (top :: t :: rest'))
                     = render r (t :: rest') +:+ String slash "").
    { destruct r; unfold render; cbn [rev].
      - rewrite join_slash_snoc.
        + rewrite <- append_cons. now apply split_dir_app.
        + intros H. apply (f_equal (@length _)) in H.
          rewrite length_app in H. cbn in H. lia.
      - rewrite join_slash_snoc.
        + now apply split_dir_app.
        + intros H. apply (f_equal (@length _)) in H.
          rewrite length_app in H. cbn in H. lia. }
    rewrite Hsplit. now apply Clean_render_slash.
Qed.

Lemma Dir_root r : Dir (render r []) = render r [].
Proof. destruct r; reflexivity. Qed.
End DirFacts.

(** ** The in-memory remote side *)

Module MemFSFacts.
Import MemFS.

Lemma land_perm_dir m : Z.land (Z.land m ModePerm) ModeDir = 0.
Proof. rewrite <- Z.land_assoc. change (Z.land ModePerm ModeDir) with 0. apply Z.land_0_r. Qed.

Lemma chmod_keeps_kind n mode :
  node_IsDir {| n_mode := Z.lor (Z.land (n_mode n) ModeDir) (Z.land mode ModePerm);
                n_data := n_data n |} = node_IsDir n.
Proof.
  unfold node_IsDir. cbn [n_mode]. f_equal. f_equal.
  rewrite Z.land_lor_distr_l, land_perm_dir, Z.lor_0_r.
  rewrite <- Z.land_assoc. now rewrite Z.land_diag.
Qed.

Lemma IsDir_info path n : IsDir (info path n) = node_IsDir n.
Proof. reflexivity. Qed.

Lemma same_proc_refl w : same_proc w w.
Proof. repeat split. Qed.

Lemma same_proc_trans w1 w2 w3 : same_proc w1 w2 -> same_proc w2 w3 -> same_proc w1 w3.
Proof. unfold same_proc. intuition congruence. Qed.

Lemma Lstat_eq path w :
  Lstat path w = (logged (CLstat path) w,
                  match fs w !! path with
                  | Some n => inr (info path n)
                  | None => inl ErrNotExist
                  end).
Proof. unfold Lstat. cbn. now destruct (fs w !! path). Qed.

Lemma OpenFile_create_excl path w :
  OpenFile path (Z.lor (Z.lor O_CREATE O_EXCL) O_WRONLY) w =
  let w' := logged (COpenFile path (Z.lor (Z.lor O_CREATE O_EXCL) O_WRONLY)) w in
  match fs w !! path with
  | Some _ => (w', inl failure)
  | None =>
      if is_dir_at (fs w) (GoPath.Dir path)
      then (with_fs w' (<[path := file_node]> (fs w)), inr {| f_path := path; f_offset := 0 |})
      else (w', inl ErrNotExist)
  end.
Proof. unfold OpenFile. cbn. destruct (fs w !! path); reflexivity. Qed.

Lemma OpenFile_read path w n :
  fs w !! path = Some n ->
  OpenFile path O_RDONLY w =
  (logged (COpenFile path O_RDONLY) w, inr {| f_path := path; f_offset := 0 |}).
Proof. intros H. unfold OpenFile. cbn. rewrite H. cbn. now rewrite andb_false_r. Qed.

Lemma Mkdir_same_proc path w : same_proc w (Mkdir path w).1.
Proof.
  unfold Mkdir. cbn. destruct (fs w !! path); [repeat split|].
  destruct (is_dir_at _ _); repeat split.
Qed.

Lemma Chmod_same_proc path mode w : same_proc w (Chmod path mode w).1.
Proof. unfold Chmod. cbn. destruct (fs w !! path); repeat split. Qed.

Section WithModes.
Variable Modes_Dir : FileMode.

Lemma mkdirAll_same_proc fuel : forall dir mode w w' e,
  mkdirAll Modes_Dir fuel dir mode w = Some (w', e) -> same_proc w w'.
Proof.
  induction fuel as [|fuel IH]; intros dir mode w w' e; [discriminate|].
  cbn [mkdirAll]. unfold bindF, lift, retF. cbn [c_Lstat c_Mkdir c_Chmod client].
  rewrite Lstat_eq.
  destruct (fs w !! dir) as [n|] eqn:E.
  - destruct (IsDir _); intros [= <- <-]; repeat split.
  - destruct (mkdirAll Modes_Dir fuel (GoPath.Dir dir) Modes_Dir _) as [[w1 e1]|] eqn:E1;
      [|discriminate].
    apply IH in E1.
    pose proof (Mkdir_same_proc dir w1) as Hmk.
    destruct (Mkdir dir w1) as [w2 e2]. cbn [fst] in Hmk.
    rewrite Lstat_eq.
    assert (H02 : same_proc w w2).
    { eapply same_proc_trans; [|exact Hmk].
      eapply same_proc_trans; [|exact E1]. repeat split. }
    destruct (fs w2 !! dir) as [n|].
    + destruct (negb _).
      * intros [= <- <-]. eapply same_proc_trans; [exact H02 | repeat split].
      * intros [= Hc]. pose proof (Chmod_same_proc dir mode (logged (CLstat dir) w2)) as Hch.
        rewrite Hc in Hch. cbn [fst] in Hch.
        eapply same_proc_trans; [exact H02 |].
        eapply same_proc_trans; [|exact Hch]. repeat split.
    + intros [= <- <-]. eapply same_proc_trans; [exact H02 | repeat split].
Qed.

(** A successful mkdirAll leaves a directory behind. *)
Lemma mkdirAll_ok_dir fuel dir mode w w' :
  mkdirAll Modes_Dir fuel dir mode w = Some (w', None) -> is_dir_at (fs w') dir = true.
Proof.
  destruct fuel as [|fuel]; [discriminate|].
  cbn [mkdirAll]. unfold bindF, lift, retF. cbn [c_Lstat c_Mkdir c_Chmod client].
  rewrite Lstat_eq. unfold is_dir_at.
  destruct (fs w !! dir) as [n|] eqn:E.
  - rewrite IsDir_info. destruct (node_IsDir n) eqn:Hd; intros [= <-].
    cbn. now rewrite E, Hd.
  - destruct (mkdirAll Modes_Dir fuel (GoPath.Dir dir) Modes_Dir _) as [[w1 e1]|]; [|discriminate].
    destruct (Mkdir dir w1) as [w2 e2]. rewrite Lstat_eq.
    destruct (fs w2 !! dir) as [n|] eqn:E2; [|discriminate].
    rewrite IsDir_info. destruct (node_IsDir n) eqn:Hd; [|discriminate].
    cbn [negb]. unfold Chmod. cbn. rewrite E2. intros [= <-].
    cbn. rewrite lookup_insert_eq. now rewrite chmod_keeps_kind.
Qed.

Lemma clientError_eq r w :
  clientError r w =
  match result_chan w with
  | Some err => (with_proc w None (running w), err)
  | None => (w, None)
  end.
Proof.
  unfold clientError, bind, ret. cbn [result_poll proc]. unfold poll.
  destruct (result_chan w) as [[e|]|]; reflexivity.
Qed.

Lemma write_at_fresh data : write_at [] 0 data = data.
Proof. unfold write_at. cbn. now rewrite drop_nil, app_nil_r. Qed.

Lemma Save_ok fuel r h rd w w1 :
  Save Modes_Dir fuel r h rd w = Some (w1, None) ->
  Valid h = None /\ result_chan w1 = None /\
  saved (Filename (layout r) h) (rd_data rd) w1 /\
  (is_DataFile (Type_ h) = true ->
   is_dir_at (fs w1) (GoPath.Dir (Filename (layout r) h)) = true /\ fuel <> O).
Proof.
  unfold Save. unfold bindF at 1. unfold lift at 1. rewrite clientError_eq.
  set (path := Filename (layout r) h).
  set (w0 := match result_chan w with
             | Some err => (with_proc w None (running w), err)
             | None => (w, None) end).
  assert (Hw0 : w0.2 = None -> result_chan w0.1 = None).
  { subst w0. destruct (result_chan w) as [[e|]|] eqn:E; cbn; congruence. }
  destruct w0 as [w0 [e|]]; [unfold retF; discriminate|].
  cbn [fst snd] in Hw0. specialize (Hw0 eq_refl).
  destruct (Valid h) as [e|]; [unfold retF; discriminate|].
  unfold bindF at 1.
  set (mk := (if is_DataFile (Type_ h)
              then mkdirAll Modes_Dir fuel (GoPath.Dir path) Modes_Dir
              else retF None) w0).
  assert (Hmk : forall w' e, mk = Some (w', e) ->
            same_proc w0 w' /\
            (e = None -> is_DataFile (Type_ h) = true ->
             is_dir_at (fs w') (GoPath.Dir path) = true /\ fuel <> O)).
  { subst mk. intros w' e. destruct (is_DataFile (Type_ h)).
    - intros H. split; [eapply mkdirAll_same_proc; exact H|].
      intros -> _. split; [eapply mkdirAll_ok_dir; exact H|].
      intros ->. discriminate.
    - unfold retF. intros [= <- <-]. split; [repeat split | discriminate]. }
  destruct mk as [[w' [e|]]|]; [unfold retF; discriminate | | discriminate].
  destruct (Hmk w' None eq_refl) as [Hproc Hdir]. specialize (Hdir eq_refl). clear Hmk.
  unfold bindF at 1. unfold lift at 1. cbn [c_OpenFile client].
  rewrite OpenFile_create_excl. cbv zeta.
  destruct (fs w' !! path) as [n0|] eqn:Hfree; [unfold retF; discriminate|].
  destruct (is_dir_at (fs w') (GoPath.Dir path)) eqn:Hparent; [|unfold retF; discriminate].
  unfold bindF at 1. unfold lift at 1.
  set (w2 := with_fs (logged _ w') _).
  set (f := {| f_path := path; f_offset := 0 |}).
  assert (H2 : fs w2 !! path = Some file_node) by (subst w2; cbn; apply lookup_insert_eq).
  assert (Hcopy : forall w3 f3 k e3, io_Copy f rd w2 = (w3, (f3, (k, e3))) ->
            e3 = None ->
            f_path f3 = path /\ same_proc w2 w3 /\
            fs w3 = <[path := {| n_mode := n_mode file_node; n_data := rd_data rd |}]> (fs w2)).
  { intros w3 f3 k e3. unfold io_Copy.
    destruct (rd_data rd) as [|b bs] eqn:Hdata.
    - unfold ret. intros [= <- <- <- <-] _. repeat split.
      symmetry. now apply insert_id.
    - unfold bind, ret. cbn [f_Write client]. unfold Write. cbn [f_path f_offset f fs logged].
      rewrite H2. rewrite write_at_fresh. cbn [n_mode].
      rewrite Z.eqb_refl. intros [= <- <- <- <-] _. repeat split. }
  destruct (io_Copy f rd w2) as [w3 [f3 [k [e3|]]]]; [unfold bindF, lift, retF; cbn; discriminate|].
  destruct (Hcopy w3 f3 k None eq_refl eq_refl) as (Hf3 & Hproc3 & Hfs3). clear Hcopy.
  unfold bindF at 1. unfold lift at 1. cbn [f_Close client]. unfold CloseFile.
  unfold bindF at 1. unfold lift at 1. cbn [c_Lstat client]. rewrite Lstat_eq.
  cbn [fs logged]. rewrite Hfs3, lookup_insert_eq.
  unfold bindF, lift, retF. cbn [c_Chmod client]. unfold Chmod. cbn [fs logged].
  rewrite Hfs3, lookup_insert_eq. cbn [Wrap]. intros [= <-].
  split; [reflexivity|]. split.
  { cbn. destruct Hproc3 as [-> _]. subst w2. cbn. destruct Hproc as [-> _]. exact Hw0. }
  split.
  { eexists. cbn [fs with_fs]. rewrite lookup_insert_eq. split; [reflexivity|].
    split; reflexivity. }
  intros Hdata. destruct (Hdir Hdata) as [_ Hfuel]. split; [|exact Hfuel].
  cbn [fs with_fs]. unfold is_dir_at in *.
  assert (Hne : path <> GoPath.Dir path).
  { intros Heq. rewrite <- Heq, Hfree in Hparent. discriminate. }
  rewrite lookup_insert_ne by exact Hne.
  rewrite lookup_insert_ne by exact Hne.
  subst w2. cbn [fs with_fs]. rewrite lookup_insert_ne by exact Hne. exact Hparent.
Qed.

Lemma Save_again fuel r h rd w n :
  Valid h = None -> result_chan w = None ->
  fs w !! Filename (layout r) h = Some n ->
  (is_DataFile (Type_ h) = true ->
   is_dir_at (fs w) (GoPath.Dir (Filename (layout r) h)) = true /\ fuel <> O) ->
  Save Modes_Dir fuel r h rd w
  = Some (collided h (Filename (layout r) h) w, Some (ErrWrap failure "OpenFile")).
Proof.
  intros Hvalid Hchan Hn Hdir. unfold Save, collided.
  unfold bindF at 1. unfold lift at 1. rewrite clientError_eq, Hchan, Hvalid.
  set (path := Filename (layout r) h) in *.
  unfold bindF at 1.
  destruct (is_DataFile (Type_ h)).
  - destruct (Hdir eq_refl) as [Hd Hfuel].
    destruct fuel as [|fuel]; [congruence|].
    cbn [mkdirAll]. unfold bindF at 1. unfold lift at 1.
    cbn [c_Lstat client]. rewrite Lstat_eq.
    unfold is_dir_at in Hd.
    destruct (fs w !! GoPath.Dir path) as [nd|]; [|discriminate].
    rewrite IsDir_info, Hd. unfold retF at 1.
    unfold bindF, lift, retF. cbn [c_OpenFile client].
    rewrite OpenFile_create_excl. cbn [fs logged].
    now rewrite Hn.
  - unfold retF at 1. unfold bindF, lift, retF. cbn [c_OpenFile client].
    rewrite OpenFile_create_excl. now rewrite Hn.
Qed.

Lemma Load_eq r h length offset w n :
  Valid h = None -> 0 <= offset ->
  fs w !! filename r h = Some n ->
  Load r h length offset w
  = (logged (COpenFile (filename r h) O_RDONLY) w,
     inr {| rc_file := {| f_path := filename r h; f_offset := offset |};
            rc_limit := if 0 <? length then Some length else None |}).
Proof.
  intros Hvalid Hoff Hn. unfold Load. rewrite Hvalid.
  destruct (offset <? 0) eqn:Hneg; [lia|].
  unfold bind at 1. cbn [c_Open client]. rewrite (OpenFile_read _ _ n Hn).
  unfold bind at 1.
  destruct (0 <? offset) eqn:Hpos.
  - cbn [f_Seek client]. unfold Seek. cbn [f_path].
    destruct (0 <? length); reflexivity.
  - unfold ret at 1. assert (offset = 0) as -> by lia.
    destruct (0 <? length); reflexivity.
Qed.
End WithModes.

(** *** Reading a stream to its end *)

Lemma take_then_drop {A} (m : nat) (l : list A) :
  (take m l ++ drop (length (take m l)) l)%list = l.
Proof.
  revert m. induction l as [|a l IH]; intros [|m]; cbn; try reflexivity.
  f_equal. apply IH.
Qed.

Lemma take_split {A} (m k : nat) (l : list A) :
  (m <= k)%nat ->
  take k l = (take m l ++ take (k - length (take m l)) (drop (length (take m l)) l))%list.
Proof.
  revert m k. induction l as [|a l IH]; intros m k Hmk.
  - now rewrite !take_nil, drop_nil, take_nil.
  - destruct m as [|m]; [cbn; now rewrite Nat.sub_0_r|].
    destruct k as [|k]; [lia|]. cbn. f_equal. apply IH. lia.
Qed.

Lemma ReadAll_mem chunk path :
  0 < chunk ->
  forall fuel off lim w n,
    fs w !! path = Some n -> 0 <= off ->
    (length (drop (Z.to_nat off) (n_data n)) < fuel)%nat ->
    exists w',
      ReadAll fuel chunk {| rc_file := {| f_path := path; f_offset := off |}; rc_limit := lim |} w
      = Some (w', (bounded lim (drop (Z.to_nat off) (n_data n)), None))
      /\ fs w' = fs w.
Proof.
  intros Hchunk. induction fuel as [|fuel IH]; intros off lim w n Hn Hoff Hfuel; [lia|].
  cbn [ReadAll]. unfold bindF at 1. unfold lift at 1.
  unfold rc_Read. cbn [rc_limit rc_file].
  set (avail := drop (Z.to_nat off) (n_data n)) in *.
  assert (Hstep : forall c, 0 < c ->
            let got := take (Z.to_nat c) avail in
            avail <> [] ->
            Read {| f_path := path; f_offset := off |} c w
            = (logged (CRead path off c) w,
               ({| f_path := path; f_offset := off + zlen got |}, (got, None)))).
  { intros c Hc got Hne. unfold Read. cbn [f_path f_offset fs logged].
    rewrite Hn. fold avail.
    destruct avail; [congruence | reflexivity]. }
  assert (Hnext : forall c lim',
            let got := take (Z.to_nat c) avail in
            0 < c -> avail <> [] ->
            exists w', ReadAll fuel chunk
              {| rc_file := {| f_path := path; f_offset := off + zlen got |}; rc_limit := lim' |}
              (logged (CRead path off c) w)
            = Some (w', (bounded lim' (drop (length got) avail), None)) /\ fs w' = fs w).
  { intros c lim' got Hc Hne.
    destruct (IH (off + zlen got) lim' (logged (CRead path off c) w) n) as (w' & Hr & Hfs).
    - exact Hn.
    - unfold zlen. lia.
    - unfold zlen. rewrite Z2Nat.inj_add, Nat2Z.id by lia.
      rewrite <- drop_drop. fold avail. rewrite length_drop.
      assert (0 < length got)%nat.
      { subst got. destruct avail; [congruence|].
        destruct (Z.to_nat c) eqn:E; [lia|]. cbn. lia. }
      assert (0 < length avail)%nat by (destruct avail; [congruence | cbn; lia]).
      lia.
    - exists w'. split; [|exact Hfs]. rewrite Hr.
      unfold zlen. rewrite Z2Nat.inj_add, Nat2Z.id by lia.
      rewrite <- drop_drop. reflexivity. }
  destruct lim as [k|].
  - destruct (k <=? 0) eqn:Hk.
    + unfold ret. cbn. exists w. split; [|reflexivity].
      unfold retF. repeat f_equal. replace (Z.to_nat k) with O by lia. now rewrite take_0.
    + unfold bind, ret. cbn [f_Read client].
      destruct avail as [|b rest] eqn:Hav.
      * unfold Read. cbn [f_path f_offset fs logged]. rewrite Hn. fold avail. rewrite Hav.
        cbn. eexists. split; [unfold retF; repeat f_equal; now rewrite take_nil | reflexivity].
      * rewrite Hstep by (lia || discriminate). cbv beta iota zeta.
        destruct (Hnext (Z.min chunk k)
                    (Some (k - zlen (take (Z.to_nat (Z.min chunk k)) (b :: rest)))))
          as (w' & Hr & Hfs); [lia | discriminate|].
        unfold bindF at 1. cbv zeta in Hr. rewrite Hr.
        exists w'. split; [|exact Hfs]. unfold retF, bounded. repeat f_equal.
        unfold zlen. rewrite Z2Nat.inj_sub, Nat2Z.id by lia.
        symmetry. apply take_split. lia.
  - unfold bind, ret. cbn [f_Read client].
    destruct avail as [|b rest] eqn:Hav.
    + unfold Read. cbn [f_path f_offset fs logged]. rewrite Hn. fold avail. rewrite Hav.
      cbn. eexists. split; reflexivity.
    + rewrite Hstep by (lia || discriminate). cbv beta iota zeta.
      destruct (Hnext chunk None) as (w' & Hr & Hfs); [lia | discriminate|].
      unfold bindF at 1. cbv zeta in Hr. rewrite Hr.
      exists w'. split; [|exact Hfs]. unfold retF, bounded. repeat f_equal.
      apply take_then_drop.
Qed.
End MemFSFacts.

(** ** mkdirAll returns on the in-memory remote side *)

Module MkdirFacts.
Import MemFS MemFSFacts GoPathFacts DirFacts.

Section WithModes.
Variable Modes_Dir : FileMode.

Lemma Mkdir_keeps_dirs path w x :
  is_dir_at (fs w) x = true -> is_dir_at (fs (Mkdir path w).1) x = true.
Proof.
  intros Hx. unfold Mkdir. cbn [fs logged].
  destruct (fs w !! path) as [n|] eqn:E; [exact Hx|].
  destruct (is_dir_at (fs w) (GoPath.Dir path)); [|exact Hx].
  cbn [fst fs with_fs]. unfold is_dir_at in *.
  destruct (String.eqb_spec path x) as [->|Hne]; [now rewrite E in Hx|].
  now rewrite lookup_insert_ne.
Qed.

Lemma Chmod_keeps_dirs path mode w x :
  is_dir_at (fs w) x = true -> is_dir_at (fs (Chmod path mode w).1) x = true.
Proof.
  intros Hx. unfold Chmod. cbn [fs logged].
  destruct (fs w !! path) as [n|] eqn:E; [|exact Hx].
  cbn [fst fs with_fs]. unfold is_dir_at in *.
  destruct (String.eqb_spec path x) as [->|Hne].
  - rewrite lookup_insert_eq, chmod_keeps_kind. now rewrite E in Hx.
  - now rewrite lookup_insert_ne.
Qed.

Lemma mkdirAll_keeps_dirs fuel : forall dir mode w w' e x,
  mkdirAll Modes_Dir fuel dir mode w = Some (w', e) ->
  is_dir_at (fs w) x = true -> is_dir_at (fs w') x = true.
Proof.
  induction fuel as [|fuel IH]; intros dir mode w w' e x; [discriminate|].
  cbn [mkdirAll]. unfold bindF, lift, retF. cbn [c_Lstat c_Mkdir c_Chmod client].
  rewrite Lstat_eq.
  destruct (fs w !! dir) as [n|] eqn:E.
  - destruct (IsDir _); intros [= <- <-] Hx; exact Hx.
  - destruct (mkdirAll Modes_Dir fuel (GoPath.Dir dir) Modes_Dir _) as [[w1 e1]|] eqn:E1;
      [|discriminate].
    intros H Hx.
    assert (H1 : is_dir_at (fs w1) x = true) by (eapply IH; [exact E1 | exact Hx]).
    pose proof (Mkdir_keeps_dirs dir w1 x H1) as H2.
    destruct (Mkdir dir w1) as [w2 e2]. cbn [fst] in H2.
    rewrite Lstat_eq in H.
    destruct (fs w2 !! dir) as [n|].
    + destruct (negb _).
      * injection H as <- <-. exact H2.
      * injection H as H.
        pose proof (Chmod_keeps_dirs dir mode (logged (CLstat dir) w2) x H2) as H3.
        now rewrite H in H3.
    + injection H as <- <-. exact H2.
Qed.

(** One level of mkdirAll returns when the level below does. *)
Lemma mkdirAll_level fuel dir mode w :
  (forall w1, fs w1 = fs w ->
              exists w2 e, mkdirAll Modes_Dir fuel (GoPath.Dir dir) Modes_Dir w1 = Some (w2, e)) ->
  exists w' e, mkdirAll Modes_Dir (S fuel) dir mode w = Some (w', e).
Proof.
  intros Hparent. cbn [mkdirAll]. unfold bindF, lift, retF.
  cbn [c_Lstat c_Mkdir c_Chmod client]. rewrite Lstat_eq.
  destruct (fs w !! dir) as [n|] eqn:E.
  - destruct (IsDir _); eauto.
  - destruct (Hparent (logged (CLstat dir) w) eq_refl) as (w2 & e1 & ->).
    destruct (Mkdir dir w2) as [w3 e2]. rewrite Lstat_eq.
    destruct (fs w3 !! dir) as [n|]; [|eauto].
    destruct (negb _); [eauto|].
    destruct (Chmod dir mode (logged (CLstat dir) w3)) as [w4 e4]. eauto.
Qed.

Lemma mkdirAll_cleaned r : forall st,
  Forall GoPath.slash_free st -> GoPath.clean_elems r (rev st) = st ->
  forall fuel mode w,
    anchored w -> (length st < fuel)%nat ->
    exists w' e, mkdirAll Modes_Dir fuel (GoPath.render r st) mode w = Some (w', e).
Proof.
  induction st as [|top rest IH]; intros Hsf Hst fuel mode w [Hroot Hhome] Hfuel.
  - destruct fuel as [|fuel]; [cbn in Hfuel; lia|].
    cbn [mkdirAll]. unfold bindF, lift, retF. cbn [c_Lstat client]. rewrite Lstat_eq.
    unfold is_dir_at in Hroot, Hhome.
    destruct r; cbn [GoPath.render rev GoPath.join_slash].
    + change (String GoPath.slash "") with "/".
      destruct (fs w !! "/") as [n|]; [|discriminate].
      rewrite IsDir_info, Hroot. eauto.
    + destruct (fs w !! ".") as [n|]; [|discriminate].
      rewrite IsDir_info, Hhome. eauto.
  - destruct fuel as [|fuel]; [cbn in Hfuel; lia|].
    apply mkdirAll_level. intros w1 Hfs.
    assert (Hrev : Forall GoPath.slash_free (rev (top :: rest))) by now apply Forall_rev.
    rewrite (Dir_render r (rev (top :: rest)) top rest Hrev Hst).
    inversion Hsf; subst.
    apply IH.
    + assumption.
    + exact (clean_elems_tail r (rev (top :: rest)) top rest Hrev Hst).
    + unfold anchored. now rewrite Hfs.
    + cbn in Hfuel. lia.
Qed.

(** With fuel [depth dir] or more, mkdirAll returns. *)
Lemma mkdirAll_returns fuel dir mode w :
  anchored w -> (depth dir <= fuel)%nat ->
  exists w' e, mkdirAll Modes_Dir fuel dir mode w = Some (w', e).
Proof.
  intros Hw Hfuel. unfold depth in Hfuel. cbv zeta in Hfuel.
  destruct fuel as [|fuel]; [lia|].
  apply mkdirAll_level. intros w1 Hfs.
  unfold GoPath.Dir. rewrite Clean_unfold.
  set (d := GoPath.split_dir dir) in *.
  set (st := GoPath.clean_elems (GoPath.is_rooted d) (GoPath.split_slash d)) in *.
  destruct (clean_elems_inv (GoPath.is_rooted d) (GoPath.split_slash d) (split_slash_elems d))
    as [Hsf _]. fold st in Hsf.
  apply mkdirAll_cleaned.
  - exact Hsf.
  - destruct st as [|top rest] eqn:E; [reflexivity|].
    subst st.
    destruct (GoPath.is_rooted d) eqn:Hd.
    + pose proof (fold_rooted_real (GoPath.split_slash d) [] (List.Forall_nil _)) as Hreal.
      fold (GoPath.clean_elems true (GoPath.split_slash d)) in Hreal. rewrite E in Hreal.
      unfold GoPath.clean_elems. rewrite fold_real by now apply Forall_rev.
      now rewrite rev_involutive, app_nil_r.
    + pose proof (clean_elems_subst false (GoPath.split_slash d) []) as Hs.
      fold (GoPath.clean_elems false (GoPath.split_slash d)) in Hs.
      rewrite E in Hs. exact Hs.
  - unfold anchored. now rewrite Hfs.
  - lia.
Qed.
End WithModes.
End MkdirFacts.

(** ** Path layout *)

(** C6: for a handle of one of the six collection types, the path the backend
    computes, by nested joins, is the path of the spec, a single
    join-and-clean: [root/config] for Config, whatever the name;
    [root/data/<first two characters>/<name>] for a Data name longer than two
    characters; [root/data/<name>] for a shorter Data name; and
    [root/<typeDir>/<name>] for the other four types. *)
Theorem filename_is_path_spec (r : SFTP) (h : Handle) :
  known_type (Type_ h) = true -> filename r h = path_spec (p r) h.
Proof. apply filename_path_spec. Qed.

Lemma filename_is_path_spec_witness :
  known_type (Type_ Fixture.blob) = true
  /\ filename Fixture.repo Fixture.blob = path_spec (p Fixture.repo) Fixture.blob.
Proof.
  split; [reflexivity|].
  apply (filename_is_path_spec Fixture.repo Fixture.blob). reflexivity.
Defined.

Example filename_of_blob :
  filename Fixture.repo Fixture.blob = "/srv/repo/data/ab/abcdef0123".
Proof. reflexivity. Qed.

(** ** Save and Load on the in-memory remote side *)

Section SaveLoad.
Import MemFS MemFSFacts.

Lemma valid_known h : Valid h = None -> known_type (Type_ h) = true.
Proof. unfold Valid. destruct (Type_ h); (reflexivity || discriminate). Qed.

(** With the default layout Save and Load name the same file. *)
Lemma default_layout_agrees r h :
  layout r = DefaultLayout (p r) -> Valid h = None ->
  Filename (layout r) h = filename r h.
Proof.
  intros -> Hv. cbn [Filename DefaultLayout]. symmetry.
  apply filename_path_spec. now apply valid_known.
Qed.

(** Loading an entry and reading it to the end. *)
Lemma Load_ReadAll r h length offset chunk w data :
  Valid h = None -> 0 <= offset -> 0 < chunk ->
  saved (filename r h) data w ->
  exists w2 rc w3,
    Load r h length offset w = (w2, inr rc) /\
    ReadAll (S (List.length data)) chunk rc w2
    = Some (w3, (bounded (if 0 <? length then Some length else None)
                         (drop (Z.to_nat offset) data), None)).
Proof.
  intros Hv Hoff Hchunk (n & Hn & Hdata & _).
  rewrite (Load_eq r h length offset w n Hv Hoff Hn).
  destruct (ReadAll_mem chunk (filename r h) Hchunk (S (List.length data)) offset
              (if 0 <? length then Some length else None)
              (logged (COpenFile (filename r h) O_RDONLY) w) n) as (w3 & Hr & _).
  - exact Hn.
  - exact Hoff.
  - rewrite Hdata, length_drop. lia.
  - rewrite Hdata in Hr. eauto.
Qed.
End SaveLoad.

(** C2: on a backend whose layout names the file of [h] as [filename] does,
    which the default layout does for every valid handle, when [Save(h, b)]
    has succeeded, [Load(h, 0, 0)] succeeds and the stream it returns, read to
    its end, is exactly [b]. *)
Theorem Save_Load_roundtrip (Modes_Dir : FileMode) (fuel : nat) (r : SFTP) (h : Handle)
    (rd : Reader) (chunk : Z) (w w1 : MemFS.World) :
  Filename (layout r) h = filename r h -> 0 < chunk ->
  Save Modes_Dir fuel r h rd w = Some (w1, None) ->
  exists w2 rc w3,
    Load r h 0 0 w1 = (w2, inr rc) /\
    ReadAll (S (length (rd_data rd))) chunk rc w2 = Some (w3, (rd_data rd, None)).
Proof.
  intros Hlay Hchunk Hsave.
  destruct (MemFSFacts.Save_ok _ _ _ _ _ _ _ Hsave) as (Hv & _ & Hsaved & _).
  rewrite Hlay in Hsaved.
  destruct (Load_ReadAll r h 0 0 chunk w1 (rd_data rd) Hv ltac:(lia) Hchunk Hsaved)
    as (w2 & rc & w3 & Hload & Hread).
  exists w2, rc, w3. split; [exact Hload|].
  rewrite Hread. cbn. now rewrite drop_0.
Qed.

Lemma Save_Load_roundtrip_witness :
  exists w2 rc w3,
    Load Fixture.repo Fixture.blob 0 0 Fixture.stored = (w2, inr rc) /\
    ReadAll 11 512 rc w2 = Some (w3, (Fixture.bytes_of "0123456789", None)).
Proof.
  apply (Save_Load_roundtrip Fixture.dir_mode 4 Fixture.repo Fixture.blob Fixture.ten 512
           Fixture.created Fixture.stored).
  - reflexivity.
  - lia.
  - vm_compute. reflexivity.
Defined.

(** C1: on a backend whose layout names the file of [h] as [filename] does,
    which the default layout does for every valid handle, when a first
    [Save(h, b1)] has succeeded, a second [Save(h, b2)] returns the error of the
    exclusive-create open, wrapped as [OpenFile]; it sends the remote side no
    request but that open, after the Lstat of the shard directory for a Data
    handle, so nothing is written and no mode is changed, and the remote
    entries are what they were; and [Load(h, 0, 0)], read to its end, still
    yields [b1]. *)
Theorem Save_twice_collides (Modes_Dir : FileMode) (fuel : nat) (r : SFTP) (h : Handle)
    (rd1 rd2 : Reader) (chunk : Z) (w w1 : MemFS.World) :
  Filename (layout r) h = filename r h -> 0 < chunk ->
  Save Modes_Dir fuel r h rd1 w = Some (w1, None) ->
  exists w2,
    Save Modes_Dir fuel r h rd2 w1
    = Some (w2, Some (ErrWrap MemFS.failure "OpenFile")) /\
    MemFS.fs w2 = MemFS.fs w1 /\
    MemFS.log w2
    = (MemFS.COpenFile (filename r h) (Z.lor (Z.lor O_CREATE O_EXCL) O_WRONLY)
       :: (if is_DataFile (Type_ h) then [MemFS.CLstat (GoPath.Dir (filename r h))] else [])
       ++ MemFS.log w1)%list /\
    exists w3 rc w4,
      Load r h 0 0 w2 = (w3, inr rc) /\
      ReadAll (S (length (rd_data rd1))) chunk rc w3 = Some (w4, (rd_data rd1, None)).
Proof.
  intros Hlay Hchunk Hsave.
  destruct (MemFSFacts.Save_ok _ _ _ _ _ _ _ Hsave) as (Hv & Hchan & Hsaved & Hdir).
  destruct Hsaved as (n & Hn & Hdata & Hfile).
  exists (MemFS.collided h (Filename (layout r) h) w1).
  split; [now apply (MemFSFacts.Save_again Modes_Dir fuel r h rd2 w1 n)|].
  rewrite Hlay in *.
  split; [unfold MemFS.collided; now destruct (is_DataFile (Type_ h))|].
  split; [unfold MemFS.collided; now destruct (is_DataFile (Type_ h))|].
  destruct (Load_ReadAll r h 0 0 chunk (MemFS.collided h (filename r h) w1)
              (rd_data rd1) Hv ltac:(lia) Hchunk) as (w3 & rc & w4 & Hload & Hread).
  - exists n. split; [|split; assumption].
    unfold MemFS.collided. now destruct (is_DataFile (Type_ h)).
  - exists w3, rc, w4. split; [exact Hload|].
    rewrite Hread. cbn. now rewrite drop_0.
Qed.

Lemma Save_twice_collides_witness :
  exists w2,
    Save Fixture.dir_mode 4 Fixture.repo Fixture.blob Fixture.other Fixture.stored
    = Some (w2, Some (ErrWrap MemFS.failure "OpenFile")) /\
    MemFS.fs w2 = MemFS.fs Fixture.stored /\
    MemFS.log w2
    = (MemFS.COpenFile "/srv/repo/data/ab/abcdef0123" 193
       :: [MemFS.CLstat "/srv/repo/data/ab"] ++ MemFS.log Fixture.stored)%list /\
    exists w3 rc w4,
      Load Fixture.repo Fixture.blob 0 0 w2 = (w3, inr rc) /\
      ReadAll 11 512 rc w3 = Some (w4, (Fixture.bytes_of "0123456789", None)).
Proof.
  apply (Save_twice_collides Fixture.dir_mode 4 Fixture.repo Fixture.blob Fixture.ten
           Fixture.other 512 Fixture.created Fixture.stored).
  - reflexivity.
  - lia.
  - vm_compute. reflexivity.
Defined.

(** ** Load *)

Section LoadAnyClient.
Context {W : Type} {client : SftpClient W}.

Lemma Load_negative r h length offset (w : W) :
  Valid h = None -> offset < 0 ->
  Load r h length offset w = (w, inl (ErrNew "offset is negative")).
Proof.
  intros Hv Hneg. unfold Load. rewrite Hv.
  destruct (offset <? 0) eqn:E; [reflexivity | lia].
Qed.

Lemma Load_seek r h length offset (w w1 w2 : W) f f' k err :
  Valid h = None -> 0 < offset ->
  c_Open (filename r h) w = (w1, inr f) ->
  f_Seek f offset 0 w1 = (w2, (f', (k, err))) ->
  Load r h length offset w =
  match err with
  | Some e => ((f_Close f' w2).1, inl e)
  | None =>
      (w2, inr (if 0 <? length then LimitReadCloser f' length
                else {| rc_file := f'; rc_limit := None |}))
  end.
Proof.
  intros Hv Hpos Hopen Hseek. unfold Load. rewrite Hv.
  destruct (offset <? 0) eqn:E; [lia|].
  unfold bind at 1. rewrite Hopen. unfold bind at 1.
  destruct (0 <? offset) eqn:E'; [|lia]. rewrite Hseek.
  destruct err as [e|].
  - unfold bind, ret. now destruct (f_Close f' w2).
  - now destruct (0 <? length).
Qed.
End LoadAnyClient.

(** C7: [Load(h, length, offset)] on a valid handle.  With a negative offset
    it fails and the world is untouched: the remote file is not opened.  With
    a positive offset it seeks the opened file to the offset; when the seek
    fails it closes the file and returns the error of the seek.  And on the
    in-memory remote side, after a successful [Save(h, b)] on a backend whose
    layout names the file as [filename] does, for an offset that is not
    negative the stream Load
    returns, read to its end, is [b] from the offset on, cut after [length]
    bytes when [length > 0]; so ten bytes saved and [length = 4],
    [offset = 2] give the bytes [2:6). *)
Theorem Load_bounded_stream :
  (forall (W : Type) (client : SftpClient W) r h length offset (w : W),
      Valid h = None -> offset < 0 ->
      Load r h length offset w = (w, inl (ErrNew "offset is negative")))
  /\ (forall (W : Type) (client : SftpClient W) r h length offset (w w1 w2 : W) f f' k err,
      Valid h = None -> 0 < offset ->
      c_Open (filename r h) w = (w1, inr f) ->
      f_Seek f offset 0 w1 = (w2, (f', (k, err))) ->
      Load r h length offset w =
      match err with
      | Some e => ((f_Close f' w2).1, inl e)
      | None =>
          (w2, inr (if 0 <? length then LimitReadCloser f' length
                    else {| rc_file := f'; rc_limit := None |}))
      end)
  /\ (forall Modes_Dir fuel r h rd length offset chunk (w w1 : MemFS.World),
      Filename (layout r) h = filename r h -> 0 <= offset -> 0 < chunk ->
      Save Modes_Dir fuel r h rd w = Some (w1, None) ->
      exists w2 rc w3,
        Load r h length offset w1 = (w2, inr rc) /\
        ReadAll (S (List.length (rd_data rd))) chunk rc w2
        = Some (w3, (if 0 <? length
                     then take (Z.to_nat length) (drop (Z.to_nat offset) (rd_data rd))
                     else drop (Z.to_nat offset) (rd_data rd), None))).
Proof.
  split; [intros W client r h length offset w Hv Hneg; exact (Load_negative r h length offset w Hv Hneg)|].
  split; [intros W client r h length offset w w1 w2 f f' k err Hv Hpos Ho Hs;
          exact (Load_seek r h length offset w w1 w2 f f' k err Hv Hpos Ho Hs)|].
  intros Modes_Dir fuel r h rd length offset chunk w w1 Hlay Hoff Hchunk Hsave.
  destruct (MemFSFacts.Save_ok _ _ _ _ _ _ _ Hsave) as (Hv & _ & Hsaved & _).
  rewrite Hlay in Hsaved.
  destruct (Load_ReadAll r h length offset chunk w1 (rd_data rd) Hv Hoff Hchunk Hsaved)
    as (w2 & rc & w3 & Hload & Hread).
  exists w2, rc, w3. split; [exact Hload|].
  rewrite Hread. now destruct (0 <? length).
Qed.

Lemma Load_bounded_stream_witness :
  Load Fixture.repo Fixture.blob 4 (-1) Fixture.stored
  = (Fixture.stored, inl (ErrNew "offset is negative"))
  /\ (Load Fixture.repo Fixture.blob 4 2
        (Mock.run [Mock.RFile (inr {| f_path := "x"; f_offset := 0 |});
                   Mock.RCount 0 (Some ErrEOF); Mock.RErr None])).2
     = inl ErrEOF
  /\ exists w2 rc w3,
      Load Fixture.repo Fixture.blob 4 2 Fixture.stored = (w2, inr rc) /\
      ReadAll 11 3 rc w2 = Some (w3, (Fixture.bytes_of "2345", None)).
Proof.
  destruct Load_bounded_stream as (Hneg & Hseek & Hread).
  split; [apply Hneg; [reflexivity | lia]|].
  split.
  - erewrite (Hseek _ _ Fixture.repo Fixture.blob 4 2); [| reflexivity | lia | | ];
      [| vm_compute; reflexivity | vm_compute; reflexivity ].
    reflexivity.
  - apply (Hread Fixture.dir_mode 4%nat Fixture.repo Fixture.blob Fixture.ten 4 2 3
             Fixture.created Fixture.stored); [reflexivity | lia | lia |].
    vm_compute. reflexivity.
Defined.

(** ** Validation and the health check *)

Section AnyClient.
Context {W : Type} {client : SftpClient W} {proc : Subprocess W}.

(** Test once the health check has passed: the Lstat and its outcome. *)
Lemma Test_after_health r h (w w0 w1 : W) st :
  clientError r w = (w0, None) ->
  c_Lstat (filename r h) w0 = (w1, st) ->
  Test r h w =
  (w1, match st with
       | inr _ => (true, None)
       | inl e => if os_IsNotExist (Some (cause_of e)) then (false, None)
                  else (false, Some (ErrWrap e "Lstat"))
       end).
Proof.
  intros Hc Hs. unfold Test. unfold bind at 1. rewrite Hc.
  unfold bind. rewrite Hs. destruct st as [e|fi]; [|reflexivity].
  cbn [err_of Cause fmap option_fmap option_map].
  now destruct (os_IsNotExist (Some (cause_of e))).
Qed.

Lemma Remove_after_health r h (w w0 : W) :
  clientError r w = (w0, None) -> Remove r h w = c_Remove (filename r h) w0.
Proof. intros Hc. unfold Remove, bind. now rewrite Hc. Qed.

Lemma Save_invalid Modes_Dir fuel r h rd (w w0 : W) e :
  Valid h = Some e -> clientError r w = (w0, None) ->
  Save Modes_Dir fuel r h rd w = Some (w0, Some e).
Proof. intros Hv Hc. unfold Save, bindF, lift. now rewrite Hc, Hv. Qed.

Lemma Stat_invalid r h (w w0 : W) e :
  Valid h = Some e -> clientError r w = (w0, None) -> Stat r h w = (w0, inl e).
Proof. intros Hv Hc. unfold Stat, bind. now rewrite Hc, Hv. Qed.

Lemma Load_invalid r h length offset (w : W) e :
  Valid h = Some e -> Load r h length offset w = (w, inl e).
Proof. intros Hv. unfold Load. now rewrite Hv. Qed.
End AnyClient.

(** C3, amended: on an invalid handle Load fails with the validation error
    and the world untouched, and Save and Stat, once the health check has
    passed, fail with the validation error in the world the health check
    left: none of the three sends the remote side a request.  Test and Remove
    do not validate the handle: after the health check Remove is the remote
    Remove on the computed path, and Test is the remote Lstat on it. *)
Theorem invalid_handle_rejected_by_Save_Load_Stat :
  forall (W : Type) (client : SftpClient W) (proc : Subprocess W)
         Modes_Dir fuel r h rd length offset (w w0 : W) e,
    Valid h = Some e ->
    Load r h length offset w = (w, inl e)
    /\ (clientError r w = (w0, None) ->
        Save Modes_Dir fuel r h rd w = Some (w0, Some e)
        /\ Stat r h w = (w0, inl e)
        /\ Remove r h w = c_Remove (filename r h) w0
        /\ Test r h w =
           (let (w1, st) := c_Lstat (filename r h) w0 in
            (w1, match st with
                 | inr _ => (true, None)
                 | inl e => if os_IsNotExist (Some (cause_of e)) then (false, None)
                            else (false, Some (ErrWrap e "Lstat"))
                 end))).
Proof.
  intros W client proc Modes_Dir fuel r h rd length offset w w0 e Hv.
  split; [now apply Load_invalid|]. intros Hc.
  split; [now apply Save_invalid|].
  split; [now apply Stat_invalid|].
  split; [now apply Remove_after_health|].
  destruct (c_Lstat (filename r h) w0) as [w1 st] eqn:Hs.
  now apply Test_after_health with (w0 := w0).
Qed.

Lemma invalid_handle_rejected_witness :
  Valid Fixture.nameless = Some (ErrNew "invalid Name")
  /\ Load Fixture.repo Fixture.nameless 0 0 Fixture.stored
     = (Fixture.stored, inl (ErrNew "invalid Name"))
  /\ Save Fixture.dir_mode 4 Fixture.repo Fixture.nameless Fixture.ten Fixture.stored
     = Some (Fixture.stored, Some (ErrNew "invalid Name"))
  /\ Stat Fixture.repo Fixture.nameless Fixture.stored
     = (Fixture.stored, inl (ErrNew "invalid Name")).
Proof.
  destruct (invalid_handle_rejected_by_Save_Load_Stat MemFS.World _ _
              Fixture.dir_mode 4%nat Fixture.repo Fixture.nameless Fixture.ten 0 0
              Fixture.stored Fixture.stored (ErrNew "invalid Name") eq_refl)
    as (Hload & Hrest).
  destruct (Hrest eq_refl) as (Hsave & Hstat & _).
  split; [reflexivity|]. split; [exact Hload|]. split; [exact Hsave | exact Hstat].
Defined.

(** C3 as stated fails for Test and Remove: on the nameless Data handle,
    which is invalid, Test sends the Lstat of the data directory and answers
    that the blob exists, and Remove sends the remote Remove of the data
    directory. *)
Lemma Test_Remove_do_not_validate :
  Valid Fixture.nameless = Some (ErrNew "invalid Name")
  /\ (Test Fixture.repo Fixture.nameless Fixture.created).2 = (true, None)
  /\ MemFS.log (Test Fixture.repo Fixture.nameless Fixture.created).1
     = MemFS.CLstat "/srv/repo/data" :: MemFS.log Fixture.created
  /\ (Remove Fixture.repo Fixture.nameless Fixture.created).2 = None
  /\ MemFS.log (Remove Fixture.repo Fixture.nameless Fixture.created).1
     = MemFS.CRemove "/srv/repo/data" :: MemFS.log Fixture.created
  /\ MemFS.fs (Remove Fixture.repo Fixture.nameless Fixture.created).1 !! "/srv/repo/data" = None.
Proof. vm_compute. repeat split; reflexivity. Qed.

(** ** Test and the classification of a failed stat *)

(** C4, amended: once the health check has passed, Test returns [(true, nil)]
    when the remote Lstat succeeds; when it fails with [err], Test returns
    [(false, nil)] exactly when [os.IsNotExist(errors.Cause(err))] holds, and
    [(false, errors.Wrap(err, "Lstat"))] otherwise.  The predicate
    [SFTP.IsNotExist], which compares the text of an [sftp.StatusError], is
    not consulted. *)
Theorem Test_classifies_by_os_IsNotExist :
  forall (W : Type) (client : SftpClient W) (proc : Subprocess W) r h (w w0 w1 : W) st,
    clientError r w = (w0, None) ->
    c_Lstat (filename r h) w0 = (w1, st) ->
    Test r h w =
    (w1, match st with
         | inr _ => (true, None)
         | inl e => if os_IsNotExist (Some (cause_of e)) then (false, None)
                    else (false, Some (ErrWrap e "Lstat"))
         end).
Proof. intros. now apply Test_after_health with (w0 := w0). Qed.

Lemma Test_classifies_witness :
  Test Fixture.repo Fixture.missing Fixture.created
  = (MemFS.logged (MemFS.CLstat "/srv/repo/snapshots/0a1b2c") Fixture.created, (false, None)).
Proof.
  rewrite (Test_classifies_by_os_IsNotExist MemFS.World _ _ Fixture.repo Fixture.missing
             Fixture.created Fixture.created
             (MemFS.logged (MemFS.CLstat "/srv/repo/snapshots/0a1b2c") Fixture.created)
             (inl ErrNotExist)).
  - reflexivity.
  - reflexivity.
  - vm_compute. reflexivity.
Defined.

(** C4 as stated fails in both directions.  On the in-memory remote side the
    Lstat of a Fixture.missing entry fails with [os.ErrNotExist]: [SFTP.IsNotExist]
    does not hold of it, and Test returns [(false, nil)].  And when the Lstat
    fails with the status error of the protocol, [SFTP.IsNotExist] holds of
    it, and Test returns it as an error. *)
Lemma Test_ignores_IsNotExist :
  ((c_Lstat (filename Fixture.repo Fixture.missing) Fixture.created).2 = inl ErrNotExist
   /\ IsNotExist (Some ErrNotExist) = false
   /\ (Test Fixture.repo Fixture.missing Fixture.created).2 = (false, None))
  /\
  (let raw := StatusError SSH_FX_NO_SUCH_FILE "No such file" in
   let w := Mock.run [Mock.RExit None; Mock.RStat (inl raw)] in
   IsNotExist (Some raw) = true
   /\ (Test Fixture.repo Fixture.missing w).2 = (false, Some (ErrWrap raw "Lstat"))).
Proof. vm_compute. repeat split; reflexivity. Qed.

(** ** Open and the skeleton *)

Section OpenSkeleton.
Import MemFS MemFSFacts.

Lemma check_paths_mem ds : forall w,
  exists w', check_paths ds w = (w', does_not_exist <$> first_missing (fs w) ds)
             /\ fs w' = fs w.
Proof.
  induction ds as [|d ds IH]; intros w; [now exists w|].
  cbn [check_paths]. unfold bind. cbn [c_Lstat client]. rewrite Lstat_eq.
  unfold first_missing. cbn [List.find].
  destruct (fs w !! d) as [n|] eqn:E.
  - destruct (IH (logged (CLstat d) w)) as (w' & Hc & Hfs).
    exists w'. split; [exact Hc | exact Hfs].
  - eexists. split; reflexivity.
Qed.
End OpenSkeleton.

(** C5, amended: once the subprocess has started and the layout is parsed,
    Open succeeds exactly when the remote side has an entry at each of the
    seven paths of [paths]: the root, and [data], [snapshots], [index],
    [locks], [keys] and [temp] below it; otherwise it fails with
    ["<path> does not exist"] for the first of them that is missing.  The
    config file is not among the paths Open checks. *)
Theorem Open_checks_seven_paths :
  forall SplitShellArgs (ParseLayout : string -> string -> string -> St MemFS.World (result Layout))
         cfg cmd args (w w1 w2 : MemFS.World) lay,
    buildSSHCommand SplitShellArgs cfg = (cmd, args, None) ->
    startClient cmd args w = (w1, None) ->
    ParseLayout (LayoutName cfg) defaultLayout (Path cfg) w1 = (w2, inr lay) ->
    (Open SplitShellArgs ParseLayout cfg w).2 =
    match MemFS.first_missing (MemFS.fs w2)
            [ Path cfg; Join [Path cfg; "data"]; Join [Path cfg; "snapshots"];
              Join [Path cfg; "index"]; Join [Path cfg; "locks"];
              Join [Path cfg; "keys"]; Join [Path cfg; "temp"] ] with
    | Some d => inl (ErrNew (d +:+ " does not exist"))
    | None => inr {| p := Path cfg; layout := lay; config := cfg |}
    end.
Proof.
  intros SplitShellArgs ParseLayout cfg cmd args w w1 w2 lay Hb Hs Hp.
  unfold Open. rewrite Hb. unfold bind at 1. rewrite Hs.
  unfold bind at 1. rewrite Hp. unfold bind.
  destruct (check_paths_mem (paths (Path cfg)) w2) as (w3 & Hc & _).
  rewrite Hc. unfold paths, Paths.Data, Paths.Snapshots, Paths.Index, Paths.Locks,
    Paths.Keys, Paths.Temp.
  now destruct (MemFS.first_missing _ _).
Qed.

Lemma Open_checks_seven_paths_witness :
  (Open Fixture.split_args Fixture.parse_layout Fixture.cfg MemFS.empty).2
  = inl (ErrNew "/srv/repo does not exist").
Proof.
  rewrite (Open_checks_seven_paths Fixture.split_args Fixture.parse_layout Fixture.cfg
             "ssh" ["backup.example"; "-s"; "sftp"] MemFS.empty MemFS.empty MemFS.empty
             (DefaultLayout "/srv/repo")); reflexivity.
Defined.

(** C5 as stated fails: on the remote side Create leaves behind there is no
    config file, and Open succeeds. *)
Lemma Open_succeeds_without_config :
  MemFS.fs Fixture.created !! "/srv/repo/config" = None
  /\ (Open Fixture.split_args Fixture.parse_layout Fixture.cfg Fixture.created).2
     = inr Fixture.repo.
Proof. vm_compute. split; reflexivity. Qed.

(** ** Recursive directory creation *)

(** C8, amended: with fuel for one more level, mkdirAll first stats the path.
    When the entry exists it returns at once: nil for a directory, the
    not-a-directory error otherwise.  When the stat fails, and the call on
    the parent returns, it sends the Mkdir and stats the path again, whatever
    the two returned: when that stat reports a directory the result is the
    result of the Chmod that sets the mode, nil when the Chmod succeeds;
    when it reports another entry the result is the not-a-directory error;
    when it fails the result is an error that carries the errors of the
    parent and of the Mkdir.  And on the in-memory remote side, with its root
    and home directories in place, mkdirAll returns for every path once the
    fuel reaches the depth of the path. *)
Theorem mkdirAll_restats_after_create :
  (forall (W : Type) (client : SftpClient W) Modes_Dir fuel dir mode (w w1 : W) st,
      c_Lstat dir w = (w1, st) ->
      match st with
      | inr fi =>
          mkdirAll Modes_Dir (S fuel) dir mode w
          = Some (w1, if IsDir fi then None else Some (mkdirAll_notdir dir))
      | inl _ =>
          forall w2 errMkdirAll w3 errMkdir w4 st',
            mkdirAll Modes_Dir fuel (GoPath.Dir dir) Modes_Dir w1 = Some (w2, errMkdirAll) ->
            c_Mkdir dir w2 = (w3, errMkdir) ->
            c_Lstat dir w3 = (w4, st') ->
            mkdirAll Modes_Dir (S fuel) dir mode w =
            match st' with
            | inr fi =>
                if IsDir fi then Some (c_Chmod dir mode w4)
                else Some (w4, Some (mkdirAll_notdir dir))
            | inl _ => Some (w4, Some (ErrUnable dir errMkdirAll errMkdir))
            end
      end)
  /\ (forall Modes_Dir fuel dir mode (w : MemFS.World),
      MemFS.anchored w -> (MemFS.depth dir <= fuel)%nat ->
      exists w' e, mkdirAll Modes_Dir fuel dir mode w = Some (w', e)).
Proof.
  split; [|intros; now apply MkdirFacts.mkdirAll_returns].
  intros W client Modes_Dir fuel dir mode w w1 st Hst.
  destruct st as [e|fi].
  - intros w2 errMkdirAll w3 errMkdir w4 st' Hparent Hmk Hst'.
    cbn [mkdirAll]. unfold bindF at 1. unfold lift at 1. rewrite Hst.
    unfold bindF at 1. rewrite Hparent.
    unfold bindF at 1. unfold lift at 1. rewrite Hmk.
    unfold bindF at 1. unfold lift at 1. rewrite Hst'.
    destruct st' as [e'|fi]; [reflexivity|].
    destruct (IsDir fi); reflexivity.
  - cbn [mkdirAll]. unfold bindF at 1. unfold lift at 1. rewrite Hst.
    destruct (IsDir fi); reflexivity.
Qed.

Lemma mkdirAll_restats_after_create_witness :
  (exists w, mkdirAll Fixture.dir_mode 2 "/srv/repo/data/ab" Fixture.dir_mode
               (Fixture.raced None) = Some (w, None))
  /\ (exists w e, mkdirAll Fixture.dir_mode 5 "/srv/repo/data/ab" Fixture.dir_mode
                   MemFS.empty = Some (w, e)).
Proof.
  destruct mkdirAll_restats_after_create as [Hstep Hreturns].
  split.
  - eexists.
    pose proof (Hstep Mock.World _ Fixture.dir_mode 1%nat
                  "/srv/repo/data/ab" Fixture.dir_mode (Fixture.raced None) _ _ eq_refl) as H.
    cbv beta iota in H.
    rewrite (H _ _ _ _ _ _ eq_refl eq_refl eq_refl). reflexivity.
  - apply Hreturns; [split; reflexivity | vm_compute; lia].
Defined.

(** C8 as stated fails: the second stat reports a directory, and mkdirAll
    fails all the same, with the error of the Chmod. *)
Lemma mkdirAll_fails_on_chmod :
  exists w, mkdirAll Fixture.dir_mode 2 "/srv/repo/data/ab" Fixture.dir_mode
              (Fixture.raced (Some MemFS.denied))
            = Some (w, Some MemFS.denied)
            /\ Mock.calls w
               = [ MemFS.CChmod "/srv/repo/data/ab" Fixture.dir_mode;
                   MemFS.CLstat "/srv/repo/data/ab";
                   MemFS.CMkdir "/srv/repo/data/ab";
                   MemFS.CLstat "/srv/repo/data";
                   MemFS.CLstat "/srv/repo/data/ab" ].
Proof. eexists. vm_compute. split; reflexivity. Qed.

(** ** List *)

(** C9: when the enumeration of the collection directory fails, List yields
    no item, for every collection type; and for Data, where List runs over
    the shard directories the first enumeration returned, a shard whose
    enumeration fails adds no item and the loop goes on with the shards after
    it. *)
Theorem List_absorbs_ReadDir_failures :
  (forall (W : Type) (client : SftpClient W) r t budget (w w1 : W) e,
      c_ReadDir (dirname r {| Type_ := t; Name := "" |}) w = (w1, inl e) ->
      List_ r t budget w = (w1, []))
  /\ (forall (W : Type) (client : SftpClient W) r budget (w w1 : W) l1,
      c_ReadDir (dirname r {| Type_ := DataFile; Name := "" |}) w = (w1, inr l1) ->
      List_ r DataFile budget w
      = list_shards (dirname r {| Type_ := DataFile; Name := "" |}) (map fi_Name l1) budget w1)
  /\ (forall (W : Type) (client : SftpClient W) basedir d ds budget (w w1 : W) e,
      c_ReadDir (Join [basedir; d]) w = (w1, inl e) ->
      list_shards basedir (d :: ds) budget w = list_shards basedir ds budget w1).
Proof.
  split; [|split].
  - intros W client r t budget w w1 e H. unfold List_.
    destruct (is_DataFile t); unfold bind; now rewrite H.
  - intros W client r budget w w1 l1 H. unfold List_. cbn [is_DataFile].
    unfold bind. now rewrite H.
  - intros W client basedir d ds budget w w1 e H. cbn [list_shards].
    unfold bind. now rewrite H.
Qed.

Lemma List_absorbs_ReadDir_failures_witness :
  List_ Fixture.repo KeyFile None (Mock.run [Mock.RDir (inl ErrNotExist)])
  = ({| Mock.script := []; Mock.calls := [MemFS.CReadDir "/srv/repo/keys"] |}, [])
  /\ (List_ Fixture.repo DataFile None
        (Mock.run [ Mock.RDir (inr [Fixture.dir_info "ab"; Fixture.dir_info "cd"]);
                    Mock.RDir (inl MemFS.denied);
                    Mock.RDir (inr [Fixture.dir_info "cdef01"; Fixture.dir_info "cdef02"]) ])).2
     = ["cdef01"; "cdef02"].
Proof.
  destruct List_absorbs_ReadDir_failures as (Htop & Hdata & Hshard).
  split.
  - apply (Htop Mock.World _ Fixture.repo KeyFile None _ _ ErrNotExist). reflexivity.
  - erewrite (Hdata Mock.World _ Fixture.repo None); [|reflexivity].
    cbn [map fi_Name Fixture.dir_info].
    erewrite (Hshard Mock.World _ _ "ab" ["cd"] None); [|reflexivity].
    reflexivity.
Defined.

(** ** Close *)

(** C10: on a backend that is not nil, what Close returns is decided by the
    exit signal and the kill alone: the error the exit signal carries when it
    arrives within the timeout; otherwise the error of the kill when the kill
    fails; otherwise nil.  The error of closing the session is not part of
    it. *)
Theorem Close_drops_session_error :
  forall (W : Type) (client : SftpClient W) (proc : Subprocess W) r (w w1 w2 : W) errClose o,
    c_Close w = (w1, errClose) ->
    result_wait closeTimeout w1 = (w2, o) ->
    Close (Some r) w =
    match o with
    | Some err => (w2, err)
    | None =>
        let (w3, errKill) := proc_Kill w2 in
        match errKill with
        | Some e => (w3, Some e)
        | None => ((result_recv w3).1, None)
        end
    end.
Proof.
  intros W client proc r w w1 w2 errClose o Hc Hw. unfold Close.
  unfold bind at 1. rewrite Hc. unfold bind at 1. rewrite Hw.
  destruct o as [err|]; [reflexivity|].
  unfold bind at 1. destruct (proc_Kill w2) as [w3 [e|]]; [reflexivity|].
  unfold bind, ret. now destruct (result_recv w3).
Qed.

Lemma Close_drops_session_error_witness :
  (Close (Some Fixture.repo)
     (Mock.run [Mock.RErr (Some MemFS.failure); Mock.RExit (Some None)])).2 = None
  /\ (Close (Some Fixture.repo)
        (Mock.run [Mock.RErr (Some MemFS.failure); Mock.RExit None;
                   Mock.RErr (Some MemFS.denied)])).2 = Some MemFS.denied
  /\ (Close (Some Fixture.repo)
        (Mock.run [Mock.RErr (Some MemFS.failure); Mock.RExit None;
                   Mock.RErr None; Mock.RErr (Some ErrEOF)])).2 = None.
Proof.
  split; [|split].
  - erewrite (Close_drops_session_error Mock.World _ _ Fixture.repo); cycle 1;
      [reflexivity | reflexivity | reflexivity].
  - erewrite (Close_drops_session_error Mock.World _ _ Fixture.repo); cycle 1;
      [reflexivity | reflexivity | reflexivity].
  - erewrite (Close_drops_session_error Mock.World _ _ Fixture.repo); cycle 1;
      [reflexivity | reflexivity | reflexivity].
Defined.

(** * Further properties *)

Module SaveFacts.
Import MemFS MemFSFacts MemFSDefs.

Section WithModes.
Variable Modes_Dir : FileMode.

(** Save on the in-memory remote side, once the health check and the
    validation have passed and the directory step has returned. *)
Lemma Save_mem fuel r h rd w w0 e0 :
  result_chan w = None -> Valid h = None ->
  dir_step Modes_Dir fuel h (Filename (layout r) h) w = Some (w0, e0) ->
  exists w',
    Save Modes_Dir fuel r h rd w
    = Some (w', match e0 with
                | Some e => Some e
                | None => (Save_outcome (Filename (layout r) h) rd (fs w0)).2
                end)
    /\ fs w' = match e0 with
               | Some _ => fs w0
               | None => (Save_outcome (Filename (layout r) h) rd (fs w0)).1
               end
    /\ same_proc w0 w'.
Proof.
  intros Hchan Hvalid Hdir. unfold Save.
  unfold bindF at 1. unfold lift at 1. rewrite clientError_eq, Hchan, Hvalid.
  set (path := Filename (layout r) h) in *.
  unfold bindF at 1. unfold dir_step in Hdir. rewrite Hdir.
  destruct e0 as [e|]; [exists w0; repeat split|].
  unfold bindF at 1. unfold lift at 1. cbn [c_OpenFile client].
  rewrite OpenFile_create_excl. cbv zeta. unfold Save_outcome.
  destruct (fs w0 !! path) as [n0|] eqn:Hfree; [eexists; repeat split|].
  destruct (is_dir_at (fs w0) (GoPath.Dir path)) eqn:Hparent; [|eexists; repeat split].
  unfold bindF at 1. unfold lift at 1.
  set (w2 := with_fs (logged _ w0) _).
  set (f := {| f_path := path; f_offset := 0 |}).
  assert (H2 : fs w2 !! path = Some file_node) by (subst w2; cbn; apply lookup_insert_eq).
  assert (Hcopy : exists w3 f3 k,
            io_Copy f rd w2 = (w3, (f3, (k, rd_err rd)))
            /\ f_path f3 = path /\ same_proc w2 w3
            /\ fs w3 = <[path := {| n_mode := 420; n_data := rd_data rd |}]> (fs w2)).
  { unfold io_Copy.
    destruct (rd_data rd) as [|b bs] eqn:Hdata.
    - unfold ret. exists w2, f, 0. repeat split.
      symmetry. now apply insert_id.
    - unfold bind, ret. cbn [f_Write client]. unfold Write. cbn [f_path f_offset f fs logged].
      rewrite H2. rewrite write_at_fresh. cbn [n_mode].
      rewrite Z.eqb_refl. eexists _, _, _. repeat split. }
  destruct Hcopy as (w3 & f3 & k & -> & Hf3 & Hproc3 & Hfs3).
  assert (Hfs3' : fs w3 = <[path := {| n_mode := 420; n_data := rd_data rd |}]> (fs w0)).
  { rewrite Hfs3. subst w2. cbn [fs with_fs]. apply insert_insert_eq. }
  assert (Hp03 : same_proc w0 w3).
  { eapply same_proc_trans; [|exact Hproc3]. subst w2. repeat split. }
  unfold stored_node.
  destruct (rd_err rd) as [e|].
  - unfold bindF, lift, retF. cbn [f_Close client]. unfold CloseFile.
    eexists. split; [reflexivity|]. split; [exact Hfs3'|].
    eapply same_proc_trans; [exact Hp03 | repeat split].
  - unfold bindF at 1. unfold lift at 1. cbn [f_Close client]. unfold CloseFile.
    unfold bindF at 1. unfold lift at 1. cbn [c_Lstat client]. rewrite Lstat_eq.
    cbn [fs logged]. rewrite Hfs3', lookup_insert_eq.
    unfold bindF, lift, retF. cbn [c_Chmod client]. unfold Chmod. cbn [fs logged].
    rewrite Hfs3', lookup_insert_eq. cbn [Wrap].
    eexists. split; [reflexivity|]. cbn [fs with_fs fst snd]. split.
    + rewrite insert_insert_eq. reflexivity.
    + eapply same_proc_trans; [exact Hp03 | repeat split].
Qed.
End WithModes.
End SaveFacts.

Module SaveFacts2.
Import MemFS MemFSFacts MemFSDefs SaveFacts.

Section WithModes.
Variable Modes_Dir : FileMode.

(** mkdirAll leaves every entry that is there as it is. *)
Lemma mkdirAll_preserves fuel : forall dir mode w w' e x n,
  mkdirAll Modes_Dir fuel dir mode w = Some (w', e) ->
  fs w !! x = Some n -> fs w' !! x = Some n.
Proof.
  induction fuel as [|fuel IH]; intros dir mode w w' e x n; [discriminate|].
  cbn [mkdirAll]. unfold bindF, lift, retF. cbn [c_Lstat c_Mkdir c_Chmod client].
  rewrite Lstat_eq.
  destruct (fs w !! dir) as [nd|] eqn:E.
  - destruct (IsDir _); intros [= <- <-] Hx; exact Hx.
  - destruct (mkdirAll Modes_Dir fuel (GoPath.Dir dir) Modes_Dir _) as [[w1 e1]|] eqn:E1;
      [|discriminate].
    intros H Hx.
    assert (Hne : dir <> x) by (intros ->; congruence).
    assert (H1 : fs w1 !! x = Some n) by (eapply IH; [exact E1 | exact Hx]).
    assert (H2 : fs (Mkdir dir w1).1 !! x = Some n).
    { unfold Mkdir. cbn [fs logged]. destruct (fs w1 !! dir); [exact H1|].
      destruct (is_dir_at _ _); [|exact H1].
      cbn [fst fs with_fs]. now rewrite lookup_insert_ne. }
    destruct (Mkdir dir w1) as [w2 e2]. cbn [fst] in H2.
    rewrite Lstat_eq in H.
    destruct (fs w2 !! dir) as [nd|] eqn:E2.
    + destruct (negb _).
      * injection H as <- <-. exact H2.
      * injection H as H. unfold Chmod in H. cbn [fs logged] in H. rewrite E2 in H.
        injection H as <- <-. cbn [fs with_fs]. now rewrite lookup_insert_ne.
    + injection H as <- <-. exact H2.
Qed.

Lemma dir_step_preserves fuel h path w w0 e0 x n :
  dir_step Modes_Dir fuel h path w = Some (w0, e0) ->
  fs w !! x = Some n -> fs w0 !! x = Some n.
Proof.
  unfold dir_step. destruct (is_DataFile (Type_ h)).
  - apply mkdirAll_preserves.
  - unfold retF. now intros [= <- <-].
Qed.

Lemma dir_step_same_proc fuel h path w w0 e0 :
  dir_step Modes_Dir fuel h path w = Some (w0, e0) -> same_proc w w0.
Proof.
  unfold dir_step. destruct (is_DataFile (Type_ h)).
  - apply mkdirAll_same_proc.
  - unfold retF. intros [= <- <-]. apply same_proc_refl.
Qed.

(** The directory step when the directory is there: one Lstat for a Data
    handle, nothing otherwise. *)
Lemma dir_step_ready fuel h path w :
  (is_DataFile (Type_ h) = true ->
   is_dir_at (fs w) (GoPath.Dir path) = true /\ fuel <> O) ->
  exists w0, dir_step Modes_Dir fuel h path w = Some (w0, None)
             /\ fs w0 = fs w /\ same_proc w w0.
Proof.
  intros Hdir. unfold dir_step. destruct (is_DataFile (Type_ h)).
  - destruct (Hdir eq_refl) as [Hd Hfuel].
    destruct fuel as [|fuel]; [congruence|].
    cbn [mkdirAll]. unfold bindF, lift, retF. cbn [c_Lstat client]. rewrite Lstat_eq.
    unfold is_dir_at in Hd. destruct (fs w !! GoPath.Dir path) as [nd|]; [|discriminate].
    rewrite IsDir_info, Hd. eexists. repeat split.
  - exists w. repeat split.
Qed.

Lemma Save_outcome_preserves path rd m x n :
  m !! x = Some n -> (Save_outcome path rd m).1 !! x = Some n.
Proof.
  intros Hx. unfold Save_outcome. destruct (m !! path) as [np|] eqn:E; [exact Hx|].
  destruct (is_dir_at m (GoPath.Dir path)); [|exact Hx].
  cbn [fst]. rewrite lookup_insert_ne; [exact Hx|]. intros ->. congruence.
Qed.

(** A clean exit of the subprocess, once polled, is forgotten: Save goes on
    as if nothing had been signalled. *)
Lemma Save_after_clean_exit fuel r h rd w :
  result_chan w = Some None ->
  Save Modes_Dir fuel r h rd w
  = Save Modes_Dir fuel r h rd (with_proc w None (running w)).
Proof.
  intros Hchan. unfold Save. unfold bindF at 1 3. unfold lift at 1 9.
  rewrite !clientError_eq, Hchan. reflexivity.
Qed.

Lemma Save_preserves_checked fuel r h rd w w' res x n :
  result_chan w = None ->
  Save Modes_Dir fuel r h rd w = Some (w', res) ->
  fs w !! x = Some n -> fs w' !! x = Some n.
Proof.
  intros Hchan Hsave Hx.
  destruct (Valid h) as [e|] eqn:Hv.
  - unfold Save, bindF, lift in Hsave. rewrite clientError_eq, Hchan, Hv in Hsave.
    unfold retF in Hsave. now injection Hsave as <- <-.
  - destruct (dir_step Modes_Dir fuel h (Filename (layout r) h) w) as [[w0 e0]|] eqn:Hd.
    + destruct (Save_mem Modes_Dir fuel r h rd w w0 e0 Hchan Hv Hd) as (w2 & Hs & Hfs & _).
      rewrite Hs in Hsave. injection Hsave as <- <-. rewrite Hfs.
      pose proof (dir_step_preserves _ _ _ _ _ _ _ _ Hd Hx) as H0.
      destruct e0; [exact H0 | now apply Save_outcome_preserves].
    + unfold Save, bindF, lift in Hsave. rewrite clientError_eq, Hchan, Hv in Hsave.
      unfold dir_step in Hd. rewrite Hd in Hsave. discriminate.
Qed.

(** Save, whatever it returns, leaves every entry that is there as it is. *)
Lemma Save_preserves fuel r h rd w w' res x n :
  Save Modes_Dir fuel r h rd w = Some (w', res) ->
  fs w !! x = Some n -> fs w' !! x = Some n.
Proof.
  intros Hsave Hx.
  destruct (result_chan w) as [[e|]|] eqn:Hchan.
  - unfold Save, bindF, lift in Hsave. rewrite clientError_eq, Hchan in Hsave.
    unfold retF in Hsave. now injection Hsave as <- <-.
  - rewrite Save_after_clean_exit in Hsave by exact Hchan.
    eapply Save_preserves_checked; [| exact Hsave | exact Hx]. reflexivity.
  - eapply Save_preserves_checked; eassumption.
Qed.
End WithModes.
End SaveFacts2.

Module SaveFacts3.
Import MemFS MemFSFacts MemFSDefs SaveFacts SaveFacts2.

Section WithModes.
Variable Modes_Dir : FileMode.

(** What a Save that returned nil found and left. *)
Lemma Save_success_inv fuel r h rd w w1 :
  Save Modes_Dir fuel r h rd w = Some (w1, None) ->
  let path := Filename (layout r) h in
  exists w0,
    Valid h = None /\ rd_err rd = None /\ result_chan w1 = None
    /\ (forall x n, fs w !! x = Some n -> fs w0 !! x = Some n)
    /\ fs w0 !! path = None
    /\ is_dir_at (fs w0) (GoPath.Dir path) = true
    /\ fs w1 = <[path := {| n_mode := 292; n_data := rd_data rd |}]> (fs w0).
Proof.
  intros Hsave path.
  destruct (Save_ok Modes_Dir _ _ _ _ _ _ Hsave) as (Hv & Hchan1 & _ & _).
  assert (Hgen : forall v, result_chan v = None -> fs v = fs w ->
            Save Modes_Dir fuel r h rd v = Some (w1, None) ->
            exists w0,
              (forall x n, fs w !! x = Some n -> fs w0 !! x = Some n)
              /\ rd_err rd = None /\ fs w0 !! path = None
              /\ is_dir_at (fs w0) (GoPath.Dir path) = true
              /\ fs w1 = <[path := {| n_mode := 292; n_data := rd_data rd |}]> (fs w0)).
  { intros v Hchan Hfs Hs.
    destruct (dir_step Modes_Dir fuel h path v) as [[w0 e0]|] eqn:Hd.
    - destruct (Save_mem Modes_Dir fuel r h rd v w0 e0 Hchan Hv Hd) as (w2 & Hs2 & Hfs2 & _).
      fold path in Hs2, Hfs2. rewrite Hs2 in Hs. injection Hs as -> He.
      destruct e0 as [e|]; [discriminate|].
      exists w0. split.
      { intros x n Hx. rewrite <- Hfs in Hx. eapply dir_step_preserves; eassumption. }
      unfold Save_outcome in He, Hfs2.
      destruct (fs w0 !! path); [discriminate|].
      destruct (is_dir_at (fs w0) (GoPath.Dir path)); [|discriminate].
      unfold stored_node in Hfs2. cbn [fst snd] in He, Hfs2.
      destruct (rd_err rd); [discriminate|]. repeat split. exact Hfs2.
    - unfold Save, bindF, lift in Hs. rewrite clientError_eq, Hchan, Hv in Hs.
      unfold dir_step in Hd. fold path in Hs. rewrite Hd in Hs. discriminate. }
  destruct (result_chan w) as [[e|]|] eqn:Hchan.
  - unfold Save, bindF, lift in Hsave. rewrite clientError_eq, Hchan in Hsave. discriminate.
  - rewrite Save_after_clean_exit in Hsave by exact Hchan.
    destruct (Hgen (with_proc w None (running w)) eq_refl eq_refl Hsave)
      as (w0 & ? & ? & ? & ? & ?).
    exists w0. repeat split; assumption.
  - destruct (Hgen w Hchan eq_refl Hsave) as (w0 & ? & ? & ? & ? & ?).
    exists w0. repeat split; assumption.
Qed.
End WithModes.
End SaveFacts3.

Section SaveOnMemFS.
Import MemFS MemFSFacts MemFSDefs SaveFacts SaveFacts2 SaveFacts3.
Variable Modes_Dir : FileMode.

(** Save onto a free path below a directory. *)
Lemma Save_fresh fuel r h rd w :
  result_chan w = None -> Valid h = None -> fuel <> O ->
  fs w !! Filename (layout r) h = None ->
  is_dir_at (fs w) (GoPath.Dir (Filename (layout r) h)) = true ->
  exists w',
    Save Modes_Dir fuel r h rd w
    = Some (w', match rd_err rd with Some e => Some (ErrWrap e "Write") | None => None end)
    /\ fs w' = <[Filename (layout r) h := stored_node rd]> (fs w)
    /\ result_chan w' = None.
Proof.
  intros Hchan Hv Hfuel Hfree Hparent.
  destruct (dir_step_ready Modes_Dir fuel h (Filename (layout r) h) w) as (w0 & Hd & Hfs0 & Hp0).
  { intros _. split; assumption. }
  destruct (Save_mem Modes_Dir fuel r h rd w w0 None Hchan Hv Hd) as (w' & Hs & Hfs & Hp).
  exists w'. unfold Save_outcome in Hs, Hfs. rewrite Hfs0, Hfree, Hparent in Hs, Hfs.
  split; [exact Hs|]. split; [exact Hfs|].
  destruct Hp as [-> _]. destruct Hp0 as [-> _]. exact Hchan.
Qed.

Lemma Stat_eq r h w n :
  result_chan w = None -> Valid h = None -> fs w !! filename r h = Some n ->
  Stat r h w = (logged (CLstat (filename r h)) w, inr (zlen (n_data n))).
Proof.
  intros Hchan Hv Hn. unfold Stat. unfold bind at 1. rewrite clientError_eq, Hchan, Hv.
  unfold bind, ret. cbn [c_Lstat client]. rewrite Lstat_eq, Hn. reflexivity.
Qed.

Lemma Test_eq r h w :
  result_chan w = None ->
  Test r h w = (logged (CLstat (filename r h)) w,
                (bool_decide (is_Some (fs w !! filename r h)), None)).
Proof.
  intros Hchan. unfold Test. unfold bind at 1. rewrite clientError_eq, Hchan.
  unfold bind, ret. cbn [c_Lstat client]. rewrite Lstat_eq.
  destruct (fs w !! filename r h) as [n|]; reflexivity.
Qed.
End SaveOnMemFS.

(** ** Save on a free path *)

(** X1: on the in-memory remote side, with the subprocess alive, a valid
    handle, a path that is free and a parent directory that is there, Save of
    a reader that ends without error returns nil and leaves at the path
    exactly the bytes of the reader with mode 0444 (292), no write bit;
    every other entry is as it was. *)
Theorem Save_stores_bytes_read_only (Modes_Dir : FileMode) (fuel : nat) (r : SFTP)
    (h : Handle) (rd : Reader) (w : MemFS.World) :
  MemFS.result_chan w = None -> Valid h = None -> fuel <> O -> rd_err rd = None ->
  MemFS.fs w !! Filename (layout r) h = None ->
  MemFS.is_dir_at (MemFS.fs w) (GoPath.Dir (Filename (layout r) h)) = true ->
  exists w',
    Save Modes_Dir fuel r h rd w = Some (w', None)
    /\ MemFS.fs w'
       = <[Filename (layout r) h := {| MemFS.n_mode := 292; MemFS.n_data := rd_data rd |}]>
           (MemFS.fs w).
Proof.
  intros Hchan Hv Hfuel Herr Hfree Hparent.
  destruct (Save_fresh Modes_Dir fuel r h rd w Hchan Hv Hfuel Hfree Hparent)
    as (w' & Hs & Hfs & _).
  unfold MemFSDefs.stored_node in Hfs. rewrite Herr in Hs, Hfs.
  exists w'. split; assumption.
Qed.

Lemma Save_stores_bytes_read_only_witness :
  exists w',
    Save Fixture.dir_mode 1 Fixture.repo Scenario.fresh Fixture.other Fixture.stored
    = Some (w', None)
    /\ MemFS.fs w'
       = <["/srv/repo/data/ab/abffff0000" :=
             {| MemFS.n_mode := 292; MemFS.n_data := Fixture.bytes_of "overwrite" |}]>
           (MemFS.fs Fixture.stored).
Proof.
  apply (Save_stores_bytes_read_only Fixture.dir_mode 1 Fixture.repo Scenario.fresh
           Fixture.other Fixture.stored); try reflexivity.
  discriminate.
Defined.

(** X2: in the same situation, when the reader ends with an error, Save
    returns it wrapped as [Write] and the file stays behind, with the bytes
    read so far and the mode it was created with: nothing is rolled back.
    Every later Save on the handle fails at the exclusive-create open and
    changes nothing. *)
Theorem Save_failed_copy_leaves_file (Modes_Dir : FileMode) (fuel : nat) (r : SFTP)
    (h : Handle) (rd : Reader) (e : error) (w : MemFS.World) :
  MemFS.result_chan w = None -> Valid h = None -> fuel <> O -> rd_err rd = Some e ->
  MemFS.fs w !! Filename (layout r) h = None ->
  MemFS.is_dir_at (MemFS.fs w) (GoPath.Dir (Filename (layout r) h)) = true ->
  exists w',
    Save Modes_Dir fuel r h rd w = Some (w', Some (ErrWrap e "Write"))
    /\ MemFS.fs w'
       = <[Filename (layout r) h := {| MemFS.n_mode := 420; MemFS.n_data := rd_data rd |}]>
           (MemFS.fs w)
    /\ forall rd2, exists w'',
         Save Modes_Dir fuel r h rd2 w' = Some (w'', Some (ErrWrap MemFS.failure "OpenFile"))
         /\ MemFS.fs w'' = MemFS.fs w'.
Proof.
  intros Hchan Hv Hfuel Herr Hfree Hparent.
  destruct (Save_fresh Modes_Dir fuel r h rd w Hchan Hv Hfuel Hfree Hparent)
    as (w' & Hs & Hfs & Hchan').
  unfold MemFSDefs.stored_node in Hfs. rewrite Herr in Hs, Hfs.
  exists w'. split; [exact Hs|]. split; [exact Hfs|].
  intros rd2. eexists. split.
  - eapply (MemFSFacts.Save_again Modes_Dir fuel r h rd2 w'); [exact Hv | exact Hchan' | |].
    + rewrite Hfs. apply lookup_insert_eq.
    + intros _. split; [|exact Hfuel]. unfold MemFS.is_dir_at in *.
      rewrite Hfs, lookup_insert_ne; [exact Hparent|].
      intros Heq. rewrite <- Heq, Hfree in Hparent. discriminate.
  - unfold MemFS.collided. now destruct (is_DataFile (Type_ h)).
Qed.

Lemma Save_failed_copy_leaves_file_witness :
  exists w',
    Save Fixture.dir_mode 1 Fixture.repo Scenario.fresh Scenario.broken Fixture.stored
    = Some (w', Some (ErrWrap (ErrNew "unexpected EOF") "Write"))
    /\ MemFS.fs w'
       = <["/srv/repo/data/ab/abffff0000" :=
             {| MemFS.n_mode := 420; MemFS.n_data := Fixture.bytes_of "par" |}]>
           (MemFS.fs Fixture.stored)
    /\ forall rd2, exists w'',
         Save Fixture.dir_mode 1 Fixture.repo Scenario.fresh rd2 w'
         = Some (w'', Some (ErrWrap MemFS.failure "OpenFile"))
         /\ MemFS.fs w'' = MemFS.fs w'.
Proof.
  apply (Save_failed_copy_leaves_file Fixture.dir_mode 1 Fixture.repo Scenario.fresh
           Scenario.broken (ErrNew "unexpected EOF") Fixture.stored); try reflexivity.
  discriminate.
Defined.

(** X3: on the in-memory remote side Save, whatever it returns, leaves every
    entry that was there before as it was, bytes and mode: it creates
    entries, and changes the one it created, and nothing else. *)
Theorem Save_never_changes_an_entry (Modes_Dir : FileMode) (fuel : nat) (r : SFTP)
    (h : Handle) (rd : Reader) (w w' : MemFS.World) (res : goerr) (x : string)
    (n : MemFS.Node) :
  Save Modes_Dir fuel r h rd w = Some (w', res) ->
  MemFS.fs w !! x = Some n -> MemFS.fs w' !! x = Some n.
Proof. apply SaveFacts2.Save_preserves. Qed.

Lemma Save_never_changes_an_entry_witness :
  MemFS.fs Fixture.stored !! "/srv/repo/data"
  = Some {| MemFS.n_mode := Z.lor ModeDir 448; MemFS.n_data := [] |}.
Proof.
  apply (Save_never_changes_an_entry Fixture.dir_mode 4 Fixture.repo Fixture.blob
           Fixture.ten Fixture.created Fixture.stored None).
  - vm_compute. reflexivity.
  - vm_compute. reflexivity.
Defined.

(** ** Stat, Test, Load and Remove on the in-memory remote side *)

(** X4: after a successful [Save(h, b)], on a backend whose layout names the
    file as [filename] does, Stat returns the length of [b] and Test returns
    [(true, nil)]. *)
Theorem Stat_Test_after_Save (Modes_Dir : FileMode) (fuel : nat) (r : SFTP) (h : Handle)
    (rd : Reader) (w w1 : MemFS.World) :
  Filename (layout r) h = filename r h ->
  Save Modes_Dir fuel r h rd w = Some (w1, None) ->
  (Stat r h w1).2 = inr (zlen (rd_data rd))
  /\ (Test r h w1).2 = (true, None).
Proof.
  intros Hlay Hsave.
  destruct (MemFSFacts.Save_ok _ _ _ _ _ _ _ Hsave) as (Hv & Hchan & (n & Hn & Hdata & _) & _).
  rewrite Hlay in Hn. split.
  - rewrite (Stat_eq r h w1 n Hchan Hv Hn). cbn. now rewrite Hdata.
  - rewrite (Test_eq r h w1 Hchan), Hn. reflexivity.
Qed.

Lemma Stat_Test_after_Save_witness :
  (Stat Fixture.repo Fixture.blob Fixture.stored).2 = inr 10
  /\ (Test Fixture.repo Fixture.blob Fixture.stored).2 = (true, None).
Proof.
  apply (Stat_Test_after_Save Fixture.dir_mode 4 Fixture.repo Fixture.blob Fixture.ten
           Fixture.created Fixture.stored).
  - reflexivity.
  - vm_compute. reflexivity.
Defined.

(** X5: with the subprocess alive and a valid handle that has no entry on the
    in-memory remote side, Test returns [(false, nil)]; Stat returns the
    not-exist error wrapped as [Lstat]; Load, for an offset that is not
    negative, returns the not-exist error of the open as it is, with no
    wrapper; Remove returns it as it is; and none of the four changes a
    remote entry. *)
Theorem missing_entry_outcomes (r : SFTP) (h : Handle) (length offset : Z)
    (w : MemFS.World) :
  MemFS.result_chan w = None -> Valid h = None -> 0 <= offset ->
  MemFS.fs w !! filename r h = None ->
  ((Test r h w).2 = (false, None) /\ MemFS.fs (Test r h w).1 = MemFS.fs w)
  /\ ((Stat r h w).2 = inl (ErrWrap ErrNotExist "Lstat")
      /\ MemFS.fs (Stat r h w).1 = MemFS.fs w)
  /\ ((Load r h length offset w).2 = inl ErrNotExist
      /\ MemFS.fs (Load r h length offset w).1 = MemFS.fs w)
  /\ ((Remove r h w).2 = Some ErrNotExist /\ MemFS.fs (Remove r h w).1 = MemFS.fs w).
Proof.
  intros Hchan Hv Hoff Hnone. split; [|split; [|split]].
  - rewrite (Test_eq r h w Hchan), Hnone. split; reflexivity.
  - unfold Stat. unfold bind at 1 3. rewrite MemFSFacts.clientError_eq, Hchan, Hv.
    unfold bind, ret. cbn [c_Lstat MemFS.client]. rewrite MemFSFacts.Lstat_eq, Hnone.
    split; reflexivity.
  - unfold Load. rewrite Hv. destruct (offset <? 0) eqn:E; [lia|].
    unfold bind, ret. cbn [c_Open MemFS.client]. unfold MemFS.OpenFile.
    cbn [MemFS.fs MemFS.logged]. rewrite Hnone. split; reflexivity.
  - unfold Remove. unfold bind. rewrite MemFSFacts.clientError_eq, Hchan.
    cbn [c_Remove MemFS.client]. unfold MemFS.Remove. cbn [MemFS.fs MemFS.logged].
    rewrite Hnone. split; reflexivity.
Qed.

Lemma missing_entry_outcomes_witness :
  (Test Fixture.repo Fixture.missing Fixture.stored).2 = (false, None)
  /\ (Stat Fixture.repo Fixture.missing Fixture.stored).2 = inl (ErrWrap ErrNotExist "Lstat")
  /\ (Load Fixture.repo Fixture.missing 0 0 Fixture.stored).2 = inl ErrNotExist
  /\ (Remove Fixture.repo Fixture.missing Fixture.stored).2 = Some ErrNotExist.
Proof.
  destruct (missing_entry_outcomes Fixture.repo Fixture.missing 0 0 Fixture.stored
              eq_refl eq_refl ltac:(lia) eq_refl)
    as ((Ht & _) & (Hs & _) & (Hl & _) & (Hr & _)).
  split; [exact Ht|]. split; [exact Hs|]. split; [exact Hl | exact Hr].
Defined.

(** X6: after a successful [Save(h, b)], on a backend whose layout names the
    file as [filename] does, Remove returns nil although the entry is
    read-only, and takes away that entry and no other; then Test returns
    [(false, nil)], and a new Save on the handle succeeds and stores its
    bytes. *)
Theorem Remove_frees_the_handle (Modes_Dir : FileMode) (fuel : nat) (r : SFTP) (h : Handle)
    (rd rd2 : Reader) (w w1 : MemFS.World) :
  Filename (layout r) h = filename r h -> rd_err rd2 = None -> fuel <> O ->
  Save Modes_Dir fuel r h rd w = Some (w1, None) ->
  exists w2 w3,
    Remove r h w1 = (w2, None)
    /\ MemFS.fs w2 = delete (filename r h) (MemFS.fs w1)
    /\ (Test r h w2).2 = (false, None)
    /\ Save Modes_Dir fuel r h rd2 w2 = Some (w3, None)
    /\ MemFS.fs w3
       = <[filename r h := {| MemFS.n_mode := 292; MemFS.n_data := rd_data rd2 |}]>
           (MemFS.fs w2).
Proof.
  intros Hlay Herr2 Hfuel Hsave.
  destruct (SaveFacts3.Save_success_inv Modes_Dir _ _ _ _ _ _ Hsave)
    as (w0 & Hv & _ & Hchan & _ & Hfree & Hparent & Hfs1).
  cbv zeta in Hfree, Hparent, Hfs1. rewrite Hlay in *.
  set (path := filename r h) in *.
  assert (Hne : path <> GoPath.Dir path).
  { intros Heq. unfold MemFS.is_dir_at in Hparent. rewrite <- Heq, Hfree in Hparent.
    discriminate. }
  assert (Hrm : Remove r h w1
                = (MemFS.with_fs (MemFS.logged (MemFS.CRemove path) w1)
                     (delete path (MemFS.fs w1)), None)).
  { unfold Remove, bind. rewrite MemFSFacts.clientError_eq, Hchan.
    cbn [c_Remove MemFS.client]. unfold MemFS.Remove. cbn [MemFS.fs MemFS.logged].
    fold path. rewrite Hfs1, lookup_insert_eq. reflexivity. }
  set (w2 := MemFS.with_fs (MemFS.logged (MemFS.CRemove path) w1) (delete path (MemFS.fs w1))) in *.
  assert (Hfree2 : MemFS.fs w2 !! path = None) by (subst w2; cbn; apply lookup_delete_eq).
  destruct (Save_fresh Modes_Dir fuel r h rd2 w2) as (w3 & Hs3 & Hfs3 & _).
  - exact Hchan.
  - exact Hv.
  - exact Hfuel.
  - rewrite Hlay. exact Hfree2.
  - rewrite Hlay. fold path. subst w2. cbn [MemFS.fs MemFS.with_fs].
    unfold MemFS.is_dir_at in *. rewrite lookup_delete_ne by exact Hne.
    rewrite Hfs1, lookup_insert_ne by exact Hne. exact Hparent.
  - exists w2, w3. split; [exact Hrm|]. split; [reflexivity|].
    split; [rewrite (Test_eq r h w2 Hchan); fold path; now rewrite Hfree2|].
    rewrite Herr2 in Hs3. split; [exact Hs3|].
    rewrite Hfs3, Hlay. unfold MemFSDefs.stored_node. now rewrite Herr2.
Qed.

Lemma Remove_frees_the_handle_witness :
  exists w2 w3,
    Remove Fixture.repo Fixture.blob Fixture.stored = (w2, None)
    /\ MemFS.fs w2 = delete "/srv/repo/data/ab/abcdef0123" (MemFS.fs Fixture.stored)
    /\ (Test Fixture.repo Fixture.blob w2).2 = (false, None)
    /\ Save Fixture.dir_mode 4 Fixture.repo Fixture.blob Fixture.other w2 = Some (w3, None)
    /\ MemFS.fs w3
       = <["/srv/repo/data/ab/abcdef0123" :=
             {| MemFS.n_mode := 292; MemFS.n_data := Fixture.bytes_of "overwrite" |}]>
           (MemFS.fs w2).
Proof.
  apply (Remove_frees_the_handle Fixture.dir_mode 4 Fixture.repo Fixture.blob Fixture.ten
           Fixture.other Fixture.created Fixture.stored).
  - reflexivity.
  - reflexivity.
  - discriminate.
  - vm_compute. reflexivity.
Defined.

(** ** Recursive directory creation on the in-memory remote side *)

(** X7: on the in-memory remote side mkdirAll, whatever it returns, leaves
    every entry that was there before as it was: it adds directories and sets
    the mode of those it added, and touches nothing else. *)
Theorem mkdirAll_never_changes_an_entry (Modes_Dir : FileMode) (fuel : nat) (dir : string)
    (mode : FileMode) (w w' : MemFS.World) (e : goerr) (x : string) (n : MemFS.Node) :
  mkdirAll Modes_Dir fuel dir mode w = Some (w', e) ->
  MemFS.fs w !! x = Some n -> MemFS.fs w' !! x = Some n.
Proof. apply SaveFacts2.mkdirAll_preserves. Qed.

Lemma mkdirAll_never_changes_an_entry_witness :
  exists w' e,
    mkdirAll Fixture.dir_mode 3 "/srv/repo/data/cd" Fixture.dir_mode Fixture.stored
    = Some (w', e)
    /\ MemFS.fs w' !! "/srv/repo/data/ab/abcdef0123"
       = Some {| MemFS.n_mode := 292; MemFS.n_data := Fixture.bytes_of "0123456789" |}.
Proof.
  eexists _, _. split; [vm_compute; reflexivity|].
  eapply (mkdirAll_never_changes_an_entry Fixture.dir_mode 3 "/srv/repo/data/cd"
            Fixture.dir_mode Fixture.stored).
  - vm_compute. reflexivity.
  - vm_compute. reflexivity.
Defined.

(** X8: on the in-memory remote side, when mkdirAll has returned nil the
    path is a directory, and every later mkdirAll on the path, with any fuel
    but none and any mode, returns nil after its first Lstat: no Mkdir and no
    Chmod is sent, and the mode of the directory is not set again. *)
Theorem mkdirAll_again_only_stats (Modes_Dir : FileMode) (fuel fuel' : nat) (dir : string)
    (mode mode' : FileMode) (w w1 : MemFS.World) :
  mkdirAll Modes_Dir fuel dir mode w = Some (w1, None) ->
  MemFS.is_dir_at (MemFS.fs w1) dir = true
  /\ mkdirAll Modes_Dir (S fuel') dir mode' w1
     = Some (MemFS.logged (MemFS.CLstat dir) w1, None).
Proof.
  intros H. pose proof (MemFSFacts.mkdirAll_ok_dir Modes_Dir _ _ _ _ _ H) as Hd.
  split; [exact Hd|].
  cbn [mkdirAll]. unfold bindF, lift, retF. cbn [c_Lstat MemFS.client].
  rewrite MemFSFacts.Lstat_eq. unfold MemFS.is_dir_at in Hd.
  destruct (MemFS.fs w1 !! dir) as [n|]; [|discriminate].
  now rewrite MemFSFacts.IsDir_info, Hd.
Qed.

Lemma mkdirAll_again_only_stats_witness :
  exists w1,
    mkdirAll Fixture.dir_mode 3 "/srv/repo/data/cd" Fixture.dir_mode Fixture.stored
    = Some (w1, None)
    /\ mkdirAll Fixture.dir_mode 1 "/srv/repo/data/cd" 493 w1
       = Some (MemFS.logged (MemFS.CLstat "/srv/repo/data/cd") w1, None).
Proof.
  eexists. split; [vm_compute; reflexivity|].
  eapply (mkdirAll_again_only_stats Fixture.dir_mode 3 0 "/srv/repo/data/cd"
            Fixture.dir_mode 493 Fixture.stored).
  vm_compute. reflexivity.
Defined.

(** ** The health check *)

(** X9: for every client and subprocess, when the health check finds the
    exit of the subprocess signalled with an error, Save, Stat, Test and
    Remove return that error in the world the check left: no request goes to
    the remote side, and the handle is not looked at, valid or not. *)
Theorem dead_subprocess_fails_fast :
  forall (W : Type) (client : SftpClient W) (proc : Subprocess W)
         Modes_Dir fuel r h rd (w w0 : W) e,
    clientError r w = (w0, Some e) ->
    Save Modes_Dir fuel r h rd w = Some (w0, Some e)
    /\ Stat r h w = (w0, inl e)
    /\ Test r h w = (w0, (false, Some e))
    /\ Remove r h w = (w0, Some e).
Proof.
  intros W client proc Modes_Dir fuel r h rd w w0 e Hc.
  unfold Save, Stat, Test, Remove, bindF, lift, bind. rewrite Hc.
  repeat split; reflexivity.
Qed.

Lemma dead_subprocess_fails_fast_witness :
  let w := MemFS.with_proc Fixture.stored (Some (Some killed)) false in
  let w0 := MemFS.with_proc Fixture.stored None false in
  Save Fixture.dir_mode 4 Fixture.repo Fixture.blob Fixture.ten w = Some (w0, Some killed)
  /\ Stat Fixture.repo Fixture.blob w = (w0, inl killed)
  /\ Test Fixture.repo Fixture.blob w = (w0, (false, Some killed))
  /\ Remove Fixture.repo Fixture.blob w = (w0, Some killed).
Proof.
  cbv zeta.
  apply (dead_subprocess_fails_fast MemFS.World _ _ Fixture.dir_mode 4%nat Fixture.repo
           Fixture.blob Fixture.ten).
  reflexivity.
Defined.

(** X10: the exit of the subprocess is reported once.  On the in-memory
    remote side, whose channel holds the one value the waiting goroutine
    sends, once the health check has returned the exit error the next health
    check returns nil, and a Stat on a valid handle goes on to the remote
    Lstat. *)
Theorem exit_is_reported_once (r : SFTP) (h : Handle) (w w1 : MemFS.World) (e : error) :
  clientError r w = (w1, Some e) -> Valid h = None ->
  clientError r w1 = (w1, None)
  /\ MemFS.log (Stat r h w1).1 = MemFS.CLstat (filename r h) :: MemFS.log w1.
Proof.
  intros Hc Hv. rewrite MemFSFacts.clientError_eq in Hc.
  assert (Hchan : MemFS.result_chan w1 = None).
  { destruct (MemFS.result_chan w) as [[e'|]|]; [|discriminate..].
    now injection Hc as <- _. }
  split; [now rewrite MemFSFacts.clientError_eq, Hchan|].
  unfold Stat. unfold bind at 1. rewrite MemFSFacts.clientError_eq, Hchan, Hv.
  unfold bind, ret. cbn [c_Lstat MemFS.client]. rewrite MemFSFacts.Lstat_eq.
  now destruct (MemFS.fs w1 !! filename r h).
Qed.

Lemma exit_is_reported_once_witness :
  let w1 := MemFS.with_proc Fixture.stored None false in
  clientError Fixture.repo w1 = (w1, None)
  /\ MemFS.log (Stat Fixture.repo Fixture.blob w1).1
     = MemFS.CLstat "/srv/repo/data/ab/abcdef0123" :: MemFS.log w1.
Proof.
  cbv zeta.
  apply (exit_is_reported_once Fixture.repo Fixture.blob
           (MemFS.with_proc Fixture.stored (Some (Some killed)) false) _ killed);
    reflexivity.
Defined.

(** ** Finalize-rename on the in-memory remote side *)

Section RenameOnMemFS.
Import MemFS MemFSFacts MemFSDefs SaveFacts2.
Variable Modes_Dir : FileMode.

Lemma land_mask_writable m : Z.land (Z.land m not_writable_mask) 146 = 0.
Proof.
  rewrite <- Z.land_assoc. change (Z.land not_writable_mask 146) with 0. apply Z.land_0_r.
Qed.

(** The mode the final Chmod of Save and renameFile leaves has no write bit. *)
Lemma chmod_mode_not_writable m :
  Z.land (Z.lor (Z.land m ModeDir) (Z.land (Z.land m not_writable_mask) ModePerm)) 146 = 0.
Proof.
  rewrite Z.land_lor_distr_l.
  rewrite <- (Z.land_assoc m ModeDir 146). change (Z.land ModeDir 146) with 0.
  rewrite Z.land_0_r, Z.lor_0_l.
  rewrite <- (Z.land_assoc _ ModePerm 146). change (Z.land ModePerm 146) with 146.
  apply land_mask_writable.
Qed.

Lemma renameFile_mem fuel r oldname h w :
  fuel <> O -> is_dir_at (fs w) (GoPath.Dir (filename r h)) = true ->
  exists w0, fs w0 = fs w /\
    renameFile Modes_Dir fuel r oldname h w =
    match fs w !! filename r h with
    | Some _ =>
        Some (logged (CLstat (filename r h)) w0,
              Some (ErrNew ("Close(): file " +:+ filename r h +:+ " already exists")))
    | None =>
        match fs w !! oldname with
        | None =>
            Some (logged (CRename oldname (filename r h)) (logged (CLstat (filename r h)) w0),
                  Some (ErrWrap ErrNotExist "Rename"))
        | Some n =>
            let n' := {| n_mode := Z.lor (Z.land (n_mode n) ModeDir)
                                     (Z.land (Z.land (n_mode n) not_writable_mask) ModePerm);
                         n_data := n_data n |} in
            Some (with_fs
                    (logged (CChmod (filename r h) (Z.land (n_mode n) not_writable_mask))
                       (logged (CLstat (filename r h))
                          (logged (CRename oldname (filename r h))
                             (logged (CLstat (filename r h)) w0))))
                    (<[filename r h := n']> (delete oldname (fs w))),
                  None)
        end
    end.
Proof.
  intros Hfuel Hparent.
  destruct (dir_step_ready Modes_Dir fuel h (filename r h) w) as (w0 & Hd & Hfs0 & _).
  { intros _. split; assumption. }
  exists w0. split; [exact Hfs0|].
  unfold renameFile. unfold bindF at 1. unfold dir_step in Hd. rewrite Hd.
  set (dest := filename r h) in *.
  unfold bindF at 1. unfold lift at 1. cbn [c_Lstat client]. rewrite Lstat_eq, Hfs0.
  destruct (fs w !! dest) as [nd|] eqn:Hdest; [reflexivity|].
  unfold bindF at 1. unfold lift at 1. cbn [c_Rename client]. unfold Rename.
  cbn [fs logged]. rewrite Hfs0, Hdest.
  destruct (fs w !! oldname) as [n|] eqn:Hold; [|reflexivity].
  unfold bindF at 1. unfold lift at 1. cbn [c_Lstat client]. rewrite Lstat_eq.
  cbn [fs logged with_fs]. rewrite lookup_insert_eq.
  unfold bindF, lift, retF. cbn [c_Chmod client]. unfold Chmod.
  cbn [fs logged with_fs info fi_Mode]. rewrite lookup_insert_eq. cbn [Wrap].
  cbv zeta. cbn [n_mode n_data]. rewrite insert_insert_eq. reflexivity.
Qed.
End RenameOnMemFS.

(** X11: on the in-memory remote side, with the directory of the destination
    there, renameFile on a temporary file whose destination is free returns
    nil: the entry is gone from the old name and stands at the path of the
    handle with the same bytes and no write bit in its mode, and no other
    entry changes. *)
Theorem renameFile_moves_and_protects (Modes_Dir : FileMode) (fuel : nat) (r : SFTP)
    (oldname : string) (h : Handle) (w : MemFS.World) (n : MemFS.Node) :
  fuel <> O ->
  MemFS.is_dir_at (MemFS.fs w) (GoPath.Dir (filename r h)) = true ->
  MemFS.fs w !! filename r h = None ->
  MemFS.fs w !! oldname = Some n ->
  exists w' n',
    renameFile Modes_Dir fuel r oldname h w = Some (w', None)
    /\ MemFS.fs w' = <[filename r h := n']> (delete oldname (MemFS.fs w))
    /\ MemFS.n_data n' = MemFS.n_data n
    /\ Z.land (MemFS.n_mode n') 146 = 0.
Proof.
  intros Hfuel Hparent Hfree Hold.
  destruct (renameFile_mem Modes_Dir fuel r oldname h w Hfuel Hparent) as (w0 & _ & Hr).
  rewrite Hfree, Hold in Hr. cbv zeta in Hr.
  eexists _, _. split; [exact Hr|]. split; [reflexivity|]. split; [reflexivity|].
  apply chmod_mode_not_writable.
Qed.

(** X12: in the same situation, when the path of the handle has an entry,
    renameFile fails with the already-exists error after its Lstat: no Rename
    is sent, the temporary file stays where it is and no entry changes. *)
Theorem renameFile_refuses_existing (Modes_Dir : FileMode) (fuel : nat) (r : SFTP)
    (oldname : string) (h : Handle) (w : MemFS.World) (n : MemFS.Node) :
  fuel <> O ->
  MemFS.is_dir_at (MemFS.fs w) (GoPath.Dir (filename r h)) = true ->
  MemFS.fs w !! filename r h = Some n ->
  exists w',
    renameFile Modes_Dir fuel r oldname h w
    = Some (w', Some (ErrNew ("Close(): file " +:+ filename r h +:+ " already exists")))
    /\ MemFS.fs w' = MemFS.fs w
    /\ hd_error (MemFS.log w') = Some (MemFS.CLstat (filename r h)).
Proof.
  intros Hfuel Hparent Hn.
  destruct (renameFile_mem Modes_Dir fuel r oldname h w Hfuel Hparent) as (w0 & Hfs & Hr).
  rewrite Hn in Hr. eexists. split; [exact Hr|]. split; [exact Hfs | reflexivity].
Qed.

Lemma renameFile_moves_and_protects_witness :
  exists w' n',
    renameFile Fixture.dir_mode 1 Fixture.repo Scenario.temp_name Scenario.fresh
      Scenario.staged = Some (w', None)
    /\ MemFS.fs w'
       = <[filename Fixture.repo Scenario.fresh := n']>
           (delete Scenario.temp_name (MemFS.fs Scenario.staged))
    /\ MemFS.n_data n' = Fixture.bytes_of "overwrite"
    /\ Z.land (MemFS.n_mode n') 146 = 0.
Proof.
  apply (renameFile_moves_and_protects Fixture.dir_mode 1 Fixture.repo Scenario.temp_name
           Scenario.fresh Scenario.staged
           {| MemFS.n_mode := 420; MemFS.n_data := Fixture.bytes_of "overwrite" |}).
  - discriminate.
  - vm_compute. reflexivity.
  - vm_compute. reflexivity.
  - vm_compute. reflexivity.
Defined.

Lemma renameFile_refuses_existing_witness :
  exists w',
    renameFile Fixture.dir_mode 1 Fixture.repo Scenario.temp_name Fixture.blob Scenario.staged
    = Some (w', Some (ErrNew "Close(): file /srv/repo/data/ab/abcdef0123 already exists"))
    /\ MemFS.fs w' = MemFS.fs Scenario.staged
    /\ hd_error (MemFS.log w') = Some (MemFS.CLstat "/srv/repo/data/ab/abcdef0123").
Proof.
  apply (renameFile_refuses_existing Fixture.dir_mode 1 Fixture.repo Scenario.temp_name
           Fixture.blob Scenario.staged
           {| MemFS.n_mode := 292; MemFS.n_data := Fixture.bytes_of "0123456789" |}).
  - discriminate.
  - vm_compute. reflexivity.
  - vm_compute. reflexivity.
Defined.

(** ** Create and Open *)

Section CreateOnMemFS.
Import MemFS MemFSFacts MkdirFacts.
Variable Modes_Dir : FileMode.
Variable SplitShellArgs : string -> string * list string * goerr.
Variable ParseLayout : string -> string -> string -> St World (result Layout).

Lemma create_paths_dirs fuel : forall ds w w',
  create_paths Modes_Dir fuel ds w = Some (w', None) ->
  (forall x, is_dir_at (fs w) x = true -> is_dir_at (fs w') x = true)
  /\ Forall (fun d => is_dir_at (fs w') d = true) ds.
Proof.
  induction ds as [|d ds IH]; intros w w'.
  - unfold create_paths, retF. intros [= <-]. split; [auto | constructor].
  - cbn [create_paths]. unfold bindF.
    destruct (mkdirAll Modes_Dir fuel d Modes_Dir w) as [[w1 [e|]]|] eqn:Hm;
      [unfold retF; discriminate | | discriminate].
    intros Hrest. destruct (IH w1 w' Hrest) as [Hkeep Hall].
    pose proof (mkdirAll_ok_dir Modes_Dir _ _ _ _ _ Hm) as Hd.
    split.
    + intros x Hx. apply Hkeep. eapply mkdirAll_keeps_dirs; eassumption.
    + constructor; [now apply Hkeep | exact Hall].
Qed.

Lemma CloseSession_fs w : fs (CloseSession w).1 = fs w.
Proof. unfold CloseSession. cbn. destruct (running w && negb (stalls w)); reflexivity. Qed.

Lemma poll_fs w : fs (poll w).1 = fs w.
Proof. unfold poll. destruct (result_chan w); reflexivity. Qed.

Lemma Kill_fs w : fs (Kill w).1 = fs w.
Proof. unfold Kill. destruct (running w); reflexivity. Qed.

Lemma recv_fs w : fs (recv w).1 = fs w.
Proof. unfold recv. destruct (result_chan w); reflexivity. Qed.

(** Close sends the remote side no request that changes an entry. *)
Lemma Close_fs r w : fs (Close (Some r) w).1 = fs w.
Proof.
  unfold Close, bind, ret. cbn [c_Close result_wait proc_Kill result_recv client proc].
  pose proof (CloseSession_fs w) as H1. destruct (CloseSession w) as [w1 e1]. cbn [fst] in H1.
  pose proof (poll_fs w1) as H2. destruct (poll w1) as [w2 [err|]]; cbn [fst] in *;
    [congruence|].
  pose proof (Kill_fs w2) as H3. destruct (Kill w2) as [w3 [e|]]; cbn [fst] in *;
    [congruence|].
  pose proof (recv_fs w3) as H4. destruct (recv w3) as [w4 e4]. cbn [fst] in *. congruence.
Qed.

Lemma check_paths_fs ds : forall w, fs (check_paths ds w).1 = fs w.
Proof.
  induction ds as [|d ds IH]; intros w; [reflexivity|].
  cbn [check_paths]. unfold bind. cbn [c_Lstat client]. rewrite Lstat_eq.
  destruct (fs w !! d); [|reflexivity]. now rewrite IH.
Qed.

Hypothesis ParseLayout_reads :
  forall name deflt path v, fs (ParseLayout name deflt path v).1 = fs v.

Lemma Open_fs cfg w : fs (Open SplitShellArgs ParseLayout cfg w).1 = fs w.
Proof.
  unfold Open. destruct (buildSSHCommand SplitShellArgs cfg) as [[cmd args] [e|]]; [reflexivity|].
  unfold bind at 1. unfold startClient. cbn [proc_start proc]. unfold start.
  unfold bind at 1.
  pose proof (ParseLayout_reads (LayoutName cfg) defaultLayout (Path cfg)
                (with_proc w None true)) as Hp.
  destruct (ParseLayout _ _ _ _) as [w2 [e|lay]]; cbn [fst] in Hp; [exact Hp|].
  unfold bind. pose proof (check_paths_fs (paths (Path cfg)) w2) as Hc.
  destruct (check_paths (paths (Path cfg)) w2) as [w3 [e|]]; unfold ret; cbn [fst fs with_proc] in *;
    congruence.
Qed.

Lemma Open_result cfg w w' r :
  Open SplitShellArgs ParseLayout cfg w = (w', inr r) ->
  p r = Path cfg /\ config r = cfg.
Proof.
  unfold Open. destruct (buildSSHCommand SplitShellArgs cfg) as [[cmd args] [e|]];
    [unfold ret; discriminate|].
  unfold bind at 1. destruct (startClient cmd args w) as [w1 [e|]]; [unfold ret; discriminate|].
  unfold bind at 1. destruct (ParseLayout _ _ _ w1) as [w2 [e|lay]]; [unfold ret; discriminate|].
  unfold bind. destruct (check_paths _ w2) as [w3 [e|]]; unfold ret; [discriminate|].
  intros [= _ <-]. split; reflexivity.
Qed.

Lemma Create_skeleton fuel cfg w w' r :
  Create Modes_Dir SplitShellArgs ParseLayout fuel cfg w = Some (w', inr r) ->
  fs w !! Join [Path cfg; "config"] = None
  /\ Forall (fun d => is_dir_at (fs w') d = true) (paths (Path cfg))
  /\ Location r = Path cfg /\ config r = cfg.
Proof.
  unfold Create.
  destruct (buildSSHCommand SplitShellArgs cfg) as [[cmd args] [e|]];
    [unfold retF; discriminate|].
  unfold bindF at 1. unfold lift at 1. unfold startClient. cbn [proc_start proc]. unfold start.
  unfold bindF at 1. unfold lift at 1.
  pose proof (ParseLayout_reads (LayoutName cfg) defaultLayout (Path cfg)
                (with_proc w None true)) as Hp.
  destruct (ParseLayout _ _ _ _) as [w2 [e|lay]]; cbn [fst] in Hp; [unfold retF; discriminate|].
  unfold bindF at 1. unfold lift at 1. cbn [c_Lstat client]. rewrite Lstat_eq.
  unfold Paths.Config.
  destruct (fs w2 !! Join [Path cfg; "config"]) eqn:Hcfg; [unfold retF; discriminate|].
  unfold bindF at 1.
  destruct (create_paths Modes_Dir fuel (paths (Path cfg)) _) as [[w3 [e|]]|] eqn:Hcp;
    [unfold retF; discriminate | | discriminate].
  destruct (create_paths_dirs _ _ _ _ Hcp) as [_ Hall].
  unfold bindF at 1. unfold lift at 1.
  pose proof (Close_fs {| p := ""; layout := lay; config := zeroConfig |} w3) as Hcl.
  destruct (Close _ w3) as [w4 [e|]]; [unfold retF; discriminate|]. cbn [fst] in Hcl.
  unfold lift. intros [= Hopen].
  pose proof (Open_fs cfg w4) as Hfs. rewrite Hopen in Hfs. cbn [fst] in Hfs.
  destruct (Open_result cfg w4 w' r Hopen) as [Hp' Hc'].
  split; [cbn [fs with_proc] in Hp; congruence|].
  split; [|split; assumption].
  rewrite Hfs, Hcl. exact Hall.
Qed.
End CreateOnMemFS.

Section OpenLeak.
Import MemFS MemFSFacts.

Lemma check_paths_same_proc ds : forall w, same_proc w (check_paths ds w).1.
Proof.
  induction ds as [|d ds IH]; intros w; [apply same_proc_refl|].
  cbn [check_paths]. unfold bind. cbn [c_Lstat client]. rewrite Lstat_eq.
  destruct (fs w !! d); [|repeat split].
  eapply same_proc_trans; [|apply IH]. repeat split.
Qed.
End OpenLeak.

(** X13: on the in-memory remote side, with a layout parser that only reads,
    when Create returns a backend there was no config file when it looked,
    each of the seven paths of [paths] is a directory afterwards, and the
    backend it returns reports the configured path as its location and holds
    the configuration it was given. *)
Theorem Create_leaves_the_skeleton :
  forall Modes_Dir SplitShellArgs
         (ParseLayout : string -> string -> string -> St MemFS.World (result Layout))
         fuel cfg (w w' : MemFS.World) r,
    (forall name deflt path v, MemFS.fs (ParseLayout name deflt path v).1 = MemFS.fs v) ->
    Create Modes_Dir SplitShellArgs ParseLayout fuel cfg w = Some (w', inr r) ->
    MemFS.fs w !! Join [Path cfg; "config"] = None
    /\ Forall (fun d => MemFS.is_dir_at (MemFS.fs w') d = true)
         [ Path cfg; Join [Path cfg; "data"]; Join [Path cfg; "snapshots"];
           Join [Path cfg; "index"]; Join [Path cfg; "locks"];
           Join [Path cfg; "keys"]; Join [Path cfg; "temp"] ]
    /\ Location r = Path cfg /\ config r = cfg.
Proof.
  intros Modes_Dir SplitShellArgs ParseLayout fuel cfg w w' r Hreads Hc.
  exact (Create_skeleton Modes_Dir SplitShellArgs ParseLayout Hreads fuel cfg w w' r Hc).
Qed.

Lemma Create_leaves_the_skeleton_witness :
  MemFS.fs MemFS.empty !! "/srv/repo/config" = None
  /\ Forall (fun d => MemFS.is_dir_at (MemFS.fs Fixture.created) d = true)
       [ "/srv/repo"; "/srv/repo/data"; "/srv/repo/snapshots"; "/srv/repo/index";
         "/srv/repo/locks"; "/srv/repo/keys"; "/srv/repo/temp" ]
  /\ Location Fixture.repo = "/srv/repo" /\ config Fixture.repo = Fixture.cfg.
Proof.
  apply (Create_leaves_the_skeleton Fixture.dir_mode Fixture.split_args Fixture.parse_layout
           8 Fixture.cfg MemFS.empty Fixture.created Fixture.repo).
  - intros. reflexivity.
  - vm_compute. reflexivity.
Defined.

(** X14: for every client, when the subprocess has started and the layout is
    parsed, and the Lstat of the config file succeeds, Create fails with
    "config file already exists" in the world that Lstat left: it sends no
    Mkdir, whatever the fuel, and it does not close the session it opened. *)
Theorem Create_refuses_existing_config :
  forall (W : Type) (client : SftpClient W) (proc : Subprocess W)
         Modes_Dir SplitShellArgs (ParseLayout : string -> string -> string -> St W (result Layout))
         fuel cfg cmd args (w w1 w2 w3 : W) lay fi,
    buildSSHCommand SplitShellArgs cfg = (cmd, args, None) ->
    startClient cmd args w = (w1, None) ->
    ParseLayout (LayoutName cfg) defaultLayout (Path cfg) w1 = (w2, inr lay) ->
    c_Lstat (Join [Path cfg; "config"]) w2 = (w3, inr fi) ->
    Create Modes_Dir SplitShellArgs ParseLayout fuel cfg w
    = Some (w3, inl (ErrNew "config file already exists")).
Proof.
  intros W client proc Modes_Dir SplitShellArgs ParseLayout fuel cfg cmd args w w1 w2 w3 lay fi
         Hb Hs Hp Hl.
  unfold Create. rewrite Hb. unfold bindF at 1. unfold lift at 1. rewrite Hs.
  unfold bindF at 1. unfold lift at 1. rewrite Hp.
  unfold bindF at 1. unfold lift at 1. unfold Paths.Config. rewrite Hl. reflexivity.
Qed.

Lemma Create_refuses_existing_config_witness :
  exists w3,
    Create Fixture.dir_mode Fixture.split_args Fixture.parse_layout 0 Fixture.cfg
      Scenario.configured
    = Some (w3, inl (ErrNew "config file already exists"))
    /\ MemFS.fs w3 = MemFS.fs Scenario.configured
    /\ MemFS.running w3 = true.
Proof.
  eexists. split.
  - eapply (Create_refuses_existing_config MemFS.World _ _ Fixture.dir_mode Fixture.split_args
              Fixture.parse_layout 0%nat Fixture.cfg); reflexivity.
  - split; reflexivity.
Defined.

(** X15: on the in-memory remote side, when Open fails because one of its
    paths is missing, the subprocess it started is left as it was after the
    layout was parsed: still running when it was, with no session close and
    no kill, and nothing else is left to end it, as no backend is returned. *)
Theorem Open_failure_leaves_subprocess :
  forall SplitShellArgs
         (ParseLayout : string -> string -> string -> St MemFS.World (result Layout))
         cfg cmd args (w w1 w2 : MemFS.World) lay d,
    buildSSHCommand SplitShellArgs cfg = (cmd, args, None) ->
    startClient cmd args w = (w1, None) ->
    ParseLayout (LayoutName cfg) defaultLayout (Path cfg) w1 = (w2, inr lay) ->
    MemFS.first_missing (MemFS.fs w2) (paths (Path cfg)) = Some d ->
    (Open SplitShellArgs ParseLayout cfg w).2 = inl (ErrNew (d +:+ " does not exist"))
    /\ MemFS.running (Open SplitShellArgs ParseLayout cfg w).1 = MemFS.running w2
    /\ MemFS.result_chan (Open SplitShellArgs ParseLayout cfg w).1 = MemFS.result_chan w2.
Proof.
  intros SplitShellArgs ParseLayout cfg cmd args w w1 w2 lay d Hb Hs Hp Hm.
  destruct (check_paths_mem (paths (Path cfg)) w2) as (w3 & Hc & _).
  pose proof (check_paths_same_proc (paths (Path cfg)) w2) as Hsp.
  rewrite Hc, Hm in *. cbn [fst fmap option_fmap option_map] in *.
  assert (Ho : Open SplitShellArgs ParseLayout cfg w
               = (w3, inl (ErrNew (d +:+ " does not exist")))).
  { unfold Open. rewrite Hb. unfold bind at 1. rewrite Hs.
    unfold bind at 1. rewrite Hp. unfold bind. rewrite Hc. reflexivity. }
  rewrite Ho. cbn [fst snd]. destruct Hsp as (H1 & H2 & _).
  split; [reflexivity|]. split; assumption.
Qed.

Lemma Open_failure_leaves_subprocess_witness :
  (Open Fixture.split_args Fixture.parse_layout Fixture.cfg MemFS.empty).2
  = inl (ErrNew "/srv/repo does not exist")
  /\ MemFS.running (Open Fixture.split_args Fixture.parse_layout Fixture.cfg MemFS.empty).1
     = true
  /\ MemFS.result_chan (Open Fixture.split_args Fixture.parse_layout Fixture.cfg MemFS.empty).1
     = None.
Proof.
  apply (Open_failure_leaves_subprocess Fixture.split_args Fixture.parse_layout Fixture.cfg
           "ssh" ["backup.example"; "-s"; "sftp"] MemFS.empty MemFS.empty MemFS.empty
           (DefaultLayout "/srv/repo") "/srv/repo"); reflexivity.
Defined.

(** ** The ssh command line *)

Lemma split_on_free sep x : has_char sep x = false -> GoPath.split_on sep x = [x].
Proof.
  induction x as [|c x IH]; cbn [has_char GoPath.split_on]; [reflexivity|].
  intros H. apply orb_false_iff in H as [Hc Hx]. now rewrite Hc, (IH Hx).
Qed.

Lemma split_on_first sep x y :
  has_char sep x = false ->
  GoPath.split_on sep (x +:+ String sep y) = x :: GoPath.split_on sep y.
Proof.
  intros Hx. rewrite GoPathFacts.split_on_app, split_on_free by exact Hx. reflexivity.
Qed.

(** X16: without a command override, buildSSHCommand never fails and runs
    [ssh]; the arguments are the host, then [-p] and the port when the host
    field has a colon, then [-l] and the user when there is one, then
    [-s sftp].  The host is the part of the field before its first colon and
    the port the part up to the second, what follows being dropped.  With a
    command override the result is that of the shell-word splitting and none
    of the fields is used. *)
Theorem buildSSHCommand_arguments :
  forall SplitShellArgs cfg,
    let user_args := if String.eqb (User cfg) "" then [] else ["-l"; User cfg] in
    (Command cfg = "" -> has_char ":" (Host cfg) = false ->
     buildSSHCommand SplitShellArgs cfg
     = ("ssh", [Host cfg] ++ user_args ++ ["-s"; "sftp"], None)%list)
    /\ (forall host port rest,
          Command cfg = "" -> has_char ":" host = false ->
          Host cfg = host +:+ String ":" rest ->
          hd_error (GoPath.split_on ":" rest) = Some port ->
          buildSSHCommand SplitShellArgs cfg
          = ("ssh", [host; "-p"; port] ++ user_args ++ ["-s"; "sftp"], None)%list)
    /\ (Command cfg <> "" ->
        buildSSHCommand SplitShellArgs cfg = SplitShellArgs (Command cfg)).
Proof.
  intros SplitShellArgs cfg user_args. subst user_args. split; [|split].
  - intros Hc Hh. unfold buildSSHCommand. rewrite Hc. cbn [String.eqb negb].
    rewrite split_on_free by exact Hh. cbn [hd].
    now destruct (String.eqb (User cfg) "").
  - intros host port rest Hc Hh Hhost Hport. unfold buildSSHCommand.
    rewrite Hc. cbn [String.eqb negb]. rewrite Hhost, split_on_first by exact Hh.
    destruct (GoPath.split_on ":" rest) as [|q qs]; [discriminate|].
    injection Hport as ->. cbn [hd].
    now destruct (String.eqb (User cfg) "").
  - intros Hc. unfold buildSSHCommand.
    now rewrite (proj2 (String.eqb_neq _ _) Hc).
Qed.

Lemma buildSSHCommand_arguments_witness :
  buildSSHCommand Fixture.split_args Fixture.cfg
  = ("ssh", ["backup.example"; "-s"; "sftp"], None)
  /\ buildSSHCommand Fixture.split_args Scenario.with_port
     = ("ssh", ["backup.example"; "-p"; "2222"; "-l"; "restic"; "-s"; "sftp"], None)
  /\ buildSSHCommand Fixture.split_args Scenario.overridden
     = Fixture.split_args "sftp-server -e".
Proof.
  split; [|split].
  - exact (proj1 (buildSSHCommand_arguments Fixture.split_args Fixture.cfg) eq_refl eq_refl).
  - exact (proj1 (proj2 (buildSSHCommand_arguments Fixture.split_args Scenario.with_port))
             "backup.example" "2222" "2222:x" eq_refl eq_refl eq_refl eq_refl).
  - apply (proj2 (proj2 (buildSSHCommand_arguments Fixture.split_args Scenario.overridden))).
    discriminate.
Defined.

(** ** List and cancellation *)

Section ListAnyClient.
Context {W : Type} {client : SftpClient W}.

Lemma emit_take items n :
  (emit items (Some n)).1.1 = take n items.
Proof.
  unfold emit. destruct (Nat.leb (length items) n) eqn:E; [|reflexivity].
  apply Nat.leb_le in E. cbn. symmetry. now apply take_ge.
Qed.

Lemma list_shards_cancelled basedir dirs : forall n (w : W),
  (list_shards basedir dirs (Some n) w).2 = take n (list_shards basedir dirs None w).2.
Proof.
  induction dirs as [|d dirs IH]; intros n w.
  - cbn. now rewrite take_nil.
  - cbn [list_shards]. unfold bind.
    destruct (c_ReadDir (Join [basedir; d]) w) as [w1 [e|es]]; [apply IH|].
    set (items := map fi_Name es). unfold emit.
    destruct (Nat.leb (length items) n) eqn:E.
    + apply Nat.leb_le in E. cbv iota beta.
      specialize (IH (n - length items)%nat w1).
      destruct (list_shards basedir dirs (Some (n - length items)%nat) w1) as [wa la].
      destruct (list_shards basedir dirs None w1) as [wb lb].
      unfold ret. cbn [snd] in *. rewrite IH.
      now rewrite take_app_ge by exact E.
    + apply Nat.leb_gt in E. cbv iota beta. unfold ret at 1. cbn [snd].
      destruct (list_shards basedir dirs None w1) as [wb lb]. unfold ret. cbn [snd].
      rewrite take_app_le by lia. reflexivity.
Qed.
End ListAnyClient.

(** X17: for every client and collection type, the names List hands over
    when the consumer takes [n] of them and then closes [done] are the first
    [n] of the names it hands over when the consumer never does: cancelling
    cuts the sequence and changes nothing before the cut. *)
Theorem List_cancelled_is_a_prefix :
  forall (W : Type) (client : SftpClient W) r t n (w : W),
    (List_ r t (Some n) w).2 = take n (List_ r t None w).2.
Proof.
  intros W client r t n w. unfold List_. destruct (is_DataFile t).
  - unfold bind. destruct (c_ReadDir _ w) as [w1 [e|l1]]; [cbn; now rewrite take_nil|].
    apply list_shards_cancelled.
  - unfold bind. destruct (c_ReadDir _ w) as [w1 [e|es]]; [cbn; now rewrite take_nil|].
    unfold ret. cbn [snd]. apply emit_take.
Qed.

(** ** Cleaned paths *)

(** X18: whatever the root path, the type and the name, the path and the
    directory the backend computes for a handle are in cleaned form:
    cleaning them again changes nothing, and neither is the empty string. *)
Theorem filename_is_cleaned (r : SFTP) (h : Handle) :
  GoPath.Clean (filename r h) = filename r h
  /\ GoPath.Clean (dirname r h) = dirname r h
  /\ filename r h <> "" /\ dirname r h <> "".
Proof.
  assert (Hj : forall l, GoPath.Clean (Join l) = Join l /\ Join l <> "").
  { intros l. unfold Join. split; [apply GoPathFacts.Clean_Clean | apply GoPathFacts.Clean_nonempty]. }
  unfold filename, dirname.
  destruct (Type_ h); repeat split; apply Hj.
Qed.

(** ** Names below a cleaned directory *)

Module NameFacts.
Import GoPath GoPathFacts DirFacts.

Lemma filter_nonempty_snoc (l : list string) name :
  name <> "" ->
  rev (filter (fun c => negb (String.eqb c "") = true) (l ++ [name])%list)
  = name :: rev (filter (fun c => negb (String.eqb c "") = true) l).
Proof.
  intros Hne. rewrite filter_app, rev_app_distr.
  rewrite filter_cons_True, filter_nil; [reflexivity|].
  apply negb_true_iff. now apply String.eqb_neq.
Qed.

Lemma real_nonempty name : real_elem name -> name <> "".
Proof. intros [Hs _] ->. discriminate. Qed.

Lemma split_render r st :
  st <> [] -> Forall slash_free st ->
  split_slash (render r st) = if r then "" :: rev st else rev st.
Proof.
  intros Hne Hsf.
  assert (Hrev : rev st <> []).
  { intros H. apply (f_equal (@length _)) in H. rewrite length_rev in H.
    destruct st; [congruence | discriminate]. }
  destruct r; unfold render.
  - rewrite split_slash_cons, split_join; [reflexivity | exact Hrev | now apply Forall_rev].
  - destruct st; [congruence|]. apply split_join; [exact Hrev | now apply Forall_rev].
Qed.

(** A plain name joined to a cleaned directory: the cleaned form has the
    name as its last element. *)
Lemma Clean_dir_name y name :
  slash_free name -> real_elem name ->
  let d := Clean y in
  let r := is_rooted d in
  let st := clean_elems r (split_slash d) in
  d = render r st
  /\ Clean (d +:+ String slash name) = render r (name :: st)
  /\ clean_elems r (split_slash d ++ [name])%list = name :: st
  /\ Forall slash_free st.
Proof.
  intros Hsf Hreal d r st.
  assert (Hr : r = is_rooted y) by apply is_rooted_Clean.
  assert (Hst : st = clean_elems (is_rooted y) (split_slash y)).
  { subst st. rewrite Hr. subst d. rewrite (Clean_unfold y).
    apply clean_elems_render, split_slash_elems. }
  assert (Hd : d = render r st).
  { rewrite Hst, Hr. apply Clean_unfold. }
  assert (Hstep : clean_elems r (split_slash d ++ [name])%list = name :: st).
  { unfold clean_elems. rewrite fold_left_app. cbn [fold_left].
    now rewrite step_real. }
  split; [exact Hd|]. split; [|split; [exact Hstep|]].
  - rewrite Clean_unfold. rewrite is_rooted_app by apply Clean_nonempty.
    fold r. unfold split_slash. rewrite split_on_app. fold split_slash.
    rewrite (split_slash_free name Hsf). now rewrite Hstep.
  - subst st. apply clean_elems_inv, split_slash_elems.
Qed.

Lemma Join_dir_name y name :
  Join [Clean y; name] = Clean (Clean y +:+ String slash name).
Proof.
  unfold Join. cbn [GoPath.Join].
  rewrite (proj2 (String.eqb_neq _ _) (Clean_nonempty y)).
  reflexivity.
Qed.

Lemma Dir_Join_plain y name :
  slash_free name -> real_elem name ->
  Dir (Join [Clean y; name]) = Clean y.
Proof.
  intros Hsf Hreal.
  destruct (Clean_dir_name y name Hsf Hreal) as (Hd & Hc & Hstep & Hst).
  cbv zeta in *. rewrite Join_dir_name, Hc.
  etransitivity; [|symmetry; exact Hd].
  eapply Dir_render; [|exact Hstep].
  apply Forall_app. split; [apply split_slash_elems | now constructor].
Qed.

Lemma Base_Join_plain y name :
  slash_free name -> real_elem name ->
  Base (Join [Clean y; name]) = name.
Proof.
  intros Hsf Hreal.
  destruct (Clean_dir_name y name Hsf Hreal) as (Hd & Hc & Hstep & Hst).
  cbv zeta in *. rewrite Join_dir_name, Hc. unfold Base.
  rewrite split_render; [|discriminate | now constructor].
  cbn [rev]. pose proof (real_nonempty name Hreal) as Hne.
  destruct (is_rooted (Clean y)).
  - change ("" :: rev (clean_elems true (split_slash (Clean y))) ++ [name])%list
      with (("" :: rev (clean_elems true (split_slash (Clean y)))) ++ [name])%list.
    now rewrite filter_nonempty_snoc.
  - now rewrite filter_nonempty_snoc.
Qed.

Lemma Join_plain_differs y name :
  slash_free name -> real_elem name -> Join [Clean y; name] <> Clean y.
Proof.
  intros Hsf Hreal Heq.
  pose proof (Dir_Join_plain y name Hsf Hreal) as Hdir.
  pose proof (Base_Join_plain y name Hsf Hreal) as Hbase.
  destruct (Clean_dir_name y name Hsf Hreal) as (Hd & Hc & Hstep & Hst).
  cbv zeta in *. rewrite Join_dir_name, Hc in Heq.
  apply (f_equal (fun s => length (clean_elems (is_rooted (Clean y)) (split_slash s)))) in Heq.
  rewrite <- Hc in Heq at 1.
  rewrite (Clean_unfold (Clean y +:+ String slash name)) in Heq.
  rewrite is_rooted_app in Heq by apply Clean_nonempty.
  rewrite clean_elems_render in Heq by apply split_slash_elems.
  unfold split_slash in Heq at 1. rewrite split_on_app in Heq. fold split_slash in Heq.
  rewrite (split_slash_free name Hsf), Hstep in Heq. cbn [length] in Heq. lia.
Qed.
End NameFacts.

(** The two results of [Join] agree on a cleaned directory and a name. *)
Lemma Join_cleaned_dir y name :
  Join [GoPath.Clean y; name] = GoPath.Join [GoPath.Clean y; name].
Proof.
  unfold Join. rewrite NameFacts.Join_dir_name. apply GoPathFacts.Clean_Clean.
Qed.

Lemma filename_Dir_Base (r : SFTP) (h : Handle) :
  Type_ h <> ConfigFile -> plain (Name h) ->
  GoPath.Dir (filename r h) = dirname r h
  /\ GoPath.Base (filename r h) = Name h
  /\ filename r h <> dirname r h.
Proof.
  intros Ht [Hsf Hreal].
  assert (Hf : filename r h = Join [dirname r h; Name h]).
  { unfold filename. destruct (Type_ h); try reflexivity. congruence. }
  assert (Hd : exists y, dirname r h = GoPath.Clean y).
  { unfold dirname, Join. eauto. }
  destruct Hd as [y Hd]. rewrite Hf, Hd, Join_cleaned_dir.
  split; [|split].
  - now apply NameFacts.Dir_Join_plain.
  - now apply NameFacts.Base_Join_plain.
  - now apply NameFacts.Join_plain_differs.
Qed.

(** X19: below the directory of its type, a handle that is no Config and has
    a plain name (one path element, not empty, not [.] or [..]) gets a path
    whose directory is [dirname] and whose last element is the name. *)
Theorem filename_splits_into_dirname_and_name (r : SFTP) (h : Handle) :
  Type_ h <> ConfigFile -> plain (Name h) ->
  GoPath.Dir (filename r h) = dirname r h
  /\ GoPath.Base (filename r h) = Name h
  /\ filename r h <> dirname r h.
Proof. exact (filename_Dir_Base r h). Qed.

Lemma filename_splits_witness :
  GoPath.Dir (filename Fixture.repo Fixture.blob) = dirname Fixture.repo Fixture.blob
  /\ GoPath.Base (filename Fixture.repo Fixture.blob) = Name Fixture.blob
  /\ filename Fixture.repo Fixture.blob <> dirname Fixture.repo Fixture.blob.
Proof.
  apply (filename_splits_into_dirname_and_name Fixture.repo Fixture.blob).
  - discriminate.
  - split; [reflexivity | split; reflexivity].
Defined.

Section JoinFlat.
Import GoPathFacts DirFacts.

(** [Join] of a location and path elements, as one cleaning of all the
    elements. *)
Lemma Join_flat root x xs :
  GoPath.no_skip x -> Forall GoPath.slash_free (x :: xs) ->
  Join (root :: x :: xs)
  = GoPath.render (GoPath.is_rooted root)
      (GoPath.clean_elems (GoPath.is_rooted root) (GoPath.split_slash root ++ x :: xs)%list).
Proof.
  intros Hx Hsf.
  assert (Hxne : x <> "") by (intros ->; discriminate).
  destruct (String.eqb_spec root "") as [->|Hr].
  - rewrite Join_cons_empty, Join_cons_nonempty by assumption.
    rewrite Clean_unfold.
    inversion Hsf as [|? ? Hx' Hxs]; subst.
    destruct (join_head x xs Hx Hx') as (c & rest & Hj & Hc).
    assert (Hroot : GoPath.is_rooted (GoPath.join_slash (x :: xs)) = false)
      by (rewrite Hj; exact Hc).
    rewrite Hroot, split_join by (assumption || discriminate).
    change (GoPath.is_rooted "") with false. change (GoPath.split_slash "") with [""].
    unfold GoPath.clean_elems. cbn [app fold_left]. now rewrite (step_skip false [] "").
  - rewrite Join_cons_nonempty by assumption.
    change (GoPath.join_slash (root :: x :: xs))
      with (root +:+ String GoPath.slash (GoPath.join_slash (x :: xs))).
    rewrite Clean_unfold, is_rooted_app by assumption.
    unfold GoPath.split_slash at 1. rewrite split_on_app. fold GoPath.split_slash.
    now rewrite split_join by (assumption || discriminate).
Qed.
End JoinFlat.

Module FlatFacts.
Import GoPath GoPathFacts DirFacts.

Lemma substring_slash_free n s : slash_free s -> slash_free (String.substring 0 n s).
Proof.
  unfold slash_free. revert s. induction n as [|n IH]; intros [|c s]; simpl; try reflexivity.
  intros H. apply orb_false_iff in H as [Hc Hs]. now rewrite Hc, IH.
Qed.

Lemma shard_no_skip s :
  Nat.ltb 2 (String.length s) = true -> no_skip (String.substring 0 2 s).
Proof.
  destruct s as [|a [|b [|c s]]]; try discriminate. intros _.
  unfold no_skip, is_skip. cbn. now destruct (Ascii.eqb a _).
Qed.

Lemma clean_elems_from r l1 l2 :
  clean_elems r (l1 ++ l2)%list = fold_left (clean_step r) l2 (clean_elems r l1).
Proof. unfold clean_elems. apply fold_left_app. Qed.

(** What cleaning leaves of the elements of a handle, the last one first. *)
Lemma path_stack (h : Handle) :
  known_type (Type_ h) = true ->
  (Type_ h <> ConfigFile -> plain (Name h)) ->
  Forall slash_free (path_elems h)
  /\ (exists x xs, path_elems h = x :: xs /\ no_skip x)
  /\ (forall r st, fold_left (clean_step r) (path_elems h) st
                   = (clean_elems true (path_elems h) ++ st)%list)
  /\ clean_elems true (path_elems h)
     = match Type_ h with
       | ConfigFile => [Paths.Config]
       | DataFile =>
           Name h :: (if Nat.ltb 2 (String.length (Name h))
                      then if is_dotdot (shard (Name h)) then [] else [shard (Name h); Paths.Data]
                      else [Paths.Data])
       | SnapshotFile => [Name h; Paths.Snapshots]
       | IndexFile => [Name h; Paths.Index]
       | LockFile => [Name h; Paths.Locks]
       | KeyFile => [Name h; Paths.Keys]
       | OtherFile _ => []
       end.
Proof.
  destruct h as [t name]. cbn [Type_ Name]. intros Hk Hp.
  unfold path_elems, dir_elems, clean_elems. cbn [Type_ Name].
  assert (Hdata : real_elem Paths.Data) by (split; reflexivity).
  destruct t; try discriminate Hk;
    try (destruct (Hp ltac:(discriminate)) as [Hsf Hreal]);
    try (split; [repeat constructor; exact Hsf
                | split; [eexists _, _; split; [reflexivity|reflexivity]
                         | split; [intros r st|]; cbn [app fold_left];
                           repeat rewrite (step_real _ _ name Hreal); reflexivity]]).
  destruct (Nat.ltb 2 (String.length name)) eqn:Hlen.
    + pose proof (shard_no_skip name Hlen) as Hns.
      pose proof (substring_slash_free 2 name Hsf) as Hss.
      fold (shard name) in *.
      split; [repeat constructor; assumption|].
      split; [eexists _, _; split; reflexivity|].
      destruct (is_dotdot (shard name)) eqn:Hdd.
      * split; [intros r st|]; cbn [app fold_left];
          repeat rewrite (step_real _ _ Paths.Data Hdata);
          repeat rewrite (step_pop _ Paths.Data _ (shard name) Hns Hdd eq_refl);
          repeat rewrite (step_real _ _ name Hreal); reflexivity.
      * split; [intros r st|]; cbn [app fold_left];
          repeat rewrite (step_real _ _ Paths.Data Hdata);
          repeat rewrite (step_real _ _ (shard name) (conj Hns Hdd));
          repeat rewrite (step_real _ _ name Hreal); reflexivity.
    + split; [repeat constructor; assumption|].
      split; [eexists _, _; split; reflexivity|].
      split; [intros r st|]; cbn [app fold_left];
        repeat rewrite (step_real _ _ Paths.Data Hdata);
        repeat rewrite (step_real _ _ name Hreal); reflexivity.
Qed.
End FlatFacts.

Section FlatPaths.
Import GoPath GoPathFacts DirFacts FlatFacts.

Lemma filename_flat (r : SFTP) (h : Handle) :
  known_type (Type_ h) = true ->
  (Type_ h <> ConfigFile -> plain (Name h)) ->
  filename r h
  = render (is_rooted (p r))
      (clean_elems (is_rooted (p r)) (split_slash (p r) ++ path_elems h)%list).
Proof.
  intros Hk Hp. destruct (path_stack h Hk Hp) as (Hsf & _ & _ & _).
  destruct h as [t name]. revert Hsf.
  unfold filename, dirname, path_elems, dir_elems. cbn [Type_ Name] in *.
  destruct t; try discriminate Hk; intros Hsf;
    try (rewrite Join_nested by discriminate; apply Join_flat; [reflexivity | exact Hsf]).
  - destruct (Nat.ltb 2 (String.length name)).
    + rewrite Join_nested_shard by (discriminate || reflexivity).
      apply Join_flat; [reflexivity | exact Hsf].
    + rewrite Join_nested by discriminate. apply Join_flat; [reflexivity | exact Hsf].
  - apply Join_flat; [reflexivity | exact Hsf].
Qed.

Lemma path_stack_eq (r : SFTP) (h1 h2 : Handle) :
  known_type (Type_ h1) = true -> known_type (Type_ h2) = true ->
  (Type_ h1 <> ConfigFile -> plain (Name h1)) ->
  (Type_ h2 <> ConfigFile -> plain (Name h2)) ->
  filename r h1 = filename r h2 ->
  clean_elems true (path_elems h1) = clean_elems true (path_elems h2).
Proof.
  intros Hk1 Hk2 Hp1 Hp2 Heq.
  rewrite (filename_flat r h1 Hk1 Hp1), (filename_flat r h2 Hk2 Hp2) in Heq.
  destruct (path_stack h1 Hk1 Hp1) as (Hsf1 & _ & Hst1 & _).
  destruct (path_stack h2 Hk2 Hp2) as (Hsf2 & _ & Hst2 & _).
  apply (f_equal (fun s => clean_elems (is_rooted (p r)) (split_slash s))) in Heq.
  rewrite !clean_elems_render in Heq
    by (apply Forall_app; split; [apply split_slash_elems | assumption]).
  rewrite !clean_elems_from, Hst1, Hst2 in Heq.
  now apply app_inv_tail in Heq.
Qed.
End FlatPaths.

(** X20: two handles of known types with plain names get the same path only
    when they have the same type and, unless that is Config, the same name:
    no two stored files of a repository share a path.  (The name of a Config
    handle is not part of its path.) *)
Theorem distinct_handles_distinct_paths (r : SFTP) (h1 h2 : Handle) :
  known_type (Type_ h1) = true -> known_type (Type_ h2) = true ->
  (Type_ h1 <> ConfigFile -> plain (Name h1)) ->
  (Type_ h2 <> ConfigFile -> plain (Name h2)) ->
  filename r h1 = filename r h2 ->
  Type_ h1 = Type_ h2 /\ (Type_ h1 <> ConfigFile -> Name h1 = Name h2).
Proof.
  intros Hk1 Hk2 Hp1 Hp2 Heq.
  pose proof (path_stack_eq r h1 h2 Hk1 Hk2 Hp1 Hp2 Heq) as Hst.
  destruct (FlatFacts.path_stack h1 Hk1 Hp1) as (_ & _ & _ & Hc1).
  destruct (FlatFacts.path_stack h2 Hk2 Hp2) as (_ & _ & _ & Hc2).
  rewrite Hc1, Hc2 in Hst. clear Hc1 Hc2 Heq.
  destruct h1 as [t1 n1], h2 as [t2 n2]. cbn [Type_ Name] in *.
  destruct t1; try discriminate Hk1; destruct t2; try discriminate Hk2;
    repeat match type of Hst with
           | context [if ?b then _ else _] => destruct b eqn:?
           end;
    try discriminate Hst;
    try (injection Hst as ->; split; [reflexivity | intros _; reflexivity]);
    try (injection Hst as ->; split; [reflexivity | congruence]);
    try (split; [reflexivity | congruence]).
  all: injection Hst; intros; subst;
    repeat match goal with
           | H : GoPath.is_dotdot _ = true |- _ => vm_compute in H; try discriminate H
           | H : (_ <? _)%nat = true |- _ => vm_compute in H; try discriminate H
           end.
Qed.

Lemma distinct_handles_witness :
  Type_ Fixture.blob = Type_ Fixture.blob
  /\ (Type_ Fixture.blob <> ConfigFile -> Name Fixture.blob = Name Fixture.blob).
Proof.
  apply (distinct_handles_distinct_paths Fixture.repo Fixture.blob Fixture.blob).
  - reflexivity.
  - reflexivity.
  - intros _. split; [reflexivity | split; reflexivity].
  - intros _. split; [reflexivity | split; reflexivity].
  - reflexivity.
Defined.

Module ListFacts.
Import MemFS MemFSFacts MemFSDefs.

Lemma elem_of_children (m : gmap string Node) dir k n :
  (k, n) ∈ children m dir <-> m !! k = Some n /\ k <> dir /\ GoPath.Dir k = dir.
Proof.
  unfold children. rewrite list_elem_of_filter, elem_of_map_to_list. cbn [fst].
  rewrite andb_true_iff, negb_true_iff. split.
  - intros [[Hne Hd] Hm]. split; [exact Hm|]. split.
    + now apply String.eqb_neq.
    + now apply String.eqb_eq.
  - intros (Hm & Hne & Hd). split; [|exact Hm]. split.
    + now apply String.eqb_neq.
    + now apply String.eqb_eq.
Qed.

Lemma ReadDir_names path w :
  (ReadDir path w).1 = logged (CReadDir path) w
  /\ match (ReadDir path w).2 with
     | inr es => map fi_Name es = names_at (fs w) path
     | inl _ => names_at (fs w) path = []
     end.
Proof.
  unfold ReadDir, names_at. cbn [fs logged].
  destruct (fs w !! path) as [n|]; [|split; reflexivity].
  destruct (node_IsDir n); [|split; reflexivity].
  split; [reflexivity|]. cbn [snd]. rewrite map_map. reflexivity.
Qed.

Lemma list_shards_mem basedir dirs : forall w,
  fs (list_shards basedir dirs None w).1 = fs w
  /\ (list_shards basedir dirs None w).2
     = concat (map (fun d => names_at (fs w) (Join [basedir; d])) dirs).
Proof.
  induction dirs as [|d dirs IH]; intros w; [split; reflexivity|].
  cbn [list_shards map concat]. unfold bind.
  change (c_ReadDir (Join [basedir; d]) w) with (ReadDir (Join [basedir; d]) w).
  destruct (ReadDir_names (Join [basedir; d]) w) as [Hw Hn].
  destruct (ReadDir (Join [basedir; d]) w) as [w1 res]. cbn [fst snd] in Hw, Hn. subst w1.
  destruct res as [e|es].
  - rewrite Hn. cbn [app]. apply (IH (logged _ w)).
  - cbn [emit]. unfold bind, ret.
    destruct (IH (logged (CReadDir (Join [basedir; d])) w)) as [IH1 IH2].
    destruct (list_shards basedir dirs None (logged (CReadDir (Join [basedir; d])) w)) as [w2 more].
    cbn [fst snd] in *. split; [exact IH1|]. now rewrite Hn, IH2.
Qed.
End ListFacts.

Section ListOnMemFS.
Import MemFS MemFSFacts MemFSDefs ListFacts.

Lemma List_data_mem (r : SFTP) (w : World) :
  let basedir := dirname r {| Type_ := DataFile; Name := "" |} in
  (List_ r DataFile None w).2
  = concat (map (fun d => names_at (fs w) (Join [basedir; d])) (names_at (fs w) basedir)).
Proof.
  intros basedir. unfold List_. cbn [is_DataFile]. fold basedir. unfold bind.
  change (c_ReadDir basedir w) with (ReadDir basedir w).
  destruct (ReadDir_names basedir w) as [Hw Hn].
  destruct (ReadDir basedir w) as [w1 res]. cbn [fst snd] in Hw, Hn. subst w1.
  destruct res as [e|l1]; [now rewrite Hn|].
  rewrite (proj2 (list_shards_mem basedir (map fi_Name l1) _)), Hn. reflexivity.
Qed.

Lemma List_other_mem (r : SFTP) (t : FileType) (w : World) :
  is_DataFile t = false ->
  (List_ r t None w).2 = names_at (fs w) (dirname r {| Type_ := t; Name := "" |}).
Proof.
  intros Ht. unfold List_. rewrite Ht. unfold bind.
  set (d := dirname r _).
  change (c_ReadDir d w) with (ReadDir d w).
  destruct (ReadDir_names d w) as [Hw Hn].
  destruct (ReadDir d w) as [w1 res]. cbn [fst snd] in Hw, Hn.
  destruct res as [e|es]; [now rewrite Hn|]. cbn [emit fst snd ret]. exact Hn.
Qed.

(** An entry below a directory is among the names read there. *)
Lemma names_at_child (m : gmap string Node) (dir k : string) (n nd : Node) :
  m !! dir = Some nd -> node_IsDir nd = true ->
  m !! k = Some n -> k <> dir -> GoPath.Dir k = dir ->
  In (GoPath.Base k) (names_at m dir).
Proof.
  intros Hd Hdir Hk Hne Hpar. unfold names_at. rewrite Hd, Hdir.
  apply in_map_iff. exists (k, n). split; [reflexivity|].
  apply list_elem_of_In, elem_of_children. auto.
Qed.

Lemma Join_shard_dir root d sh :
  d <> "" -> GoPath.is_rooted d = false ->
  Join [root; Join [d; sh]] = Join [Join [root; d]; sh].
Proof.
  intros Hd Hrel. rewrite Join_nested by assumption.
  rewrite (Join_cons_nonempty d [sh]) by assumption. cbn [GoPath.join_slash].
  destruct (String.eqb_spec root "") as [->|Hr].
  - rewrite !Join_cons_empty.
    rewrite (Join_cons_nonempty (GoPath.Clean _) []) by apply GoPathFacts.Clean_nonempty.
    cbn [GoPath.join_slash]. rewrite GoPathFacts.Clean_Clean.
    now rewrite Join_cons_nonempty by assumption.
  - rewrite (Join_cons_nonempty root [GoPath.Clean _]) by assumption. cbn [GoPath.join_slash].
    rewrite GoPathFacts.Clean_app_r by (assumption || now rewrite GoPathFacts.is_rooted_app).
    now rewrite Join_cons_nonempty by assumption.
Qed.
End ListOnMemFS.

(** X21: a file that Save stored is found by List of its type: the name of
    the handle is among the names sent when nobody cancels.  For a Data
    handle this needs a name longer than two characters whose first two
    are not [..], and the [data] directory in place. *)
Theorem List_finds_saved_file (Modes_Dir : FileMode) (fuel : nat) (r : SFTP) (h : Handle)
    (rd : Reader) (w w1 : MemFS.World) :
  Type_ h <> ConfigFile ->
  plain (Name h) ->
  Filename (layout r) h = filename r h ->
  (Type_ h = DataFile ->
   Nat.ltb 2 (String.length (Name h)) = true
   /\ GoPath.is_dotdot (String.substring 0 2 (Name h)) = false
   /\ MemFS.is_dir_at (MemFS.fs w) (dirname r {| Type_ := DataFile; Name := "" |}) = true) ->
  Save Modes_Dir fuel r h rd w = Some (w1, None) ->
  In (Name h) (List_ r (Type_ h) None w1).2.
Proof.
  intros Hcfg Hplain Hlay Hdata Hsave.
  destruct (SaveFacts3.Save_success_inv Modes_Dir fuel r h rd w w1 Hsave)
    as (w0 & Hv & _ & _ & Hpres & Hfree & Hdir & Hfs1).
  rewrite Hlay in Hfree, Hdir, Hfs1.
  destruct (filename_Dir_Base r h Hcfg Hplain) as (HD & HB & Hne).
  rewrite HD in Hdir. rewrite <- HB.
  set (path := filename r h) in *. set (D := dirname r h) in *.
  assert (Hpath : MemFS.fs w1 !! path = Some {| MemFS.n_mode := 292; MemFS.n_data := rd_data rd |}).
  { rewrite Hfs1. apply lookup_insert_eq. }
  assert (HDw1 : exists nD, MemFS.fs w1 !! D = Some nD /\ MemFS.node_IsDir nD = true).
  { unfold MemFS.is_dir_at in Hdir. destruct (MemFS.fs w0 !! D) as [nD|] eqn:E; [|discriminate].
    exists nD. split; [|exact Hdir]. rewrite Hfs1, lookup_insert_ne; [exact E | congruence]. }
  destruct HDw1 as (nD & HDw1 & HnD).
  assert (Hin : In (GoPath.Base path) (MemFSDefs.names_at (MemFS.fs w1) D)).
  { eapply names_at_child; eauto. }
  destruct (is_DataFile (Type_ h)) eqn:Ht.
  - assert (Htd : Type_ h = DataFile) by (destruct (Type_ h); try discriminate; reflexivity).
    destruct (Hdata Htd) as (Hlen & Hdd & HB0). rewrite Htd.
    rewrite List_data_mem. cbv zeta.
    set (B := dirname r {| Type_ := DataFile; Name := "" |}) in *.
    set (sh := String.substring 0 2 (Name h)) in *.
    assert (HDB : D = Join [B; sh]).
    { unfold D, B, dirname. cbn [Type_ Name]. rewrite Htd, Hlen.
      change (Nat.ltb 2 (String.length "")) with false. cbv iota. fold sh.
      apply Join_shard_dir; [discriminate | reflexivity]. }
    destruct Hplain as [Hsf Hreal].
    assert (Hshs : GoPath.slash_free sh) by now apply FlatFacts.substring_slash_free.
    assert (Hshr : GoPath.real_elem sh).
    { split; [now apply FlatFacts.shard_no_skip | exact Hdd]. }
    assert (HBc : exists y, B = GoPath.Clean y) by (unfold B, dirname, Join; eauto).
    destruct HBc as [y HBc].
    assert (HBw1 : exists nB, MemFS.fs w1 !! B = Some nB /\ MemFS.node_IsDir nB = true).
    { unfold MemFS.is_dir_at in HB0. destruct (MemFS.fs w !! B) as [nB|] eqn:E; [|discriminate].
      exists nB. split; [|exact HB0]. rewrite Hfs1, lookup_insert_ne.
      - now apply Hpres.
      - intros Heq. apply Hpres in E. rewrite <- Heq in E. congruence. }
    destruct HBw1 as (nB & HBw1 & HnB).
    apply in_concat. exists (MemFSDefs.names_at (MemFS.fs w1) (Join [B; sh])). split.
    + apply in_map_iff. exists sh. split; [reflexivity|].
      replace sh with (GoPath.Base D) at 1.
      * eapply names_at_child; eauto.
        -- rewrite HDB, HBc, Join_cleaned_dir. now apply NameFacts.Join_plain_differs.
        -- rewrite HDB, HBc, Join_cleaned_dir. now apply NameFacts.Dir_Join_plain.
      * rewrite HDB, HBc, Join_cleaned_dir. now apply NameFacts.Base_Join_plain.
    + now rewrite <- HDB.
  - rewrite List_other_mem by exact Ht.
    replace (dirname r {| Type_ := Type_ h; Name := "" |}) with D; [exact Hin|].
    unfold D, dirname. cbn [Type_ Name]. destruct (Type_ h); try reflexivity. discriminate.
Qed.

Lemma List_finds_saved_file_witness :
  In (Name Fixture.blob) (List_ Fixture.repo (Type_ Fixture.blob) None Fixture.stored).2.
Proof.
  apply (List_finds_saved_file Fixture.dir_mode 4 Fixture.repo Fixture.blob Fixture.ten
           Fixture.created Fixture.stored).
  - discriminate.
  - split; [reflexivity | split; reflexivity].
  - reflexivity.
  - intros _. split; [reflexivity | split; [reflexivity | vm_compute; reflexivity]].
  - vm_compute. reflexivity.
Defined.

(** X22: a Data handle whose name has at most two characters is stored
    directly in the [data] directory, where List looks for the directories
    of the first two characters.  In a repository whose [data] directory is
    still empty, Save of such a handle succeeds and Test finds the file, but
    List of Data sends no name. *)
Theorem short_data_name_is_not_listed (Modes_Dir : FileMode) (fuel : nat) (r : SFTP)
    (h : Handle) (rd : Reader) (w : MemFS.World) :
  let basedir := dirname r {| Type_ := DataFile; Name := "" |} in
  Type_ h = DataFile ->
  plain (Name h) ->
  Nat.ltb 2 (String.length (Name h)) = false ->
  Filename (layout r) h = filename r h ->
  MemFS.result_chan w = None -> fuel <> O -> rd_err rd = None ->
  MemFS.is_dir_at (MemFS.fs w) basedir = true ->
  MemFS.children (MemFS.fs w) basedir = [] ->
  exists w1,
    Save Modes_Dir fuel r h rd w = Some (w1, None)
    /\ filename r h = Join [basedir; Name h]
    /\ (Test r h w1).2 = (true, None)
    /\ (List_ r DataFile None w1).2 = [].
Proof.
  intros B Htd Hplain Hshort Hlay Hchan Hfuel Hrd HB Hempty.
  assert (Hcfg : Type_ h <> ConfigFile) by (rewrite Htd; discriminate).
  destruct (filename_Dir_Base r h Hcfg Hplain) as (HD & HBase & Hne).
  assert (HDB : dirname r h = B).
  { unfold B, dirname. cbn [Type_ Name]. rewrite Htd, Hshort. reflexivity. }
  rewrite HDB in HD, Hne.
  assert (Hf : filename r h = Join [B; Name h]).
  { unfold filename. rewrite Htd, HDB. reflexivity. }
  set (path := filename r h) in *.
  assert (Hv : Valid h = None).
  { unfold Valid. rewrite Htd. destruct Hplain as [_ [Hs _]].
    destruct (Name h); [discriminate | reflexivity]. }
  assert (Hfree : MemFS.fs w !! path = None).
  { destruct (MemFS.fs w !! path) as [n|] eqn:E; [|reflexivity].
    assert (Hin : (path, n) ∈ MemFS.children (MemFS.fs w) B)
      by (apply ListFacts.elem_of_children; auto).
    rewrite Hempty in Hin. inversion Hin. }
  destruct (Save_fresh Modes_Dir fuel r h rd w Hchan Hv Hfuel) as (w1 & Hs & Hfs & Hchan1).
  { now rewrite Hlay. }
  { now rewrite Hlay, HD. }
  rewrite Hlay in Hfs. fold path in Hfs. rewrite Hrd in Hs.
  assert (Hnode : MemFS.fs w1 !! path = Some (MemFSDefs.stored_node rd)).
  { rewrite Hfs. apply lookup_insert_eq. }
  exists w1. split; [exact Hs|]. split; [exact Hf|]. split.
  - rewrite Test_eq by exact Hchan1. cbn [snd]. fold path. rewrite Hnode. reflexivity.
  - rewrite List_data_mem. cbv zeta. fold B.
    match goal with |- ?l = [] => destruct l as [|x l'] eqn:El; [reflexivity|] end.
    exfalso.
    assert (Hx : In x (x :: l')) by now left.
    rewrite <- El in Hx. apply in_concat in Hx as (names & Hnames & Hx).
    apply in_map_iff in Hnames as (d & <- & Hd).
    unfold MemFSDefs.names_at in Hd at 1.
    destruct (MemFS.fs w1 !! B) as [nB|]; [|contradiction].
    destruct (MemFS.node_IsDir nB); [|contradiction].
    apply in_map_iff in Hd as ([k n] & <- & Hk). cbn [fst] in *.
    apply list_elem_of_In, ListFacts.elem_of_children in Hk as (Hk & HkB & HkD).
    assert (k = path) as ->.
    { destruct (String.eqb_spec k path) as [|Hkp]; [assumption|].
      rewrite Hfs, lookup_insert_ne in Hk by congruence.
      assert (Hin : (k, n) ∈ MemFS.children (MemFS.fs w) B)
        by (apply ListFacts.elem_of_children; auto).
      rewrite Hempty in Hin. inversion Hin. }
    rewrite HBase, <- Hf in Hx. unfold MemFSDefs.names_at in Hx.
    rewrite Hnode in Hx. unfold MemFSDefs.stored_node in Hx. rewrite Hrd in Hx.
    exact Hx.
Qed.

Lemma short_data_name_witness :
  exists w1,
    Save Fixture.dir_mode 4 Fixture.repo Scenario.short Fixture.ten Fixture.created
    = Some (w1, None)
    /\ filename Fixture.repo Scenario.short
       = Join [dirname Fixture.repo {| Type_ := DataFile; Name := "" |}; Name Scenario.short]
    /\ (Test Fixture.repo Scenario.short w1).2 = (true, None)
    /\ (List_ Fixture.repo DataFile None w1).2 = [].
Proof.
  apply (short_data_name_is_not_listed Fixture.dir_mode 4 Fixture.repo Scenario.short
           Fixture.ten Fixture.created).
  - reflexivity.
  - split; [reflexivity | split; reflexivity].
  - reflexivity.
  - reflexivity.
  - reflexivity.
  - discriminate.
  - reflexivity.
  - vm_compute. reflexivity.
  - vm_compute. reflexivity.
Defined.

Lemma Valid_error_new (h : Handle) (e : error) :
  Valid h = Some e -> exists msg, e = ErrNew msg.
Proof.
  unfold Valid. destruct (Type_ h); try discriminate;
    try (destruct (String.eqb (Name h) ""); [|discriminate]);
    intros [= <-]; eauto.
Qed.

(** X23: once the health check has passed, an error of Stat or of Test is
    never one that [SFTP.IsNotExist] recognises: the error of the remote
    Lstat comes back wrapped, and the validation error is no status error.
    So a caller cannot tell a missing file from another failure of Stat by
    [IsNotExist]. *)
Theorem IsNotExist_misses_Stat_and_Test_errors :
  forall (W : Type) (client : SftpClient W) (proc : Subprocess W) r h (w w0 : W),
    clientError r w = (w0, None) ->
    IsNotExist (err_of (Stat r h w).2) = false
    /\ IsNotExist (Test r h w).2.2 = false.
Proof.
  intros W client proc r h w w0 Hc. split.
  - unfold Stat. unfold bind at 1. rewrite Hc.
    destruct (Valid h) as [e|] eqn:Hv.
    + destruct (Valid_error_new h e Hv) as [msg ->]. reflexivity.
    + unfold bind, ret. destruct (c_Lstat (filename r h) w0) as [w1 [e|fi]]; reflexivity.
  - destruct (c_Lstat (filename r h) w0) as [w1 st] eqn:Hs.
    rewrite (Test_after_health r h w w0 w1 st Hc Hs). cbn [snd].
    destruct st as [e|fi]; [|reflexivity].
    now destruct (os_IsNotExist (Some (cause_of e))).
Qed.

Lemma IsNotExist_misses_witness :
  IsNotExist (err_of (Stat Fixture.repo Fixture.missing Fixture.created).2) = false
  /\ IsNotExist (Test Fixture.repo Fixture.missing Fixture.created).2.2 = false.
Proof.
  apply (IsNotExist_misses_Stat_and_Test_errors MemFS.World _ _ Fixture.repo Fixture.missing
           Fixture.created Fixture.created).
  reflexivity.
Defined.

(** X24: Close on the in-memory remote side, in a state where a pending exit
    means that the subprocess is gone.  A pending exit is what Close
    returns; a running subprocess ends, by itself or by the kill, and Close
    returns nil either way; with the exit consumed before, Close returns the
    error of the kill.  Afterwards no subprocess runs, no exit is pending,
    and no remote entry has changed. *)
Theorem Close_ends_the_subprocess (r : SFTP) (w : MemFS.World) :
  (MemFS.result_chan w <> None -> MemFS.running w = false) ->
  (Close (Some r) w).2
  = match MemFS.result_chan w with
    | Some err => err
    | None => if MemFS.running w then None else Some already_finished
    end
  /\ MemFS.running (Close (Some r) w).1 = false
  /\ MemFS.result_chan (Close (Some r) w).1 = None
  /\ MemFS.fs (Close (Some r) w).1 = MemFS.fs w.
Proof.
  intros Hinv. destruct w as [m l ch run st]. cbn [MemFS.result_chan MemFS.running] in *.
  unfold Close, bind, ret. cbn [c_Close result_wait proc_Kill result_recv MemFS.client MemFS.proc].
  unfold MemFS.CloseSession, MemFS.poll, MemFS.Kill, MemFS.recv, MemFS.logged, MemFS.with_proc.
  cbn [MemFS.result_chan MemFS.running MemFS.stalls MemFS.fs MemFS.log].
  destruct ch as [err|].
  - rewrite (Hinv ltac:(discriminate)). cbn. repeat split.
  - destruct run, st; cbn; repeat split.
Qed.

Lemma Close_ends_the_subprocess_witness :
  (Close (Some Fixture.repo) Scenario.exited).2 = Some killed
  /\ MemFS.running (Close (Some Fixture.repo) Scenario.exited).1 = false
  /\ MemFS.result_chan (Close (Some Fixture.repo) Scenario.exited).1 = None
  /\ MemFS.fs (Close (Some Fixture.repo) Scenario.exited).1 = MemFS.fs Scenario.exited.
Proof.
  apply (Close_ends_the_subprocess Fixture.repo Scenario.exited).
  intros _. reflexivity.
Defined.
